(** * Telegram channel scraper: registry, downloader, iterator, partition writer

    A shallow embedding of [src/scraper.py] (class [TelegramScraper]) and the
    properties of its quota registry, media downloader, channel iterator and
    date-partitioned JSON writer.

    Conventions of the embedding:
    - Python [str] values are modelled by [string]; [str.lower] and
      [str.isalnum] are given on the ASCII range, where they agree with
      Python's.
    - Python [int] values are [Z].
    - [dict]s whose iteration order is observed are insertion-ordered
      association lists ([pydict]); the in-memory counters and sets of the
      scraper, whose order is never observed, are [gmap]s and [gset]s.
    - Exceptions are explicit: a computation that can raise returns a
      [result].
    - The provider and the file system are the outside world: a fetch
      returns or raises and leaves a file or not, as the provider decides;
      a partition file holds what [json.load] finds in it.  The write of a
      partition file is taken to go through. *)

From Stdlib Require Import ZArith Ascii String List Bool Lia.
From stdpp Require Import base option list gmap strings pretty.

Local Open Scope Z_scope.

(** ** Exceptions and results *)

Inductive exn : Type :=
  | KeyError
  | ValueError
  | TypeError
  | JSONDecodeError
  | UsernameNotOccupiedError
  | ChannelPrivateError
  | UnicodeDecodeError
  | FloodWaitError (seconds : Z)
  | OtherError.

Inductive result (A : Type) : Type :=
  | Ok (a : A)
  | Raise (e : exn).
Arguments Ok {A} a.
Arguments Raise {A} e.

(** ** Python strings *)

Module PyStr.

Definition is_upper (c : ascii) : bool :=
  let n := nat_of_ascii c in Nat.leb 65 n && Nat.leb n 90.

Definition is_lower (c : ascii) : bool :=
  let n := nat_of_ascii c in Nat.leb 97 n && Nat.leb n 122.

Definition is_digit (c : ascii) : bool :=
  let n := nat_of_ascii c in Nat.leb 48 n && Nat.leb n 57.

(** [c.isalnum()] *)
Definition isalnum (c : ascii) : bool :=
  is_upper c || is_lower c || is_digit c.

Definition lower_char (c : ascii) : ascii :=
  if is_upper c then ascii_of_nat (nat_of_ascii c + 32) else c.

(** [s.lower()] *)
Fixpoint lower (s : string) : string :=
  match s with
  | EmptyString => EmptyString
  | String c s' => String (lower_char c) (lower s')
  end.

(** [s.replace(c, '')] for a one-character [c] *)
Fixpoint remove_char (c : ascii) (s : string) : string :=
  match s with
  | EmptyString => EmptyString
  | String a s' =>
      if Ascii.eqb a c then remove_char c s' else String a (remove_char c s')
  end.

(** [s.replace(a, b)] for one-character [a] and [b] *)
Fixpoint replace_char (a b : ascii) (s : string) : string :=
  match s with
  | EmptyString => EmptyString
  | String x s' =>
      String (if Ascii.eqb x a then b else x) (replace_char a b s')
  end.

(** ["".join(c for c in s if keep c)] *)
Fixpoint keep_chars (keep : ascii -> bool) (s : string) : string :=
  match s with
  | EmptyString => EmptyString
  | String x s' =>
      if keep x then String x (keep_chars keep s') else keep_chars keep s'
  end.

Fixpoint starts_with (p s : string) : bool :=
  match p, s with
  | EmptyString, _ => true
  | String a p', String b s' => Ascii.eqb a b && starts_with p' s'
  | String _ _, EmptyString => false
  end.

(** [p in s] *)
Fixpoint contains (p s : string) : bool :=
  starts_with p s ||
  match s with
  | EmptyString => false
  | String _ s' => contains p s'
  end.

Fixpoint lstrip_spaces (s : string) : string :=
  match s with
  | String " " s' => lstrip_spaces s'
  | _ => s
  end.

Fixpoint rev_onto (s acc : string) : string :=
  match s with
  | EmptyString => acc
  | String c s' => rev_onto s' (String c acc)
  end.

Definition rev (s : string) : string := rev_onto s EmptyString.

(** [s.endswith(suffix)] *)
Definition ends_with (suffix s : string) : bool :=
  starts_with (rev suffix) (rev s).

(** [s.strip()] on a string whose only whitespace is the space character
    (the one use in the source strips a string already filtered down to
    alphanumerics, spaces, hyphens and underscores). *)
Definition strip_spaces (s : string) : string :=
  rev (lstrip_spaces (rev (lstrip_spaces s))).

End PyStr.

(** ** Insertion-ordered dictionaries *)

Section PyDict.
Context {V : Type}.

Definition pydict := list (string * V).

(** [d.get(k)] *)
Fixpoint dict_get (k : string) (d : list (string * V)) : option V :=
  match d with
  | [] => None
  | (k', v) :: d' => if String.eqb k' k then Some v else dict_get k d'
  end.

(** [k in d] *)
Definition dict_mem (k : string) (d : list (string * V)) : bool :=
  match dict_get k d with Some _ => true | None => false end.

(** [d[k]], which raises [KeyError] on a missing key *)
Definition dict_index (k : string) (d : list (string * V)) : result V :=
  match dict_get k d with Some v => Ok v | None => Raise KeyError end.

(** [d[k] = v]: an existing key keeps its position, a new one goes last *)
Fixpoint dict_set (k : string) (v : V) (d : list (string * V))
  : list (string * V) :=
  match d with
  | [] => [(k, v)]
  | (k', v') :: d' =>
      if String.eqb k' k then (k', v) :: d' else (k', v') :: dict_set k v d'
  end.

Definition dict_keys (d : list (string * V)) : list string := map fst d.

End PyDict.
Arguments pydict V : clear implicits.

(** ** Channel limit registry *)

Section Registry.

(** Module constant [DEFAULT_MAX_IMAGES], read from the environment when
    the module is imported. *)
Variable DEFAULT_MAX_IMAGES : Z.

(** [os.getenv] and [int] on strings, as the process sees them. *)
Variable getenv : string -> option string.
Variable py_int : string -> option Z.

Definition known_channel_names : list string :=
  ["CheMed123"; "lobelia4cosmetics"; "tikvahpharma"].

Fixpoint load_limits_loop (channel_names : list string)
    (limits : pydict Z) : pydict Z :=
  match channel_names with
  | [] => limits
  | channel :: rest =>
      let env_key := "MAX_IMAGES_" +:+ channel in
      let limits' :=
        match getenv env_key with
        | Some (String c l as limit) =>
            match py_int limit with
            | Some n => dict_set channel n limits
            | None => dict_set channel DEFAULT_MAX_IMAGES limits
            end
        | _ => dict_set channel DEFAULT_MAX_IMAGES limits
        end in
      load_limits_loop rest limits'
  end.

(** [TelegramScraper._load_channel_limits] *)
Definition _load_channel_limits : pydict Z :=
  load_limits_loop known_channel_names [].

(** [channel_name.lower().replace(' ', '').replace('_', '').replace('-', '')] *)
Definition normalized (channel_name : string) : string :=
  PyStr.remove_char "-"
    (PyStr.remove_char "_"
       (PyStr.remove_char " " (PyStr.lower channel_name))).

(** The literal [channel_mappings] of both lookup methods. *)
Definition channel_mappings : pydict string :=
  [("lobelia", "lobelia4cosmetics");
   ("chemed", "CheMed123");
   ("tikvah", "tikvahpharma")].

Variable channel_max_images : pydict Z.

Fixpoint max_images_ci_loop (items : list (string * Z))
    (channel_name : string) : option Z :=
  match items with
  | [] => None
  | (key, value) :: rest =>
      if String.eqb (PyStr.lower key) (PyStr.lower channel_name)
      then Some value
      else max_images_ci_loop rest channel_name
  end.

Fixpoint max_images_pattern_loop (mappings : list (string * string))
    (normalized_name : string) : option (result Z) :=
  match mappings with
  | [] => None
  | (pattern, config_name) :: rest =>
      if PyStr.contains pattern normalized_name
         && dict_mem config_name channel_max_images
      then Some (dict_index config_name channel_max_images)
      else max_images_pattern_loop rest normalized_name
  end.

(** [TelegramScraper.get_max_images_for_channel] *)
Definition get_max_images_for_channel (channel_name : string) : result Z :=
  let normalized_name := normalized channel_name in
  if dict_mem channel_name channel_max_images
  then dict_index channel_name channel_max_images
  else
    match max_images_ci_loop channel_max_images channel_name with
    | Some value => Ok value
    | None =>
        match max_images_pattern_loop channel_mappings normalized_name with
        | Some r => r
        | None => Ok DEFAULT_MAX_IMAGES
        end
    end.

Fixpoint config_name_ci_loop (keys : list string)
    (channel_name : string) : option string :=
  match keys with
  | [] => None
  | key :: rest =>
      if String.eqb (PyStr.lower key) (PyStr.lower channel_name)
      then Some key
      else config_name_ci_loop rest channel_name
  end.

Fixpoint config_name_pattern_loop (mappings : list (string * string))
    (normalized_name : string) : option string :=
  match mappings with
  | [] => None
  | (pattern, config_name) :: rest =>
      if PyStr.contains pattern normalized_name
      then Some config_name
      else config_name_pattern_loop rest normalized_name
  end.

(** [TelegramScraper.get_config_channel_name] *)
Definition get_config_channel_name (channel_name : string) : string :=
  let normalized_name := normalized channel_name in
  if dict_mem channel_name channel_max_images
  then channel_name
  else
    match config_name_ci_loop (dict_keys channel_max_images) channel_name with
    | Some key => key
    | None =>
        match config_name_pattern_loop channel_mappings normalized_name with
        | Some config_name => config_name
        | None => channel_name
        end
    end.

End Registry.

(** ** Calendar dates and [datetime] *)

Record calendar_date : Type := mk_date { year : N; month : N; day : N }.

(** A [datetime]: its calendar date and the time of day (microseconds since
    midnight, in the value's own time zone).  [message_date] fields hold the
    [isoformat()] text of such a value, which [datetime.fromisoformat] reads
    back unchanged; the embedding keeps the value itself. *)
Record datetime : Type := mk_datetime { dt_date : calendar_date; dt_time : N }.

#[global] Instance calendar_date_eq_dec : EqDecision calendar_date.
Proof. solve_decision. Defined.

#[global] Instance datetime_eq_dec : EqDecision datetime.
Proof. solve_decision. Defined.

Module PyDate.
Local Open Scope N_scope.

Definition is_leap (y : N) : bool :=
  ((y mod 4 =? 0) && negb (y mod 100 =? 0)) || (y mod 400 =? 0).

Definition days_in_month (y m : N) : N :=
  match m with
  | 2 => if is_leap y then 29 else 28
  | 4 | 6 | 9 | 11 => 30
  | _ => 31
  end.

(** The range of values the [datetime] constructor accepts. *)
Definition date_valid (d : calendar_date) : bool :=
  (1 <=? year d) && (year d <=? 9999)
  && (1 <=? month d) && (month d <=? 12)
  && (1 <=? day d) && (day d <=? days_in_month (year d) (month d)).

(** Dates whose [%Y] is four digits wide: the ones [strptime] reads back. *)
Definition date_ok (d : calendar_date) : bool :=
  (1000 <=? year d) && date_valid d.

Definition digit (n : N) : ascii := ascii_of_N (48 + n).

Definition two_digits (n : N) : string :=
  String (digit (n / 10)) (String (digit (n mod 10)) EmptyString).

Definition four_digits (n : N) : string :=
  String (digit (n / 1000))
    (String (digit (n / 100 mod 10))
       (String (digit (n / 10 mod 10))
          (String (digit (n mod 10)) EmptyString))).

(** [%Y] as the C library of Linux writes it: the year in decimal, not
    padded (the year of a [datetime] is between 1 and 9999). *)
Definition year_digits (y : N) : string :=
  if y <? 10 then String (digit y) EmptyString
  else if y <? 100 then two_digits y
  else if y <? 1000 then String (digit (y / 100)) (two_digits (y mod 100))
  else four_digits y.

(** [d.strftime("%Y-%m-%d")] *)
Definition strftime_ymd (d : datetime) : string :=
  year_digits (year (dt_date d)) +:+ "-" +:+
  two_digits (month (dt_date d)) +:+ "-" +:+
  two_digits (day (dt_date d)).

Definition digit_value (c : ascii) : option N :=
  if PyStr.is_digit c then Some (N_of_ascii c - 48) else None.

(** [datetime.strptime(s, "%Y-%m-%d")] on the strings [strftime_ymd] emits
    (the only ones the scraper passes to it): [%Y] takes exactly four
    digits, so the text read is four digits, a hyphen, two digits, a
    hyphen, two digits.  Any other text (a year written with fewer digits
    among them), or digits that name no calendar day, raise
    [ValueError]. *)
Definition strptime_ymd (s : string) : result datetime :=
  match s with
  | String y1 (String y2 (String y3 (String y4 (String "-"
      (String m1 (String m2 (String "-"
         (String d1 (String d2 EmptyString))))))))) =>
      match digit_value y1, digit_value y2, digit_value y3, digit_value y4,
            digit_value m1, digit_value m2,
            digit_value d1, digit_value d2 with
      | Some a, Some b, Some c, Some e, Some f, Some g, Some h, Some i =>
          let d := mk_date (1000 * a + 100 * b + 10 * c + e)
                           (10 * f + g) (10 * h + i) in
          if date_valid d then Ok (mk_datetime d 0) else Raise ValueError
      | _, _, _, _, _, _, _, _ => Raise ValueError
      end
  | _ => Raise ValueError
  end.

End PyDate.

(** ** Messages *)

(** The provider's message object, reduced to the attributes the extractor
    reads. *)
Module Message.

Inductive media_kind : Type :=
  | MessageMediaPhoto
  | MessageMediaDocument.

Record t : Type := mk {
  id : option Z;              (* [None]: the object has no [id] attribute *)
  date : option datetime;
  text : option string;
  media : option media_kind;
  views : option Z;
  forwards : option Z;
  is_reply : bool;
  reply_to_msg_id : option Z;
}.

End Message.

(** The dictionary built by [extract_message_data], one field per key. *)
Module Scraped.

Record t : Type := mk {
  message_id : Z;
  channel_name : string;
  message_date : option datetime;
  message_text : string;
  has_media : bool;
  image_path : option string;
  views : Z;
  forwards : Z;
  is_reply : bool;
  reply_to_msg_id : option Z;
  scraped_at : datetime;
}.

End Scraped.

#[global] Instance scraped_eq_dec : EqDecision Scraped.t.
Proof. solve_decision. Defined.

(** ** The world outside the scraper object *)

(** What a partition file holds, as [json.load] sees it: an array of message
    objects (the shape the writer itself produces), text that is not JSON
    ([JSONDecodeError]), or bytes that are not UTF-8 text
    ([UnicodeDecodeError]).  JSON text of another shape (an object, a
    number, an array of numbers), on which the merge raises [TypeError] or
    [AttributeError], is not among the cases. *)
Inductive file_content : Type :=
  | Records (l : list Scraped.t)
  | NotJSON
  | NotText.

Inductive log_record : Type :=
  | ClientNotConnected
  | ChannelDoesNotExist (channel_username : string)
  | ChannelIsPrivate (channel_username : string)
  | LimitAlreadyReached (channel_name : string) (existing_count max_images : Z)
  | LimitReachedInSession (channel_name : string) (count max_images : Z)
  | RateLimited (wait_time : Z)
  | ErrorProcessingMessage (e : exn)
  | ErrorScrapingChannel (channel_username : string) (e : exn)
  | MaximumLimitReached (channel_name : string) (max_images : Z)
  | ErrorDownloadingImage (message_id : Z) (e : exn)
  | NoMessagesToSave (channel_name : string)
  | CouldNotReadExistingFile (output_file : string)
  | ErrorProcessingChannel (username : string) (e : exn).

(** Observable effects, oldest first.  Only the warning and error lines of the
    log are traced; sleeps are in milliseconds. *)
Inductive event : Type :=
  | Log (r : log_record)
  | Sleep (millis : Z)
  | DownloadMedia (file : string).

Record world : Type := mk_world {
  (** [data/raw/images/<dir>/]: the file names in each existing directory *)
  images : gmap string (gset string);
  (** the JSON files under [data/raw/telegram_messages/], by path *)
  partitions : gmap string file_content;
  (** calls of [datetime.now()] made so far *)
  ticks : nat;
  trace : list event;
}.

Definition emit (e : event) (w : world) : world :=
  mk_world (images w) (partitions w) (ticks w) (trace w ++ [e]).

Definition set_images (i : gmap string (gset string)) (w : world) : world :=
  mk_world i (partitions w) (ticks w) (trace w).

Definition set_partitions (p : gmap string file_content) (w : world) : world :=
  mk_world (images w) p (ticks w) (trace w).

(** ** The scraper object *)

Record scraper : Type := mk_scraper {
  client : bool;                              (* [self.client] is set *)
  channel_max_images : pydict Z;
  downloaded_images_count : gmap string Z;
  channel_limit_reached : gset string;
  scraped_channels : gset string;
  scraped_dates : gset string;
}.

Definition set_downloaded_images_count (c : gmap string Z) (self : scraper)
  : scraper :=
  mk_scraper (client self) (channel_max_images self) c
    (channel_limit_reached self) (scraped_channels self) (scraped_dates self).

Definition add_channel_limit_reached (k : string) (self : scraper) : scraper :=
  mk_scraper (client self) (channel_max_images self)
    (downloaded_images_count self) ({[k]} ∪ channel_limit_reached self)
    (scraped_channels self) (scraped_dates self).

Definition add_scraped_channel (k : string) (self : scraper) : scraper :=
  mk_scraper (client self) (channel_max_images self)
    (downloaded_images_count self) (channel_limit_reached self)
    ({[k]} ∪ scraped_channels self) (scraped_dates self).

Definition add_scraped_date (k : string) (self : scraper) : scraper :=
  mk_scraper (client self) (channel_max_images self)
    (downloaded_images_count self) (channel_limit_reached self)
    (scraped_channels self) ({[k]} ∪ scraped_dates self).

(** ** The provider *)

Record entity : Type := mk_entity { title : option string }.

(** One step of the asynchronous message iterator: the next message, or an
    exception raised while the next page is fetched. *)
Inductive iter_step : Type :=
  | Yield (message : Message.t)
  | Throw (e : exn).

(** What one call of [client.download_media(message, file=path)] does: it
    returns or raises, and a file is at [path] afterwards or not.  A call
    that returns has written the file, unless the media held nothing to
    download (it then returns [None] and writes nothing); a call that raises
    may have created the file before it failed. *)
Record download : Type := mk_download {
  returned : result unit;
  file_written : bool;
}.

Record provider : Type := mk_provider {
  get_entity : string -> result entity;
  iter_messages : entity -> option nat -> option datetime -> list iter_step;
  download_media : Message.t -> string -> download;
}.

(** ** The scraper's operations *)

Section Scraper.

Variable DEFAULT_MAX_IMAGES : Z.

(** The wall clock: the value the n-th call of [datetime.now()] returns. *)
Variable clock : nat -> datetime.

(** [self.client], once connected. *)
Variable telegram : provider.

Definition now (w : world) : datetime * world :=
  (clock (ticks w),
   mk_world (images w) (partitions w) (S (ticks w)) (trace w)).

(** *** Files under [data/raw/images] *)

(** [Path(f"data/raw/images/{dir}").exists()] *)
Definition image_dir_exists (dir : string) (w : world) : bool :=
  match images w !! dir with Some _ => true | None => false end.

(** [len(list(image_dir.glob("*.jpg")))] *)
Definition count_jpg (dir : string) (w : world) : Z :=
  match images w !! dir with
  | Some files =>
      Z.of_nat (size (filter (λ f, PyStr.ends_with ".jpg" f = true) files))
  | None => 0
  end.

(** [image_dir.mkdir(parents=True, exist_ok=True)] *)
Definition mkdir_image_dir (dir : string) (w : world) : world :=
  match images w !! dir with
  | Some _ => w
  | None => set_images (<[dir := ∅]> (images w)) w
  end.

(** [(image_dir / file).exists()] *)
Definition image_exists (dir file : string) (w : world) : bool :=
  match images w !! dir with
  | Some files => bool_decide (file ∈ files)
  | None => false
  end.

Definition write_image (dir file : string) (w : world) : world :=
  set_images (<[dir := {[file]} ∪ default ∅ (images w !! dir)]> (images w)) w.

(** The image store once a fetch for [dir/file] is over. *)
Definition after_fetch (fetched : download) (dir file : string) (w : world)
  : world :=
  if file_written fetched then write_image dir file w else w.

(** *** [extract_message_data] *)

Definition extract_message_data (w : world) (message : Message.t)
    (channel_name : string) : option Scraped.t * world :=
  match Message.id message with
  | None => (None, w)
  | Some message_id =>
      let '(scraped_at, w1) := now w in
      let image_path :=
        match Message.media message with
        | Some Message.MessageMediaPhoto =>
            let image_filename := pretty message_id +:+ ".jpg" in
            Some ("data/raw/images/" +:+ channel_name +:+ "/"
                  +:+ image_filename)
        | _ => None
        end in
      (Some {| Scraped.message_id := message_id;
               Scraped.channel_name := channel_name;
               Scraped.message_date := Message.date message;
               Scraped.message_text := default "" (Message.text message);
               Scraped.has_media :=
                 match Message.media message with
                 | Some _ => true
                 | None => false
                 end;
               Scraped.image_path := image_path;
               Scraped.views := default 0 (Message.views message);
               Scraped.forwards := default 0 (Message.forwards message);
               Scraped.is_reply := Message.is_reply message;
               Scraped.reply_to_msg_id :=
                 if Message.is_reply message
                 then Message.reply_to_msg_id message
                 else None;
               Scraped.scraped_at := scraped_at |},
       w1)
  end.

(** *** [download_image] *)

(** Lines 470-472: a key without a counter gets the counter 0. *)
Definition init_counter (self : scraper) (config_channel : string)
  : scraper :=
  match downloaded_images_count self !! config_channel with
  | Some _ => self
  | None =>
      set_downloaded_images_count
        (<[config_channel := 0]> (downloaded_images_count self)) self
  end.

Definition download_image (self : scraper) (w : world)
    (message : Message.t) (channel_name : string) (message_id : Z)
  : bool * scraper * world :=
  match Message.media message with
  | Some Message.MessageMediaPhoto =>
      let config_channel :=
        get_config_channel_name (channel_max_images self) channel_name in
      match get_max_images_for_channel DEFAULT_MAX_IMAGES
              (channel_max_images self) channel_name with
      | Raise e => (false, self, emit (Log (ErrorDownloadingImage message_id e)) w)
      | Ok max_images =>
          let self1 := init_counter self config_channel in
          (* the key is present from here on *)
          let count :=
            default 0 (downloaded_images_count self1 !! config_channel) in
          if count >=? max_images then
            if bool_decide (config_channel ∈ channel_limit_reached self1)
            then (false, self1, w)
            else (false, add_channel_limit_reached config_channel self1,
                  emit (Log (MaximumLimitReached channel_name max_images)) w)
          else
            let w1 := mkdir_image_dir channel_name w in
            let image_file := pretty message_id +:+ ".jpg" in
            let image_path :=
              "data/raw/images/" +:+ channel_name +:+ "/" +:+ image_file in
            if image_exists channel_name image_file w1
            then (true, self1, w1)
            else
              let w2 := emit (DownloadMedia image_path) w1 in
              let fetched := download_media telegram message image_path in
              let w3 := after_fetch fetched channel_name image_file w2 in
              match returned fetched with
              | Ok _ =>
                  (* the value returned is not looked at *)
                  (true,
                   set_downloaded_images_count
                     (<[config_channel := count + 1]>
                        (downloaded_images_count self1)) self1,
                   w3)
              | Raise e =>
                  (false, self1,
                   emit (Log (ErrorDownloadingImage message_id e)) w3)
              end
      end
  | _ => (false, self, w)
  end.

(** *** [scrape_channel] *)

(** Lines 295-326: the counter of a channel met for the first time is
    seeded from the images already on disk. *)
Definition seed_image_counter (self : scraper) (w : world)
    (channel_name config_channel : string) (max_images : Z)
  : scraper * world :=
  match downloaded_images_count self !! config_channel with
  | None =>
      let existing_count :=
        if image_dir_exists channel_name w then count_jpg channel_name w
        else 0 in
      let self1 :=
        set_downloaded_images_count
          (<[config_channel := existing_count]>
             (downloaded_images_count self)) self in
      if existing_count >=? max_images
      then (add_channel_limit_reached config_channel self1,
            emit (Log (LimitAlreadyReached channel_name existing_count
                         max_images)) w)
      else (self1, w)
  | Some count =>
      if (count >=? max_images)
         && negb (bool_decide (config_channel ∈ channel_limit_reached self))
      then (add_channel_limit_reached config_channel self,
            emit (Log (LimitReachedInSession channel_name count max_images)) w)
      else (self, w)
  end.

Definition truthy_str (s : option string) : bool :=
  match s with
  | Some (String _ _) => true
  | _ => false
  end.

(** Lines 337-371: the body of the inner [try]. *)
Definition message_body (self : scraper) (w : world)
    (messages : list Scraped.t) (message : Message.t)
    (channel_name : string)
  : result unit * (list Scraped.t * scraper * world) :=
  let '(extracted, w1) := extract_message_data w message channel_name in
  match extracted with
  | Some message_data =>
      let messages1 := messages ++ [message_data] in
      if Scraped.has_media message_data
         && truthy_str (Scraped.image_path message_data)
      then
        let '(downloaded, self1, w2) :=
          download_image self w1 message channel_name
            (Scraped.message_id message_data) in
        (Ok (), (messages1, self1, emit (Sleep 500) w2))
      else (Ok (), (messages1, self, emit (Sleep 500) w1))
  | None => (Ok (), (messages, self, emit (Sleep 500) w1))
  end.

(** Lines 336-380: one turn of the loop, with its two handlers. *)
Definition process_message (self : scraper) (w : world)
    (messages : list Scraped.t) (message : Message.t)
    (channel_name : string) : list Scraped.t * scraper * world :=
  match message_body self w messages message channel_name with
  | (Ok _, s) => s
  | (Raise (FloodWaitError wait_time), (messages', self', w')) =>
      (messages', self',
       emit (Sleep (1000 * wait_time)) (emit (Log (RateLimited wait_time)) w'))
  | (Raise e, (messages', self', w')) =>
      (messages', self', emit (Log (ErrorProcessingMessage e)) w')
  end.

(** Lines 331-380: the [async for].  An exception raised by the iterator
    itself leaves the loop: it is raised by the loop header, outside the
    inner [try]. *)
Fixpoint iterate (steps : list iter_step) (self : scraper) (w : world)
    (messages : list Scraped.t) (channel_name : string)
  : result unit * (list Scraped.t * scraper * world) :=
  match steps with
  | [] => (Ok (), (messages, self, w))
  | Throw e :: _ => (Raise e, (messages, self, w))
  | Yield message :: rest =>
      let '(messages', self', w') :=
        process_message self w messages message channel_name in
      iterate rest self' w' messages' channel_name
  end.

Definition scrape_channel (self : scraper) (w : world)
    (channel_username : string) (limit : option nat)
    (offset_date : option datetime) : list Scraped.t * scraper * world :=
  if negb (client self) then ([], self, emit (Log ClientNotConnected) w)
  else
    match get_entity telegram channel_username with
    | Raise UsernameNotOccupiedError =>
        ([], self, emit (Log (ChannelDoesNotExist channel_username)) w)
    | Raise ChannelPrivateError =>
        ([], self, emit (Log (ChannelIsPrivate channel_username)) w)
    | Raise e =>
        ([], self, emit (Log (ErrorScrapingChannel channel_username e)) w)
    | Ok entity =>
        let channel_name :=
          if truthy_str (title entity) then default "" (title entity)
          else channel_username in
        let config_channel :=
          get_config_channel_name (channel_max_images self) channel_name in
        match get_max_images_for_channel DEFAULT_MAX_IMAGES
                (channel_max_images self) channel_name with
        | Raise e =>
            ([], self, emit (Log (ErrorScrapingChannel channel_username e)) w)
        | Ok max_images =>
            let '(self1, w1) :=
              seed_image_counter self w channel_name config_channel
                max_images in
            match iterate (iter_messages telegram entity limit offset_date)
                    self1 w1 [] channel_name with
            | (Ok _, (messages, self2, w2)) =>
                (messages, add_scraped_channel channel_name self2, w2)
            | (Raise e, (messages, self2, w2)) =>
                (messages, self2,
                 emit (Log (ErrorScrapingChannel channel_username e)) w2)
            end
        end
    end.

(** *** [save_messages_to_json] *)

(** ["".join(c for c in channel_name if c.isalnum() or c in (' ', '-', '_'))]
    [.strip()], then [.replace(' ', '_')] *)
Definition safe_channel_name (channel_name : string) : string :=
  PyStr.replace_char " " "_"
    (PyStr.strip_spaces
       (PyStr.keep_chars
          (fun c => PyStr.isalnum c
                    || Ascii.eqb c " " || Ascii.eqb c "-" || Ascii.eqb c "_")
          channel_name)).

(** [Path(f"data/raw/telegram_messages/{date_str}") / f"{safe}.json"] *)
Definition output_file_path (date_str safe : string) : string :=
  "data/raw/telegram_messages/" +:+ date_str +:+ "/" +:+ safe +:+ ".json".

(** Lines 558-562: the merge of the stored array with a batch. *)
Definition merge_messages (existing_data messages : list Scraped.t)
  : list Scraped.t :=
  let existing_ids : gset Z :=
    list_to_set (Scraped.message_id <$> existing_data) in
  let new_messages :=
    filter (fun msg => Scraped.message_id msg ∉ existing_ids) messages in
  existing_data ++ new_messages.

Definition save_messages_to_json (self : scraper) (w : world)
    (messages : list Scraped.t) (channel_name : string)
    (date : option datetime) : result unit * scraper * world :=
  match messages with
  | [] => (Ok (), self, emit (Log (NoMessagesToSave channel_name)) w)
  | _ :: _ =>
      let '(date, w1) :=
        match date with
        | None => now w
        | Some d => (d, w)
        end in
      let date_str := PyDate.strftime_ymd date in
      let output_file :=
        output_file_path date_str (safe_channel_name channel_name) in
      let loaded :=
        match partitions w1 !! output_file with
        | None => (Ok [], w1)
        | Some (Records l) => (Ok l, w1)
        | Some NotJSON =>
            (Ok [], emit (Log (CouldNotReadExistingFile output_file)) w1)
        | Some NotText => (Raise UnicodeDecodeError, w1)
        end in
      match loaded with
      | (Raise e, w2) => (Raise e, self, w2)
      | (Ok existing_data, w2) =>
          let all_messages := merge_messages existing_data messages in
          (Ok (),
           add_scraped_date date_str self,
           set_partitions
             (<[output_file := Records all_messages]> (partitions w2)) w2)
      end
  end.

(** *** [scrape_multiple_channels] *)

(** Lines 592-599: the batch of one channel, grouped by calendar date. *)
Fixpoint group_by_date (messages : list Scraped.t) (w : world)
    (messages_by_date : pydict (list Scraped.t))
  : pydict (list Scraped.t) * world :=
  match messages with
  | [] => (messages_by_date, w)
  | msg :: rest =>
      let '(msg_date, w1) :=
        match Scraped.message_date msg with
        | Some d => (d, w)
        | None => now w
        end in
      let date_key := PyDate.strftime_ymd msg_date in
      let messages_by_date1 :=
        if dict_mem date_key messages_by_date then messages_by_date
        else dict_set date_key [] messages_by_date in
      let messages_by_date2 :=
        dict_set date_key
          (default [] (dict_get date_key messages_by_date1) ++ [msg])
          messages_by_date1 in
      group_by_date rest w1 messages_by_date2
  end.

(** Lines 603-605: one flush per date group. *)
Fixpoint save_by_date (items : list (string * list Scraped.t))
    (channel_name : string) (self : scraper) (w : world)
  : result unit * scraper * world :=
  match items with
  | [] => (Ok (), self, w)
  | (date_str, date_messages) :: rest =>
      match PyDate.strptime_ymd date_str with
      | Raise e => (Raise e, self, w)
      | Ok date_obj =>
          match save_messages_to_json self w date_messages channel_name
                  (Some date_obj) with
          | (Raise e, self', w') => (Raise e, self', w')
          | (Ok _, self', w') => save_by_date rest channel_name self' w'
          end
      end
  end.

(** Lines 590-605: what [scrape_multiple_channels] does with the batch
    [scrape_channel] returned for one channel. *)
Definition flush_channel (self : scraper) (w : world)
    (messages : list Scraped.t) : result unit * scraper * world :=
  match messages with
  | [] => (Ok (), self, w)
  | first :: _ =>
      let '(messages_by_date, w1) := group_by_date messages w [] in
      save_by_date messages_by_date (Scraped.channel_name first) self w1
  end.

(** The loop of [scrape_multiple_channels], from a scraper whose
    connection step is behind it. *)
Fixpoint scrape_multiple_channels (channel_usernames : list string)
    (limit_per_channel : option nat) (self : scraper) (w : world)
  : scraper * world :=
  match channel_usernames with
  | [] => (self, w)
  | username :: rest =>
      let '(messages, self1, w1) :=
        scrape_channel self w username limit_per_channel None in
      let '(flushed, self2, w2) := flush_channel self1 w1 messages in
      let w3 :=
        match flushed with
        | Ok _ => emit (Sleep 2000) w2
        | Raise e => emit (Log (ErrorProcessingChannel username e)) w2
        end in
      scrape_multiple_channels rest limit_per_channel self2 w3
  end.

End Scraper.

(** ** The quota lookup, as the specification words it *)

Module RegistrySpec.

(** Stage 1: exact match against the configured mapping. *)
Definition exact_match (mapping : pydict Z) (name : string) : option Z :=
  dict_get name mapping.

(** Stage 2: case-insensitive match against the same mapping. *)
Definition case_insensitive_match (mapping : pydict Z) (name : string)
  : option Z :=
  snd <$> List.find
            (fun kv => String.eqb (PyStr.lower (fst kv)) (PyStr.lower name))
            mapping.

(** Strip spaces, underscores and hyphens, and lowercase. *)
Definition normalize (s : string) : string :=
  PyStr.lower
    (PyStr.remove_char "-" (PyStr.remove_char "_" (PyStr.remove_char " " s))).

(** The table of known substrings, each with its config key. *)
Definition known_substrings : list (string * string) :=
  [("lobelia", "lobelia4cosmetics"); ("chemed", "CheMed123");
   ("tikvah", "tikvahpharma")]%string.

(** Stage 3: the first known substring that the normalized input contains
    and whose key has a quota gives that key's quota. *)
Definition fuzzy_match (mapping : pydict Z) (name : string) : option Z :=
  head (omap (fun entry =>
                if PyStr.contains (normalize (fst entry)) (normalize name)
                then dict_get (snd entry) mapping
                else None)
             known_substrings).

(** First hit wins; no hit gives the global default. *)
Definition resolve_quota (default_quota : Z) (mapping : pydict Z)
    (name : string) : Z :=
  match exact_match mapping name with
  | Some q => q
  | None =>
      match case_insensitive_match mapping name with
      | Some q => q
      | None =>
          match fuzzy_match mapping name with
          | Some q => q
          | None => default_quota
          end
      end
  end.

End RegistrySpec.


(** ** Vocabulary of the statements *)

(** The [message_id]s of an array of records, in order. *)
Definition ids (l : list Scraped.t) : list Z := Scraped.message_id <$> l.

(** How many records of an array carry a given [message_id]. *)
Definition count_id (i : Z) (l : list Scraped.t) : nat :=
  length (filter (fun r => Scraped.message_id r = i) l).

(** The path of the partition file of a date and a channel. *)
Definition partition_path (date : datetime) (channel_name : string) : string :=
  output_file_path (PyDate.strftime_ymd date) (safe_channel_name channel_name).

(** The date a flush files its batch under: the [date] argument, or the
    clock's reading when there is none. *)
Definition flush_date (clock : nat -> datetime) (w : world)
    (date : option datetime) : datetime :=
  match date with
  | Some d => d
  | None => clock (ticks w)
  end.

(** The world after the flush has read the clock, if it had to. *)
Definition flush_clock_read (w : world) (date : option datetime) : world :=
  match date with
  | Some _ => w
  | None => mk_world (images w) (partitions w) (S (ticks w)) (trace w)
  end.

(** The array a partition file holds for the merge: the empty array when
    there is no file; nothing when the file does not decode. *)
Definition stored_records (w : world) (path : string)
  : option (list Scraped.t) :=
  match partitions w !! path with
  | None => Some []
  | Some (Records l) => Some l
  | Some _ => None
  end.

Definition stored_or_empty (w : world) (path : string) : list Scraped.t :=
  default [] (stored_records w path).


(** The [datetime] each message of a batch is grouped under: its own
    [message_date], or the reading of the clock at the moment the grouping
    loop reaches it ([n] readings have been made before the batch). *)
Fixpoint derived_dates (clock : nat -> datetime) (n : nat)
    (messages : list Scraped.t) : list datetime :=
  match messages with
  | [] => []
  | msg :: rest =>
      match Scraped.message_date msg with
      | Some d => d :: derived_dates clock n rest
      | None => clock n :: derived_dates clock (S n) rest
      end
  end.

(** The messages of a batch grouped under the date string [k], in batch
    order, given the [datetime] of each. *)
Fixpoint filed_under (k : string) (messages : list Scraped.t)
    (dates : list datetime) : list Scraped.t :=
  match messages, dates with
  | msg :: ms, d :: ds =>
      if String.eqb (PyDate.strftime_ymd d) k
      then msg :: filed_under k ms ds
      else filed_under k ms ds
  | _, _ => []
  end.

(** What a date group holds once a batch has been added to what it held. *)
Definition extended (before : option (list Scraped.t))
    (added : list Scraped.t) : option (list Scraped.t) :=
  match before, added with
  | Some l, _ => Some (l ++ added)
  | None, [] => None
  | None, _ :: _ => Some added
  end.

(** The counter of a canonical key, as [download_image] reads it: a key
    without a counter is given the counter 0. *)
Definition downloaded_count (self : scraper) (config_channel : string) : Z :=
  default 0 (downloaded_images_count self !! config_channel).

(** The only sleep of the channel loop proper: the half-second pacing. *)
Definition pacing_only (e : event) : bool :=
  match e with
  | Sleep millis => millis =? 500
  | _ => true
  end.

(** [r] is the record the extractor builds from [message] in the channel
    [channel_name] (whenever it is scraped). *)
Definition is_record_of (channel_name : string) (message : Message.t)
    (r : Scraped.t) : Prop :=
  Message.id message = Some (Scraped.message_id r)
  /\ Scraped.channel_name r = channel_name
  /\ Scraped.message_date r = Message.date message
  /\ Scraped.message_text r = default ""%string (Message.text message)
  /\ Scraped.has_media r
     = match Message.media message with Some _ => true | None => false end
  /\ Scraped.image_path r
     = match Message.media message with
       | Some Message.MessageMediaPhoto =>
           Some ("data/raw/images/" +:+ channel_name +:+ "/"
                 +:+ pretty (Scraped.message_id r) +:+ ".jpg")
       | _ => None
       end.

(** The name a channel is scraped under: [entity.title or channel_username]. *)
Definition display_name (e : entity) (channel_username : string) : string :=
  if truthy_str (title e) then default ""%string (title e)
  else channel_username.

(** The counter a channel enters [scrape_channel] with: the one it has, or
    for a channel met for the first time the number of [.jpg] files in its
    image directory. *)
Definition entry_count (self : scraper) (w : world)
    (channel_name config_channel : string) : Z :=
  match downloaded_images_count self !! config_channel with
  | Some c => c
  | None => count_jpg channel_name w
  end.

(** A provider whose fetches leave a file exactly when they return: one
    that returns has written the whole file, one that raises leaves
    nothing behind. *)
Definition fetch_is_atomic (telegram : provider) : Prop :=
  forall (message : Message.t) (path : string),
    file_written (download_media telegram message path)
    = match returned (download_media telegram message path) with
      | Ok _ => true
      | Raise _ => false
      end.

(** The events a run added to the trace. *)
Definition new_events (before after : world) : list event :=
  drop (length (trace before)) (trace after).

Definition is_download (e : event) : bool :=
  match e with DownloadMedia _ => true | _ => false end.

(** ** Sample values for worked examples *)

Module Sample.

Definition midnight (y m d : N) : datetime := mk_datetime (mk_date y m d) 0.

Definition clock0 : nat -> datetime := fun _ => midnight 2026 1 17.

Definition limits0 : pydict Z :=
  _load_channel_limits 1500 (fun _ => None) (fun _ => None).

Definition scraper0 : scraper :=
  mk_scraper true limits0 ∅ ∅ ∅ ∅.

Definition world0 : world := mk_world ∅ ∅ 0 [].

Definition record (i : Z) (d : datetime) : Scraped.t :=
  Scraped.mk i "TestChan" (Some d) "hello" false None 0 0 false None
    (midnight 2026 1 17).

Definition day0 : datetime := midnight 2026 1 17.

Definition day1 : datetime := mk_datetime (mk_date 2026 1 18) 4500.

(** A world whose partition of [day0] for [TestChan] holds one record. *)
Definition world1 : world :=
  mk_world ∅ {[ partition_path day0 "TestChan" := Records [record 7 day0] ]}
    0 [].


Definition photo (i : Z) (d : datetime) : Message.t :=
  Message.mk (Some i) (Some d) (Some "hello"%string)
    (Some Message.MessageMediaPhoto) None None false None.

(** A provider that knows one channel, titled [TestChan], whose history
    is the given steps, and that serves every download. *)
Definition telegram (steps : list iter_step) : provider :=
  mk_provider (fun _ => Ok (mk_entity (Some "TestChan"%string)))
    (fun _ _ _ => steps) (fun _ _ => mk_download (Ok ()) true).

(** A connected scraper whose registry gives [TestChan] a quota of 2. *)
Definition scraper_q2 : scraper :=
  mk_scraper true [("TestChan"%string, 2)] ∅ ∅ ∅ ∅.

(** A world where [TestChan] has the two images [1.jpg] and [2.jpg]. *)
Definition world_images : world :=
  mk_world {[ "TestChan"%string := {[ "1.jpg"%string; "2.jpg"%string ]} ]}
    ∅ 0 [].

End Sample.

(** ** Further vocabulary *)

(** The limit [_load_channel_limits] gives a channel: the value of its
    [MAX_IMAGES_<channel>] variable when that is set, non-empty and an
    integer, and the default otherwise. *)
Definition env_limit (default_quota : Z) (getenv : string -> option string)
    (py_int : string -> option Z) (channel : string) : Z :=
  match getenv ("MAX_IMAGES_" +:+ channel) with
  | Some (String _ _ as limit) => default default_quota (py_int limit)
  | _ => default_quota
  end.

(** Every config name of [channel_mappings] is a key of the registry. *)
Definition covers_mappings (mapping : pydict Z) : Prop :=
  Forall (fun entry => dict_mem (snd entry) mapping = true) channel_mappings.

(** ** [channel_finder.py] *)

(** [get_medical_channels]: the curated list of channel usernames. *)
Definition get_medical_channels : list string :=
  ["CheMed123"; "lobelia4cosmetics"; "tikvahpharma"]%string.

(** [channel.lstrip('@')] *)
Fixpoint lstrip_at (s : string) : string :=
  match s with
  | String "@" s' => lstrip_at s'
  | _ => s
  end.

(** [all(p(c) for c in s)] *)
Fixpoint all_chars (p : ascii -> bool) (s : string) : bool :=
  match s with
  | EmptyString => true
  | String c s' => p c && all_chars p s'
  end.

(** [validate_channel_format] *)
Definition validate_channel_format (channel : string) : bool :=
  let channel := lstrip_at channel in
  if (match channel with EmptyString => true | _ => false end)
     || Nat.ltb (String.length channel) 5
  then false
  else if negb (all_chars (fun c => PyStr.isalnum c || Ascii.eqb c "_") channel)
  then false
  else true.

(** The characters a sanitized channel name is made of. *)
Definition file_name_char (c : ascii) : bool :=
  PyStr.isalnum c || Ascii.eqb c "-" || Ascii.eqb c "_".

(** The messages the iterator yields before it raises (all of them, when
    it does not). *)
Fixpoint yielded (steps : list iter_step) : list Message.t :=
  match steps with
  | [] => []
  | Yield message :: rest => message :: yielded rest
  | Throw _ :: _ => []
  end.

(** The messages that carry an id. *)
Definition with_id (messages : list Message.t) : list Message.t :=
  filter (fun m => is_Some (Message.id m)) messages.

(** One state of the scraper and the world has grown into another: the
    registry is the same, no counter is lower, the sets of the scraper have
    lost nothing, every image is still there, and every partition file that
    held an array still holds it as a prefix. *)
Record grows (self : scraper) (w : world) (self' : scraper) (w' : world)
  : Prop := mk_grows {
  grows_registry : channel_max_images self' = channel_max_images self;
  grows_client : client self' = client self;
  grows_counters :
    forall k, downloaded_count self k <= downloaded_count self' k;
  grows_limit_reached :
    channel_limit_reached self ⊆ channel_limit_reached self';
  grows_channels : scraped_channels self ⊆ scraped_channels self';
  grows_dates : scraped_dates self ⊆ scraped_dates self';
  grows_images :
    forall dir file,
      image_exists dir file w = true -> image_exists dir file w' = true;
  grows_partitions :
    forall p ex,
      partitions w !! p = Some (Records ex) ->
      exists more, partitions w' !! p = Some (Records (ex ++ more));
}.

(** ** [get_scraping_summary] *)

Module Summary.

(** One value of [images_by_channel]. *)
Record stats : Type := mk_stats { downloaded : Z; max : Z }.

(** The dictionary [get_scraping_summary] returns, one field per key.  The
    two lists come from sets: their order is whatever [elements] gives. *)
Record t : Type := mk {
  channels_scraped : list string;
  dates_scraped : list string;
  total_channels : nat;
  total_dates : nat;
  images_downloaded : Z;
  images_by_channel : gmap string stats;
}.

End Summary.

(** [sum(self.downloaded_images_count.values())] *)
Definition sum_counts (counts : gmap string Z) : Z :=
  map_fold (fun _ count acc => count + acc) 0 counts.

(** The dictionary comprehension of [images_by_channel]: one call of
    [get_max_images_for_channel] per counter, any exception ending it. *)
Definition images_by_channel_of (default_quota : Z) (mapping : pydict Z)
    (counts : gmap string Z) : result (gmap string Summary.stats) :=
  map_fold
    (fun channel count acc =>
       match acc with
       | Raise e => Raise e
       | Ok by_channel =>
           match get_max_images_for_channel default_quota mapping channel with
           | Ok max_images =>
               Ok (<[channel := Summary.mk_stats count max_images]> by_channel)
           | Raise e => Raise e
           end
       end)
    (Ok ∅) counts.

Definition get_scraping_summary (default_quota : Z) (self : scraper)
  : result Summary.t :=
  let total_images := sum_counts (downloaded_images_count self) in
  match images_by_channel_of default_quota (channel_max_images self)
          (downloaded_images_count self) with
  | Raise e => Raise e
  | Ok images_by_channel =>
      Ok (Summary.mk
            (elements (scraped_channels self))
            (elements (scraped_dates self))
            (size (scraped_channels self))
            (size (scraped_dates self))
            total_images
            images_by_channel)
  end.

(** ** More sample values *)

Module Fixture.

(** A world whose partition of [Sample.day0] for [TestChan] is not text. *)
Definition world_binary : world :=
  mk_world ∅ {[ partition_path Sample.day0 "TestChan" := NotText ]} 0 [].

(** A provider whose photos hold nothing to download: every fetch returns
    [None] and writes no file. *)
Definition telegram_nothing : provider :=
  mk_provider (fun _ => Ok (mk_entity (Some "TestChan"%string)))
    (fun _ _ _ => []) (fun _ _ => mk_download (Ok ()) false).



End Fixture.
(** * Properties *)

(** ** Lemmas on strings *)

Lemma lower_char_not_separator (a c : ascii) :
  PyStr.is_lower c = false -> PyStr.is_upper c = false ->
  Ascii.eqb (PyStr.lower_char a) c = Ascii.eqb a c.
Proof.
  intros Hl Hu. unfold PyStr.lower_char.
  destruct (PyStr.is_upper a) eqn:Ha; [|reflexivity].
  assert (Ascii.eqb a c = false) as ->.
  { apply Ascii.eqb_neq. intros ->. congruence. }
  apply Ascii.eqb_neq. intros <-.
  revert Ha Hl. unfold PyStr.is_upper, PyStr.is_lower.
  rewrite !andb_true_iff, !Nat.leb_le. intros [H1 H2].
  rewrite nat_ascii_embedding by lia.
  rewrite andb_false_iff, !Nat.leb_gt. lia.
Qed.

Lemma lower_remove_char (c : ascii) (s : string) :
  PyStr.is_lower c = false -> PyStr.is_upper c = false ->
  PyStr.lower (PyStr.remove_char c s) = PyStr.remove_char c (PyStr.lower s).
Proof.
  intros Hl Hu. induction s as [|a s IH]; simpl; [reflexivity|].
  rewrite lower_char_not_separator by assumption.
  destruct (Ascii.eqb a c); simpl; congruence.
Qed.

Lemma normalize_normalized (s : string) :
  RegistrySpec.normalize s = normalized s.
Proof.
  unfold RegistrySpec.normalize, normalized.
  rewrite !lower_remove_char by reflexivity. reflexivity.
Qed.

(** ** Lemmas on the registry *)

Lemma dict_mem_get {V : Type} (k : string) (d : pydict V) :
  dict_mem k d = true -> exists v, dict_get k d = Some v.
Proof. unfold dict_mem. destruct (dict_get k d); eauto; discriminate. Qed.

Lemma dict_index_get {V : Type} (k : string) (d : pydict V) (v : V) :
  dict_get k d = Some v -> dict_index k d = Ok v.
Proof. unfold dict_index. intros ->. reflexivity. Qed.

Lemma max_images_ci_loop_find (items : pydict Z) (name : string) :
  max_images_ci_loop items name = RegistrySpec.case_insensitive_match items name.
Proof.
  unfold RegistrySpec.case_insensitive_match.
  induction items as [|[key value] rest IH]; simpl; [reflexivity|].
  destruct (String.eqb (PyStr.lower key) (PyStr.lower name)); [reflexivity|].
  exact IH.
Qed.

Lemma max_images_pattern_loop_fuzzy (mapping : pydict Z) (name : string) :
  max_images_pattern_loop mapping channel_mappings (normalized name)
  = Ok <$> RegistrySpec.fuzzy_match mapping name.
Proof.
  unfold RegistrySpec.fuzzy_match, RegistrySpec.known_substrings,
    channel_mappings.
  rewrite normalize_normalized.
  cbn [max_images_pattern_loop omap list_omap fst snd].
  change (RegistrySpec.normalize "lobelia") with "lobelia"%string.
  change (RegistrySpec.normalize "chemed") with "chemed"%string.
  change (RegistrySpec.normalize "tikvah") with "tikvah"%string.
  unfold dict_mem, dict_index.
  repeat match goal with
         | |- context [PyStr.contains ?p (normalized name)] =>
             destruct (PyStr.contains p (normalized name)); cbn [andb]
         | |- context [dict_get ?k mapping] =>
             destruct (dict_get k mapping); cbn [andb head fmap option_fmap option_map]
         end; reflexivity.
Qed.

(** The lookup never raises: it returns the value of the staged lookup. *)
Lemma get_max_images_for_channel_resolve
    (default_quota : Z) (mapping : pydict Z) (name : string) :
  get_max_images_for_channel default_quota mapping name
  = Ok (RegistrySpec.resolve_quota default_quota mapping name).
Proof.
  unfold get_max_images_for_channel, RegistrySpec.resolve_quota,
    RegistrySpec.exact_match, dict_mem, dict_index.
  destruct (dict_get name mapping) as [q|]; [reflexivity|].
  rewrite max_images_ci_loop_find.
  destruct (RegistrySpec.case_insensitive_match mapping name) as [q|];
    [reflexivity|].
  rewrite max_images_pattern_loop_fuzzy.
  destruct (RegistrySpec.fuzzy_match mapping name); reflexivity.
Qed.

(** C4. For every mapping, default and input string, the lookup
    [get_max_images_for_channel] returns normally (it never raises), and
    its value is that of the staged lookup of the specification: the exact
    match wins; failing that the case-insensitive match; failing that the
    normalized-fuzzy substring match; and with no hit at all the global
    default quota. *)
Theorem get_max_images_for_channel_first_hit_wins
    (default_quota : Z) (mapping : pydict Z) (name : string) :
  get_max_images_for_channel default_quota mapping name
  = Ok (RegistrySpec.resolve_quota default_quota mapping name)
  /\ (forall q, RegistrySpec.exact_match mapping name = Some q ->
       get_max_images_for_channel default_quota mapping name = Ok q)
  /\ (forall q, RegistrySpec.exact_match mapping name = None ->
       RegistrySpec.case_insensitive_match mapping name = Some q ->
       get_max_images_for_channel default_quota mapping name = Ok q)
  /\ (forall q, RegistrySpec.exact_match mapping name = None ->
       RegistrySpec.case_insensitive_match mapping name = None ->
       RegistrySpec.fuzzy_match mapping name = Some q ->
       get_max_images_for_channel default_quota mapping name = Ok q)
  /\ (RegistrySpec.exact_match mapping name = None ->
       RegistrySpec.case_insensitive_match mapping name = None ->
       RegistrySpec.fuzzy_match mapping name = None ->
       get_max_images_for_channel default_quota mapping name
       = Ok default_quota).
Proof.
  rewrite get_max_images_for_channel_resolve.
  unfold RegistrySpec.resolve_quota.
  split; [reflexivity|].
  split; [intros q ->; reflexivity|].
  split; [intros q -> ->; reflexivity|].
  split; [intros q -> -> ->; reflexivity|].
  intros -> -> ->. reflexivity.
Qed.

Lemma get_max_images_for_channel_first_hit_wins_witness :
  get_max_images_for_channel 1500 Sample.limits0 "Lobelia pharmacy"
  = Ok 1500
  /\ get_max_images_for_channel 1500 [("CheMed123"%string, 1200)] "chemed123"
     = Ok 1200.
Proof.
  split.
  - destruct (get_max_images_for_channel_first_hit_wins 1500 Sample.limits0
                "Lobelia pharmacy") as (_ & _ & _ & Hfuzzy & _).
    apply Hfuzzy; reflexivity.
  - destruct (get_max_images_for_channel_first_hit_wins 1500
                [("CheMed123"%string, 1200)] "chemed123")
      as (_ & _ & Hci & _).
    apply Hci; reflexivity.
Defined.




(** ** Lemmas on the merge of [save_messages_to_json] *)

Lemma merge_messages_nil_l (messages : list Scraped.t) :
  merge_messages [] messages = messages.
Proof.
  unfold merge_messages. cbn [fmap list_fmap list_to_set foldr app].
  induction messages as [|m l IH]; [reflexivity|].
  rewrite filter_cons_True by set_solver. f_equal. exact IH.
Qed.

Lemma merge_messages_elem (ex messages : list Scraped.t) (r : Scraped.t) :
  r ∈ merge_messages ex messages
  <-> r ∈ ex \/ (r ∈ messages /\ Scraped.message_id r ∉ ids ex).
Proof.
  unfold merge_messages, ids.
  rewrite elem_of_app, list_elem_of_filter, elem_of_list_to_set.
  tauto.
Qed.

Lemma merge_messages_ids (ex messages : list Scraped.t) (i : Z) :
  i ∈ ids (merge_messages ex messages) <-> i ∈ ids ex \/ i ∈ ids messages.
Proof.
  unfold ids. rewrite !list_elem_of_fmap. split.
  - intros [r [-> Hr]]. apply merge_messages_elem in Hr.
    destruct Hr as [Hr|[Hr _]]; [left|right]; eauto.
  - intros [[r [-> Hr]]|[r [-> Hr]]].
    + exists r. split; [reflexivity|]. apply merge_messages_elem. auto.
    + destruct (decide (Scraped.message_id r ∈ ids ex)) as [Hin|Hout].
      * unfold ids in Hin. apply list_elem_of_fmap in Hin.
        destruct Hin as [r' [E Hr']]. exists r'. split; [exact E|].
        apply merge_messages_elem. auto.
      * exists r. split; [reflexivity|]. apply merge_messages_elem. auto.
Qed.

Lemma count_id_app (i : Z) (l k : list Scraped.t) :
  count_id i (l ++ k) = (count_id i l + count_id i k)%nat.
Proof. unfold count_id. rewrite filter_app, length_app. reflexivity. Qed.

Lemma count_id_zero (i : Z) (l : list Scraped.t) :
  i ∉ ids l -> count_id i l = 0%nat.
Proof.
  unfold count_id, ids. induction l as [|r l IH]; intros Hi; [reflexivity|].
  rewrite fmap_cons, not_elem_of_cons in Hi. destruct Hi as [Hne Hi].
  rewrite filter_cons_False by congruence. auto.
Qed.

(** An id that is stored keeps its multiplicity, whatever the batch holds. *)
Lemma merge_messages_count_stored (ex messages : list Scraped.t) (i : Z) :
  i ∈ ids ex -> count_id i (merge_messages ex messages) = count_id i ex.
Proof.
  intros Hi. unfold merge_messages. rewrite count_id_app.
  rewrite (count_id_zero i (filter _ messages)); [lia|].
  unfold ids. rewrite list_elem_of_fmap. intros [r [-> Hr]].
  apply list_elem_of_filter in Hr. destruct Hr as [Hr _].
  apply Hr. apply elem_of_list_to_set. exact Hi.
Qed.

(** An id that is not stored gets the multiplicity it has in the batch. *)
Lemma merge_messages_count_new (ex messages : list Scraped.t) (i : Z) :
  i ∉ ids ex -> count_id i (merge_messages ex messages) = count_id i messages.
Proof.
  intros Hi. unfold merge_messages. rewrite count_id_app.
  rewrite (count_id_zero i ex Hi). cbn [Nat.add].
  unfold count_id. rewrite list_filter_filter. f_equal.
  apply list_filter_iff. intros r. rewrite elem_of_list_to_set.
  split; [tauto|]. intros E. split; [exact E|]. fold (ids ex). congruence.
Qed.

Lemma merge_messages_NoDup (ex messages : list Scraped.t) :
  NoDup (ids ex) -> NoDup (ids messages) ->
  NoDup (ids (merge_messages ex messages)).
Proof.
  intros Hex Hm. unfold merge_messages, ids. rewrite fmap_app.
  apply NoDup_app. split; [exact Hex|]. split.
  - intros i Hi. rewrite list_elem_of_fmap. intros [r [-> Hr]].
    apply list_elem_of_filter in Hr. destruct Hr as [Hr _].
    apply Hr. apply elem_of_list_to_set. exact Hi.
  - apply (sublist_NoDup _ (Scraped.message_id <$> messages));
      [exact Hm|apply fmap_sublist, sublist_filter].
Qed.

Lemma filter_none {A : Type} (P : A -> Prop) `{!forall x, Decision (P x)}
    (l : list A) :
  (forall x, x ∈ l -> ~ P x) -> filter P l = [].
Proof.
  induction l as [|a l IH]; intros Hall; [reflexivity|].
  rewrite filter_cons_False by (apply Hall; left).
  apply IH. intros x Hx. apply Hall. right. exact Hx.
Qed.

(** Flushing the same batch a second time changes nothing. *)
Lemma merge_messages_idempotent (ex messages : list Scraped.t) :
  merge_messages (merge_messages ex messages) messages
  = merge_messages ex messages.
Proof.
  unfold merge_messages at 1.
  rewrite filter_none; [apply app_nil_r|].
  intros r Hr Hout. apply Hout. apply elem_of_list_to_set.
  apply (merge_messages_ids ex messages). right.
  unfold ids. apply list_elem_of_fmap_2. exact Hr.
Qed.

(** ** Lemmas on [save_messages_to_json] *)

Section SaveFacts.

Variable clock : nat -> datetime.

(** A flush onto a file that decodes, or onto no file, stores the merge. *)
Lemma save_messages_to_json_stored (self : scraper) (w : world)
    (messages : list Scraped.t) (channel_name : string)
    (date : option datetime) (ex : list Scraped.t) :
  messages <> [] ->
  stored_records w (partition_path (flush_date clock w date) channel_name)
  = Some ex ->
  save_messages_to_json clock self w messages channel_name date
  = (Ok (),
     add_scraped_date (PyDate.strftime_ymd (flush_date clock w date)) self,
     set_partitions
       (<[partition_path (flush_date clock w date) channel_name
          := Records (merge_messages ex messages)]> (partitions w))
       (flush_clock_read w date)).
Proof.
  intros Hne Hst. destruct messages as [|m l]; [congruence|].
  unfold save_messages_to_json, stored_records, partition_path in *.
  destruct date as [d|]; cbn [flush_date flush_clock_read now partitions] in *.
  - destruct (partitions w !! _) as [[ | | ]|]; try discriminate;
      injection Hst as <-; reflexivity.
  - destruct (partitions w !! _) as [[ | | ]|]; try discriminate;
      injection Hst as <-; reflexivity.
Qed.

(** A flush onto a file that is not JSON logs it and stores the batch. *)
Lemma save_messages_to_json_not_json (self : scraper) (w : world)
    (messages : list Scraped.t) (channel_name : string)
    (date : option datetime) :
  messages <> [] ->
  partitions w !! partition_path (flush_date clock w date) channel_name
  = Some NotJSON ->
  save_messages_to_json clock self w messages channel_name date
  = (Ok (),
     add_scraped_date (PyDate.strftime_ymd (flush_date clock w date)) self,
     set_partitions
       (<[partition_path (flush_date clock w date) channel_name
          := Records messages]> (partitions w))
       (emit (Log (CouldNotReadExistingFile
                     (partition_path (flush_date clock w date) channel_name)))
          (flush_clock_read w date))).
Proof.
  intros Hne Hst. destruct messages as [|m l]; [congruence|].
  unfold save_messages_to_json, partition_path in *.
  destruct date as [d|]; cbn [flush_date flush_clock_read now partitions] in *;
    rewrite Hst; cbn [emit partitions]; rewrite merge_messages_nil_l;
    reflexivity.
Qed.

End SaveFacts.

(** C1 (as amended).  A flush onto a partition whose file decodes, or is
    absent, leaves in the file the stored records followed by the records of
    the batch whose [message_id] was not stored, in batch order.  So the ids
    of the file are those stored before together with those of the batch;
    every record stored before precedes every appended one; an id that was
    stored keeps its multiplicity (stored once, it stays stored once, however
    often the batch carries it); and the file repeats no [message_id]
    provided neither the stored array nor the batch did. *)
Theorem flush_merges_by_message_id (clock : nat -> datetime) (self : scraper)
    (w : world) (messages : list Scraped.t) (channel_name : string)
    (date : option datetime) (ex : list Scraped.t) :
  messages <> [] ->
  stored_records w (partition_path (flush_date clock w date) channel_name)
  = Some ex ->
  exists self' w' new,
    save_messages_to_json clock self w messages channel_name date
    = (Ok (), self', w')
    /\ partitions w' !! partition_path (flush_date clock w date) channel_name
       = Some (Records (ex ++ new))
    /\ new `sublist_of` messages
    /\ (forall r, r ∈ new <-> r ∈ messages /\ Scraped.message_id r ∉ ids ex)
    /\ (forall i, i ∈ ids (ex ++ new) <-> i ∈ ids ex \/ i ∈ ids messages)
    /\ (forall i, i ∈ ids ex -> count_id i (ex ++ new) = count_id i ex)
    /\ (forall i, i ∉ ids ex -> count_id i (ex ++ new) = count_id i messages)
    /\ (NoDup (ids ex) -> NoDup (ids messages) -> NoDup (ids (ex ++ new))).
Proof.
  intros Hne Hst.
  eexists _, _, (filter (fun msg =>
                   Scraped.message_id msg
                   ∉ (list_to_set (Scraped.message_id <$> ex) : gset Z))
                   messages).
  split; [apply (save_messages_to_json_stored clock _ _ _ _ _ ex Hne Hst)|].
  cbn [set_partitions partitions].
  split; [apply lookup_insert_eq|].
  split; [apply sublist_filter|].
  split.
  { intros r. rewrite list_elem_of_filter, elem_of_list_to_set.
    unfold ids. tauto. }
  split; [apply merge_messages_ids|].
  split; [apply merge_messages_count_stored|].
  split; [apply merge_messages_count_new|].
  apply merge_messages_NoDup.
Qed.

Lemma flush_merges_by_message_id_witness :
  exists self' w' new,
    save_messages_to_json Sample.clock0 Sample.scraper0 Sample.world1
      [Sample.record 7 Sample.day0; Sample.record 8 Sample.day0]
      "TestChan" (Some Sample.day0)
    = (Ok (), self', w')
    /\ partitions w' !! partition_path Sample.day0 "TestChan"
       = Some (Records ([Sample.record 7 Sample.day0] ++ new)).
Proof.
  destruct (flush_merges_by_message_id Sample.clock0 Sample.scraper0
              Sample.world1
              [Sample.record 7 Sample.day0; Sample.record 8 Sample.day0]
              "TestChan" (Some Sample.day0) [Sample.record 7 Sample.day0])
    as (self' & w' & new & Hsave & Hfile & _).
  - discriminate.
  - reflexivity.
  - exists self', w', new. split; [exact Hsave|exact Hfile].
Defined.

(** C1 (as stated) fails.  A batch that carries the same record twice is
    appended whole to an empty partition, and the duplicate survives every
    later flush of that record: the file then holds the [message_id] twice. *)
Lemma flush_keeps_duplicates_counterexample :
  let m := Sample.record 7 Sample.day0 in
  let path := partition_path Sample.day0 "TestChan" in
  let w1 :=
    (save_messages_to_json Sample.clock0 Sample.scraper0 Sample.world0
       [m; m] "TestChan" (Some Sample.day0)).2 in
  let w2 :=
    (save_messages_to_json Sample.clock0 Sample.scraper0 w1
       [m] "TestChan" (Some Sample.day0)).2 in
  partitions w1 !! path = Some (Records [m; m])
  /\ partitions w2 !! path = Some (Records [m; m])
  /\ count_id (Scraped.message_id m) [m; m] = 2%nat
  /\ ~ NoDup (ids [m; m]).
Proof.
  repeat split; try (vm_compute; reflexivity).
  intros Hnd. apply NoDup_cons in Hnd. destruct Hnd as [Hnot _].
  apply Hnot. left.
Qed.




(** C10. A flush of an empty batch returns at once: whatever the channel
    name and the date argument, the scraper object is unchanged (no date
    joins [scraped_dates]), no partition file is created or modified, the
    image store and the clock are untouched, and the only effect is the
    "no messages to save" warning in the log. *)
Theorem flush_empty_batch_is_noop (clock : nat -> datetime) (self : scraper)
    (w : world) (channel_name : string) (date : option datetime) :
  save_messages_to_json clock self w [] channel_name date
  = (Ok (), self, emit (Log (NoMessagesToSave channel_name)) w)
  /\ partitions (emit (Log (NoMessagesToSave channel_name)) w) = partitions w
  /\ images (emit (Log (NoMessagesToSave channel_name)) w) = images w
  /\ ticks (emit (Log (NoMessagesToSave channel_name)) w) = ticks w.
Proof. repeat split. Qed.

(** ** Lemmas on dates *)

Ltac euclid := zify; Z.to_euclidean_division_equations; lia.

Lemma digit_value_digit (k : N) :
  (k < 10)%N -> PyDate.digit_value (PyDate.digit k) = Some k.
Proof.
  intros Hk.
  assert (k = 0 \/ k = 1 \/ k = 2 \/ k = 3 \/ k = 4 \/ k = 5 \/ k = 6
          \/ k = 7 \/ k = 8 \/ k = 9)%N as Hcases by lia.
  repeat (destruct Hcases as [->|Hcases]; [reflexivity|]).
  subst k. reflexivity.
Qed.

Lemma date_valid_bounds (d : calendar_date) :
  PyDate.date_valid d = true ->
  (1 <= year d <= 9999 /\ 1 <= month d <= 12 /\ 1 <= day d <= 31)%N.
Proof.
  unfold PyDate.date_valid. rewrite !andb_true_iff, !N.leb_le.
  intros [[[[[H1 H2] H3] H4] H5] H6].
  assert (PyDate.days_in_month (year d) (month d) <= 31)%N.
  { unfold PyDate.days_in_month.
    repeat match goal with
           | |- context [match ?x with _ => _ end] => destruct x
           end; lia. }
  lia.
Qed.

Lemma date_ok_valid (d : calendar_date) :
  PyDate.date_ok d = true -> PyDate.date_valid d = true.
Proof. unfold PyDate.date_ok. rewrite andb_true_iff. tauto. Qed.

Lemma year_digits_four (y : N) :
  (1000 <= y)%N -> PyDate.year_digits y = PyDate.four_digits y.
Proof.
  intros Hy. unfold PyDate.year_digits.
  replace (y <? 10)%N with false by (symmetry; apply N.ltb_ge; lia).
  replace (y <? 100)%N with false by (symmetry; apply N.ltb_ge; lia).
  replace (y <? 1000)%N with false by (symmetry; apply N.ltb_ge; lia).
  reflexivity.
Qed.

(** Reading back what [strftime] wrote for a four-digit year gives the same
    calendar day. *)
Lemma strptime_strftime (d : datetime) :
  PyDate.date_ok (dt_date d) = true ->
  PyDate.strptime_ymd (PyDate.strftime_ymd d)
  = Ok (mk_datetime (dt_date d) 0).
Proof.
  intros Hok. pose proof (date_ok_valid _ Hok) as Hv.
  pose proof (date_valid_bounds _ Hv) as (Hy & Hm & Hd).
  assert (Hy4 : (1000 <= year (dt_date d))%N).
  { unfold PyDate.date_ok in Hok. apply andb_true_iff in Hok.
    destruct Hok as [Hok _]. apply N.leb_le. exact Hok. }
  destruct d as [[y m dd] t]. cbn [dt_date year month day] in *.
  unfold PyDate.strftime_ymd. cbn [dt_date year month day].
  rewrite (year_digits_four y Hy4).
  unfold PyDate.four_digits, PyDate.two_digits.
  cbn [dt_date year month day String.append].
  unfold PyDate.strptime_ymd.
  cbv beta iota fix delta [String.append].
  rewrite !digit_value_digit by euclid.
  replace (1000 * (y / 1000) + 100 * (y / 100 mod 10) + 10 * (y / 10 mod 10)
           + y mod 10)%N with y by euclid.
  replace (10 * (m / 10) + m mod 10)%N with m by euclid.
  replace (10 * (dd / 10) + dd mod 10)%N with dd by euclid.
  rewrite Hv. reflexivity.
Qed.

Lemma strftime_ymd_date (d1 d2 : datetime) :
  dt_date d1 = dt_date d2 -> PyDate.strftime_ymd d1 = PyDate.strftime_ymd d2.
Proof. unfold PyDate.strftime_ymd. intros ->. reflexivity. Qed.

(** Two dates with four-digit years are written alike only if they are the
    same day. *)
Lemma strftime_ymd_inj (d1 d2 : datetime) :
  PyDate.date_ok (dt_date d1) = true ->
  PyDate.date_ok (dt_date d2) = true ->
  PyDate.strftime_ymd d1 = PyDate.strftime_ymd d2 -> dt_date d1 = dt_date d2.
Proof.
  intros H1 H2 E.
  pose proof (strptime_strftime d1 H1) as P1.
  pose proof (strptime_strftime d2 H2) as P2.
  rewrite E in P1. congruence.
Qed.

(** ** Lemmas on paths *)

Lemma string_length_append (s t : string) :
  String.length (s +:+ t) = (String.length s + String.length t)%nat.
Proof. induction s as [|c s IH]; simpl; [reflexivity|]. rewrite IH. reflexivity. Qed.

Lemma string_append_inv_tail (s1 s2 t : string) :
  s1 +:+ t = s2 +:+ t -> s1 = s2.
Proof.
  revert s2. induction s1 as [|c s1 IH]; intros [|c2 s2] E.
  - reflexivity.
  - apply (f_equal String.length) in E.
    rewrite !string_length_append in E. simpl in E. lia.
  - apply (f_equal String.length) in E.
    rewrite !string_length_append in E. simpl in E. lia.
  - change (String c (s1 +:+ t) = String c2 (s2 +:+ t)) in E.
    injection E as -> E. f_equal. apply IH. exact E.
Qed.

(** For one channel, different date strings give different files. *)
Lemma output_file_path_inj (k1 k2 safe : string) :
  output_file_path k1 safe = output_file_path k2 safe -> k1 = k2.
Proof.
  unfold output_file_path. intros E.
  apply (inj (String.append _)) in E.
  apply string_append_inv_tail in E. exact E.
Qed.

(** ** Lemmas on insertion-ordered dictionaries *)

Section PyDictFacts.
Context {V : Type}.
Implicit Types (d : pydict V) (k : string) (v : V).

Lemma dict_get_set_eq k v d : dict_get k (dict_set k v d) = Some v.
Proof.
  induction d as [|[k' v'] d IH]; simpl.
  - rewrite String.eqb_refl. reflexivity.
  - destruct (String.eqb k' k) eqn:E; simpl; rewrite E; auto.
Qed.

Lemma dict_get_set_ne k k' v d :
  k <> k' -> dict_get k' (dict_set k v d) = dict_get k' d.
Proof.
  intros Hne. induction d as [|[k0 v0] d IH]; simpl.
  - destruct (String.eqb_spec k k'); [congruence|reflexivity].
  - destruct (String.eqb_spec k0 k) as [->|Hk]; simpl.
    + destruct (String.eqb_spec k k'); [congruence|reflexivity].
    + rewrite IH. reflexivity.
Qed.

Lemma dict_get_None k d : dict_get k d = None <-> k ∉ dict_keys d.
Proof.
  unfold dict_keys. induction d as [|[k0 v0] d IH]; simpl.
  - split; [intros _; apply not_elem_of_nil|reflexivity].
  - rewrite not_elem_of_cons.
    destruct (String.eqb_spec k0 k) as [->|Hk].
    + split; [discriminate|intros [Hne _]; congruence].
    + rewrite IH. split; [intros Hn; split; congruence|tauto].
Qed.

Lemma dict_get_elem k v d : dict_get k d = Some v -> (k, v) ∈ d.
Proof.
  induction d as [|[k0 v0] d IH]; simpl; [discriminate|].
  destruct (String.eqb_spec k0 k) as [->|Hk].
  - intros [= ->]. left.
  - intros Hg. right. auto.
Qed.

Lemma dict_elem_get k v d :
  NoDup (dict_keys d) -> (k, v) ∈ d -> dict_get k d = Some v.
Proof.
  unfold dict_keys. induction d as [|[k0 v0] d IH]; simpl.
  - intros _ Hin. apply elem_of_nil in Hin. contradiction.
  - intros Hnd Hin. apply NoDup_cons in Hnd. destruct Hnd as [Hk0 Hnd].
    apply elem_of_cons in Hin. destruct Hin as [[= -> ->]|Hin].
    + rewrite String.eqb_refl. reflexivity.
    + destruct (String.eqb_spec k0 k) as [->|Hk]; [|auto].
      exfalso. apply Hk0. change k with (fst (k, v)).
      apply list_elem_of_In, in_map, list_elem_of_In. exact Hin.
Qed.

Lemma dict_keys_set k v d :
  dict_keys (dict_set k v d)
  = if dict_mem k d then dict_keys d else dict_keys d ++ [k].
Proof.
  unfold dict_mem, dict_keys. induction d as [|[k0 v0] d IH]; simpl.
  - reflexivity.
  - destruct (String.eqb k0 k) eqn:E; simpl; [reflexivity|].
    rewrite IH. destruct (dict_get k d); reflexivity.
Qed.

Lemma dict_keys_set_NoDup k v d :
  NoDup (dict_keys d) -> NoDup (dict_keys (dict_set k v d)).
Proof.
  intros Hnd. rewrite dict_keys_set. unfold dict_mem.
  destruct (dict_get k d) eqn:E; [exact Hnd|].
  apply NoDup_app. split; [exact Hnd|]. split; [|apply NoDup_singleton].
  intros x Hx Hx'. apply list_elem_of_singleton in Hx'. subst x.
  apply dict_get_None in E. contradiction.
Qed.

End PyDictFacts.

(** ** Lemmas on the grouping by date *)

Section GroupFacts.

Variable clock : nat -> datetime.

Lemma group_by_date_get (messages : list Scraped.t) (w : world)
    (acc : pydict (list Scraped.t)) (k : string) :
  dict_get k (group_by_date clock messages w acc).1
  = extended (dict_get k acc)
      (filed_under k messages (derived_dates clock (ticks w) messages)).
Proof.
  revert w acc. induction messages as [|msg rest IH]; intros w acc.
  - cbn. destruct (dict_get k acc); cbn; [rewrite app_nil_r|]; reflexivity.
  - cbn [group_by_date derived_dates].
    set (dk := fun d => PyDate.strftime_ymd d).
    assert (Hstep : forall d acc,
      dict_get k
        (dict_set (dk d)
           (default []
              (dict_get (dk d)
                 (if dict_mem (dk d) acc then acc
                  else dict_set (dk d) [] acc)) ++ [msg])
           (if dict_mem (dk d) acc then acc else dict_set (dk d) [] acc))
      = if String.eqb (dk d) k
        then Some (default [] (dict_get k acc) ++ [msg])
        else dict_get k acc).
    { intros d a. destruct (String.eqb_spec (dk d) k) as [<-|Hne].
      - rewrite dict_get_set_eq. unfold dict_mem.
        destruct (dict_get (dk d) a) eqn:E; rewrite ?E; [reflexivity|].
        rewrite dict_get_set_eq. reflexivity.
      - rewrite dict_get_set_ne by exact Hne.
        destruct (dict_mem (dk d) a); [reflexivity|].
        apply dict_get_set_ne. exact Hne. }
    destruct (Scraped.message_date msg) as [d|]; cbn [now fst snd].
    + rewrite IH, Hstep. cbn [filed_under]. fold (dk d).
      destruct (String.eqb (dk d) k); [|reflexivity].
      destruct (dict_get k acc); cbn; rewrite <- ?app_assoc; reflexivity.
    + rewrite IH, Hstep. cbn [filed_under ticks]. fold (dk (clock (ticks w))).
      destruct (String.eqb (dk (clock (ticks w))) k); [|reflexivity].
      destruct (dict_get k acc); cbn; rewrite <- ?app_assoc; reflexivity.
Qed.

Lemma group_by_date_keys_NoDup (messages : list Scraped.t) (w : world)
    (acc : pydict (list Scraped.t)) :
  NoDup (dict_keys acc) ->
  NoDup (dict_keys (group_by_date clock messages w acc).1).
Proof.
  revert w acc. induction messages as [|msg rest IH]; intros w acc Hnd.
  - exact Hnd.
  - cbn [group_by_date].
    destruct (Scraped.message_date msg) as [d|]; cbn [now];
      apply IH, dict_keys_set_NoDup;
      match goal with
      | |- context [dict_mem ?k acc] =>
          destruct (dict_mem k acc);
            [exact Hnd|apply dict_keys_set_NoDup, Hnd]
      end.
Qed.

(** Grouping reads the clock and touches nothing else. *)
Lemma group_by_date_world (messages : list Scraped.t) (w : world)
    (acc : pydict (list Scraped.t)) :
  let w' := (group_by_date clock messages w acc).2 in
  images w' = images w /\ partitions w' = partitions w
  /\ trace w' = trace w.
Proof.
  revert w acc. induction messages as [|msg rest IH]; intros w acc.
  - cbn. auto.
  - cbn [group_by_date].
    destruct (Scraped.message_date msg) as [d|]; cbn [now].
    + apply IH.
    + match goal with
      | |- context [group_by_date clock rest ?w1 ?a] =>
          destruct (IH w1 a) as (H1 & H2 & H3)
      end.
      cbn zeta. rewrite H1, H2, H3. auto.
Qed.

End GroupFacts.

Lemma derived_dates_length (clock : nat -> datetime) (n : nat)
    (messages : list Scraped.t) :
  length (derived_dates clock n messages) = length messages.
Proof.
  revert n. induction messages as [|msg rest IH]; intros n; [reflexivity|].
  cbn [derived_dates]. destruct (Scraped.message_date msg); cbn; rewrite IH;
    reflexivity.
Qed.

(** A date string has a group exactly when some message is filed under it. *)
Lemma filed_under_nonempty (k : string) (messages : list Scraped.t)
    (dates : list datetime) :
  length dates = length messages ->
  filed_under k messages dates <> []
  <-> exists d, d ∈ dates /\ PyDate.strftime_ymd d = k.
Proof.
  revert dates. induction messages as [|msg rest IH]; intros [|d ds] Hlen;
    try discriminate.
  - cbn. split; [congruence|]. intros (d & Hd & _).
    apply elem_of_nil in Hd. contradiction.
  - cbn [filed_under]. injection Hlen as Hlen. specialize (IH ds Hlen).
    destruct (String.eqb_spec (PyDate.strftime_ymd d) k) as [E|E].
    + split; [|discriminate]. intros _. exists d. split; [left|exact E].
    + rewrite IH. split.
      * intros (d' & Hd' & E'). exists d'. split; [right; exact Hd'|exact E'].
      * intros (d' & Hd' & E'). apply elem_of_cons in Hd'.
        destruct Hd' as [->|Hd']; [contradiction|]. eauto.
Qed.

(** Every message filed under a date string is a message of the batch whose
    derived date is written that way. *)
Lemma filed_under_elem (k : string) (messages : list Scraped.t)
    (dates : list datetime) (r : Scraped.t) :
  r ∈ filed_under k messages dates ->
  exists i d, messages !! i = Some r /\ dates !! i = Some d
              /\ PyDate.strftime_ymd d = k.
Proof.
  revert dates. induction messages as [|msg rest IH]; intros [|d ds];
    cbn [filed_under]; try (intros H; apply elem_of_nil in H; contradiction).
  destruct (String.eqb_spec (PyDate.strftime_ymd d) k) as [E|E].
  - intros Hr. apply elem_of_cons in Hr. destruct Hr as [->|Hr].
    + exists 0%nat, d. auto.
    + destruct (IH ds Hr) as (i & d' & H1 & H2 & H3).
      exists (S i), d'. auto.
  - intros Hr. destruct (IH ds Hr) as (i & d' & H1 & H2 & H3).
    exists (S i), d'. auto.
Qed.

Lemma filed_under_complete (messages : list Scraped.t)
    (dates : list datetime) (i : nat) (r : Scraped.t) (d : datetime) :
  messages !! i = Some r -> dates !! i = Some d ->
  r ∈ filed_under (PyDate.strftime_ymd d) messages dates.
Proof.
  revert dates i. induction messages as [|msg rest IH]; intros [|d0 ds] [|i];
    cbn; try discriminate.
  - intros [= ->] [= ->]. rewrite String.eqb_refl. left.
  - intros Hr Hd. specialize (IH ds i Hr Hd).
    destruct (String.eqb _ _); [right|]; exact IH.
Qed.

Section FlushFacts.

Variable clock : nat -> datetime.

(** A flush onto anything but undecodable text stores the merge with what
    the file held (nothing, when the file was absent or not JSON). *)
Lemma save_messages_to_json_decodable (self : scraper) (w : world)
    (messages : list Scraped.t) (channel_name : string) (d : datetime) :
  messages <> [] ->
  partitions w !! partition_path d channel_name <> Some NotText ->
  exists w',
    save_messages_to_json clock self w messages channel_name (Some d)
    = (Ok (), add_scraped_date (PyDate.strftime_ymd d) self, w')
    /\ partitions w'
       = <[partition_path d channel_name
           := Records (merge_messages
                         (stored_or_empty w (partition_path d channel_name))
                         messages)]> (partitions w)
    /\ images w' = images w /\ ticks w' = ticks w.
Proof.
  intros Hne Hnt.
  destruct (partitions w !! partition_path d channel_name)
    as [[ex| | ]|] eqn:E; [| |congruence|].
  - eexists. split.
    + apply (save_messages_to_json_stored clock self w messages
               channel_name (Some d) ex Hne).
      unfold stored_records. cbn [flush_date]. rewrite E. reflexivity.
    + unfold stored_or_empty, stored_records. rewrite E. auto.
  - eexists. split.
    + apply (save_messages_to_json_not_json clock self w messages
               channel_name (Some d) Hne). exact E.
    + unfold stored_or_empty, stored_records. rewrite E.
      cbn [default]. rewrite merge_messages_nil_l. auto.
  - eexists. split.
    + apply (save_messages_to_json_stored clock self w messages
               channel_name (Some d) [] Hne).
      unfold stored_records. cbn [flush_date]. rewrite E. reflexivity.
    + unfold stored_or_empty, stored_records. rewrite E. auto.
Qed.

(** The loop over the date groups: with distinct date strings, each of
    them written from a date with a four-digit year, every group is merged
    into its own file and no other file changes. *)
Lemma save_by_date_spec (items : pydict (list Scraped.t))
    (channel_name : string) (self : scraper) (w : world) :
  let path := fun k => output_file_path k (safe_channel_name channel_name) in
  NoDup (dict_keys items) ->
  (forall k l, (k, l) ∈ items ->
     l <> [] /\ partitions w !! path k <> Some NotText
     /\ exists d, PyDate.date_ok (dt_date d) = true
                  /\ PyDate.strftime_ymd d = k) ->
  exists self' w',
    save_by_date clock items channel_name self w = (Ok (), self', w')
    /\ (forall k l, (k, l) ∈ items ->
          partitions w' !! path k
          = Some (Records (merge_messages (stored_or_empty w (path k)) l)))
    /\ (forall p, (forall k, k ∈ dict_keys items -> p <> path k) ->
          partitions w' !! p = partitions w !! p)
    /\ images w' = images w
    /\ scraped_dates self'
       = list_to_set (dict_keys items) ∪ scraped_dates self.
Proof.
  intros path. revert self w.
  induction items as [|[k l] rest IH]; intros self w Hnd Hitems.
  - exists self, w. cbn. repeat split; auto.
    + intros k l Hin. apply elem_of_nil in Hin. contradiction.
    + symmetry. apply (left_id_L ∅ (∪)).
  - cbn [dict_keys map fst] in Hnd. apply NoDup_cons in Hnd.
    destruct Hnd as [Hk Hnd].
    destruct (Hitems k l) as (Hl & Hnt & d & Hv & Hd); [left|].
    set (d0 := mk_datetime (dt_date d) 0).
    cbn [save_by_date].
    replace (PyDate.strptime_ymd k) with (Ok d0)
      by (rewrite <- Hd; symmetry; apply strptime_strftime, Hv).
    assert (Hk0 : PyDate.strftime_ymd d0 = k).
    { rewrite <- Hd. apply strftime_ymd_date. reflexivity. }
    assert (Hp0 : partition_path d0 channel_name = path k).
    { unfold partition_path, path. rewrite Hk0. reflexivity. }
    destruct (save_messages_to_json_decodable self w l channel_name d0 Hl)
      as (w1 & Hsave & Hparts & Himg & _).
    { rewrite Hp0. exact Hnt. }
    rewrite Hk0 in Hsave. rewrite Hsave. rewrite Hp0 in Hparts.
    assert (Hother : forall k', k' ∈ dict_keys rest -> path k' <> path k).
    { intros k' Hin E. apply output_file_path_inj in E. subst k'.
      apply Hk. exact Hin. }
    destruct (IH (add_scraped_date k self) w1 Hnd)
      as (self' & w' & Hrun & Hfiles & Hframe & Himg' & Hdates).
    { intros k' l' Hin.
      destruct (Hitems k' l') as (Hl' & Hnt' & Hd'); [right; exact Hin|].
      split; [exact Hl'|]. split; [|exact Hd'].
      rewrite Hparts, lookup_insert_ne; [exact Hnt'|].
      apply not_eq_sym, Hother. unfold dict_keys.
      change k' with (fst (k', l')).
      apply list_elem_of_In, in_map, list_elem_of_In. exact Hin. }
    exists self', w'. split; [exact Hrun|]. split; [|split; [|split]].
    + intros k' l' Hin. apply elem_of_cons in Hin.
      destruct Hin as [[= -> ->]|Hin].
      * rewrite Hframe; [rewrite Hparts; apply lookup_insert_eq|].
        intros k' Hin. apply not_eq_sym, Hother. exact Hin.
      * rewrite (Hfiles k' l' Hin). do 3 f_equal.
        unfold stored_or_empty, stored_records.
        rewrite Hparts, lookup_insert_ne; [reflexivity|].
        apply not_eq_sym, Hother. unfold dict_keys.
        change k' with (fst (k', l')).
        apply list_elem_of_In, in_map, list_elem_of_In. exact Hin.
    + intros p Hp. rewrite Hframe.
      * rewrite Hparts, lookup_insert_ne; [reflexivity|].
        apply not_eq_sym, Hp. left.
      * intros k' Hin. apply Hp. right. exact Hin.
    + congruence.
    + rewrite Hdates. cbn [add_scraped_date scraped_dates dict_keys map fst
                             list_to_set].
      apply set_eq. intros x. rewrite !elem_of_union. tauto.
Qed.

End FlushFacts.

(** What the flush of a non-empty batch leaves in the partition files. *)
Lemma flush_channel_files (clock : nat -> datetime)
    (self : scraper) (w : world) (first : Scraped.t) (rest : list Scraped.t) :
  let messages := first :: rest in
  let ch := Scraped.channel_name first in
  let dates := derived_dates clock (ticks w) messages in
  (forall d, d ∈ dates -> PyDate.date_ok (dt_date d) = true) ->
  (forall d, d ∈ dates ->
     partitions w !! partition_path d ch <> Some NotText) ->
  exists self' w',
    flush_channel clock self w messages = (Ok (), self', w')
    /\ (forall d, d ∈ dates ->
          partitions w' !! partition_path d ch
          = Some (Records
                    (merge_messages
                       (stored_or_empty w (partition_path d ch))
                       (filed_under (PyDate.strftime_ymd d) messages dates))))
    /\ (forall d, d ∈ dates ->
          partitions w !! partition_path d ch = None ->
          partitions w' !! partition_path d ch
          = Some (Records (filed_under (PyDate.strftime_ymd d) messages dates)))
    /\ (forall d r, d ∈ dates ->
          r ∈ filed_under (PyDate.strftime_ymd d) messages dates
          <-> exists i d', messages !! i = Some r /\ dates !! i = Some d'
                           /\ dt_date d' = dt_date d)
    /\ (forall d1 d2, d1 ∈ dates -> d2 ∈ dates ->
          dt_date d1 <> dt_date d2 ->
          partition_path d1 ch <> partition_path d2 ch)
    /\ (forall p, (forall d, d ∈ dates -> p <> partition_path d ch) ->
          partitions w' !! p = partitions w !! p).
Proof.
  intros messages ch dates Hok Hnt.
  pose proof Hok as Hvalid.
  assert (Hlen : length dates = length messages)
    by apply derived_dates_length.
  unfold flush_channel. fold messages.
  pose proof (group_by_date_get clock messages w []) as Hget.
  pose proof (group_by_date_keys_NoDup clock messages w [] (NoDup_nil_2))
    as Hnd.
  pose proof (group_by_date_world clock messages w []) as (_ & Hparts & _).
  destruct (group_by_date clock messages w []) as [items w1].
  cbn [fst snd] in Hget, Hnd, Hparts. cbn [dict_get extended] in Hget.
  fold dates in Hget.
  assert (Hitem : forall k l, (k, l) ∈ items ->
            l = filed_under k messages dates /\ l <> []).
  { intros k l Hin. apply (dict_elem_get _ _ _ Hnd) in Hin.
    rewrite Hget in Hin. destruct (filed_under k messages dates);
      [discriminate|]. injection Hin as <-. split; [reflexivity|discriminate]. }
  assert (Hdate : forall d, d ∈ dates ->
            (PyDate.strftime_ymd d,
             filed_under (PyDate.strftime_ymd d) messages dates) ∈ items).
  { intros d Hd. apply dict_get_elem. rewrite Hget.
    assert (Hne : filed_under (PyDate.strftime_ymd d) messages dates <> []).
    { apply filed_under_nonempty; [exact Hlen|]. eauto. }
    destruct (filed_under (PyDate.strftime_ymd d) messages dates);
      [congruence|reflexivity]. }
  destruct (save_by_date_spec clock items ch self w1 Hnd)
    as (self' & w' & Hrun & Hfiles & Hframe & _ & _).
  { intros k l Hin. destruct (Hitem k l Hin) as [-> Hne].
    split; [exact Hne|].
    apply filed_under_nonempty in Hne; [|exact Hlen].
    destruct Hne as (d & Hd & <-).
    split; [rewrite Hparts; apply (Hnt d Hd)|].
    exists d. split; [apply Hvalid, Hd|reflexivity]. }
  assert (Hst : forall p, stored_or_empty w1 p = stored_or_empty w p).
  { intros p. unfold stored_or_empty, stored_records. rewrite Hparts.
    reflexivity. }
  exists self', w'. split; [exact Hrun|].
  assert (Hfile : forall d, d ∈ dates ->
            partitions w' !! partition_path d ch
            = Some (Records
                      (merge_messages
                         (stored_or_empty w (partition_path d ch))
                         (filed_under (PyDate.strftime_ymd d) messages dates)))).
  { intros d Hd. rewrite <- Hst. apply (Hfiles _ _ (Hdate d Hd)). }
  split; [exact Hfile|]. split; [|split; [|split]].
  - intros d Hd Hnone. rewrite (Hfile d Hd).
    unfold stored_or_empty, stored_records. rewrite Hnone.
    cbn [default]. rewrite merge_messages_nil_l. reflexivity.
  - intros d r Hd. split.
    + intros Hr. apply filed_under_elem in Hr.
      destruct Hr as (i & d' & Hm & Hd' & E).
      exists i, d'. split; [exact Hm|]. split; [exact Hd'|].
      apply strftime_ymd_inj; [| |exact E]; apply Hvalid;
        [eapply list_elem_of_lookup_2; exact Hd'|exact Hd].
    + intros (i & d' & Hm & Hd' & E).
      rewrite <- (strftime_ymd_date d' d E).
      eapply filed_under_complete; eassumption.
  - intros d1 d2 H1 H2 Hne E. apply Hne.
    apply output_file_path_inj in E.
    apply strftime_ymd_inj; [apply Hvalid, H1|apply Hvalid, H2|exact E].
  - intros p Hp. rewrite Hframe; [rewrite Hparts; reflexivity|].
    intros k Hk. unfold dict_keys in Hk.
    apply list_elem_of_In, in_map_iff in Hk.
    destruct Hk as ([k' l] & <- & Hin). apply list_elem_of_In in Hin.
    destruct (Hitem k' l Hin) as [-> Hne].
    apply filed_under_nonempty in Hne; [|exact Hlen].
    destruct Hne as (d & Hd & <-). apply (Hp d Hd).
Qed.

(** C6. The flush of a channel's batch groups the messages by the calendar
    date of [message_date] (of the clock's reading, for a message without
    one) and writes one partition file per date: the file of a date receives
    the merge of what it held with exactly the messages grouped under that
    date, a file that did not exist holds those messages and no others,
    different calendar dates go to different files, and no other file
    changes. *)
Theorem flush_channel_groups_by_date (clock : nat -> datetime)
    (self : scraper) (w : world) (first : Scraped.t) (rest : list Scraped.t) :
  let messages := first :: rest in
  let ch := Scraped.channel_name first in
  let dates := derived_dates clock (ticks w) messages in
  (forall d, d ∈ dates -> PyDate.date_ok (dt_date d) = true) ->
  (forall d, d ∈ dates ->
     partitions w !! partition_path d ch <> Some NotText) ->
  exists self' w',
    flush_channel clock self w messages = (Ok (), self', w')
    /\ (forall d, d ∈ dates ->
          partitions w' !! partition_path d ch
          = Some (Records
                    (merge_messages
                       (stored_or_empty w (partition_path d ch))
                       (filed_under (PyDate.strftime_ymd d) messages dates))))
    /\ (forall d, d ∈ dates ->
          partitions w !! partition_path d ch = None ->
          partitions w' !! partition_path d ch
          = Some (Records (filed_under (PyDate.strftime_ymd d) messages dates)))
    /\ (forall d r, d ∈ dates ->
          r ∈ filed_under (PyDate.strftime_ymd d) messages dates
          <-> exists i d', messages !! i = Some r /\ dates !! i = Some d'
                           /\ dt_date d' = dt_date d)
    /\ (forall d1 d2, d1 ∈ dates -> d2 ∈ dates ->
          dt_date d1 <> dt_date d2 ->
          partition_path d1 ch <> partition_path d2 ch)
    /\ (forall p, (forall d, d ∈ dates -> p <> partition_path d ch) ->
          partitions w' !! p = partitions w !! p).
Proof. apply flush_channel_files. Qed.

Lemma flush_channel_groups_by_date_witness :
  exists self' w',
    flush_channel Sample.clock0 Sample.scraper0 Sample.world0
      [Sample.record 1 Sample.day0; Sample.record 2 Sample.day1;
       Sample.record 3 Sample.day0]
    = (Ok (), self', w')
    /\ partitions w' !! partition_path Sample.day0 "TestChan"
       = Some (Records [Sample.record 1 Sample.day0;
                        Sample.record 3 Sample.day0])
    /\ partitions w' !! partition_path Sample.day1 "TestChan"
       = Some (Records [Sample.record 2 Sample.day1])
    /\ partition_path Sample.day0 "TestChan"
       <> partition_path Sample.day1 "TestChan".
Proof.
  destruct (flush_channel_groups_by_date Sample.clock0 Sample.scraper0
              Sample.world0 (Sample.record 1 Sample.day0)
              [Sample.record 2 Sample.day1; Sample.record 3 Sample.day0])
    as (self' & w' & Hrun & _ & Hfresh & _ & Hsep & _).
  - intros d Hd. cbn in Hd.
    repeat (apply elem_of_cons in Hd; destruct Hd as [->|Hd];
            [reflexivity|]).
    apply elem_of_nil in Hd. contradiction.
  - intros d Hd. cbn. rewrite lookup_empty. discriminate.
  - exists self', w'. split; [exact Hrun|].
    split; [|split].
    + apply (Hfresh Sample.day0); [left|reflexivity].
    + apply (Hfresh Sample.day1); [right; left|reflexivity].
    + apply (Hsep Sample.day0 Sample.day1); [left|right; left|discriminate].
Defined.

(** ** Lemmas on the image store *)

Lemma image_exists_dir (dir file : string) (w : world) :
  image_exists dir file w = true -> mkdir_image_dir dir w = w.
Proof.
  unfold image_exists, mkdir_image_dir.
  destruct (images w !! dir); [reflexivity|discriminate].
Qed.

Lemma image_exists_mkdir (dir file : string) (w : world) :
  image_exists dir file (mkdir_image_dir dir w) = image_exists dir file w.
Proof.
  unfold image_exists, mkdir_image_dir.
  destruct (images w !! dir) eqn:E; [rewrite E; reflexivity|].
  cbn [set_images images]. rewrite lookup_insert_eq.
  apply bool_decide_eq_false. apply not_elem_of_empty.
Qed.

Lemma image_exists_write (dir file : string) (w : world) :
  image_exists dir file (write_image dir file w) = true.
Proof.
  unfold image_exists, write_image. cbn [set_images images].
  rewrite lookup_insert_eq. apply bool_decide_eq_true.
  apply elem_of_union_l, elem_of_singleton. reflexivity.
Qed.

Lemma image_exists_emit (dir file : string) (e : event) (w : world) :
  image_exists dir file (emit e w) = image_exists dir file w.
Proof. reflexivity. Qed.

(** ** Lemmas on the counters *)

Lemma init_counter_lookup (self : scraper) (k : string) :
  downloaded_images_count (init_counter self k) !! k
  = Some (downloaded_count self k).
Proof.
  unfold init_counter, downloaded_count.
  destruct (downloaded_images_count self !! k) eqn:E; [exact E|].
  cbn. apply lookup_insert_eq.
Qed.

Lemma init_counter_count (self : scraper) (k k' : string) :
  downloaded_count (init_counter self k) k' = downloaded_count self k'.
Proof.
  unfold init_counter, downloaded_count.
  destruct (downloaded_images_count self !! k) eqn:E; [reflexivity|].
  cbn [set_downloaded_images_count downloaded_images_count].
  destruct (decide (k = k')) as [<-|Hne].
  - rewrite lookup_insert_eq, E. reflexivity.
  - rewrite lookup_insert_ne by exact Hne. reflexivity.
Qed.

Lemma init_counter_present (self : scraper) (k : string) :
  is_Some (downloaded_images_count self !! k) -> init_counter self k = self.
Proof. unfold init_counter. intros [c ->]. reflexivity. Qed.

(** Creating a counter touches no other field of the scraper. *)
Lemma init_counter_fields (self : scraper) (k : string) :
  client (init_counter self k) = client self
  /\ channel_max_images (init_counter self k) = channel_max_images self
  /\ channel_limit_reached (init_counter self k) = channel_limit_reached self
  /\ scraped_channels (init_counter self k) = scraped_channels self
  /\ scraped_dates (init_counter self k) = scraped_dates self.
Proof.
  unfold init_counter.
  destruct (downloaded_images_count self !! k); repeat split.
Qed.

(** ** Lemmas on [download_image] *)

Section DownloadFacts.

Variable DEFAULT_MAX_IMAGES : Z.
Variable telegram : provider.

Variables (self : scraper) (w : world) (message : Message.t).
Variables (channel_name : string) (message_id : Z).

Let config_channel : string :=
  get_config_channel_name (channel_max_images self) channel_name.
Let max_images : Z :=
  RegistrySpec.resolve_quota DEFAULT_MAX_IMAGES (channel_max_images self)
    channel_name.
Let image_file : string := pretty message_id +:+ ".jpg".
Let image_path : string :=
  "data/raw/images/" +:+ channel_name +:+ "/" +:+ image_file.

Hypothesis photo : Message.media message = Some Message.MessageMediaPhoto.

(** Quota exhausted: no download, and at most one warning. *)
Lemma download_image_exhausted :
  max_images <= downloaded_count self config_channel ->
  download_image DEFAULT_MAX_IMAGES telegram self w message channel_name
    message_id
  = if bool_decide (config_channel ∈ channel_limit_reached self)
    then (false, init_counter self config_channel, w)
    else (false,
          add_channel_limit_reached config_channel
            (init_counter self config_channel),
          emit (Log (MaximumLimitReached channel_name max_images)) w).
Proof.
  intros Hc. unfold download_image. rewrite photo.
  rewrite get_max_images_for_channel_resolve.
  fold config_channel max_images.
  rewrite init_counter_lookup.
  change (default 0 (Some (downloaded_count self config_channel)))
    with (downloaded_count self config_channel).
  destruct (init_counter_fields self config_channel) as (_ & _ & -> & _).
  replace (downloaded_count self config_channel >=? max_images) with true
    by (symmetry; rewrite Z.geb_leb; apply Z.leb_le; exact Hc).
  reflexivity.
Qed.

(** Quota left and the file is there: nothing happens. *)
Lemma download_image_present :
  downloaded_count self config_channel < max_images ->
  image_exists channel_name image_file w = true ->
  download_image DEFAULT_MAX_IMAGES telegram self w message channel_name
    message_id
  = (true, init_counter self config_channel, w).
Proof.
  intros Hc Hex. unfold download_image. rewrite photo.
  rewrite get_max_images_for_channel_resolve.
  fold config_channel max_images.
  rewrite init_counter_lookup.
  change (default 0 (Some (downloaded_count self config_channel)))
    with (downloaded_count self config_channel).
  replace (downloaded_count self config_channel >=? max_images) with false
    by (symmetry; rewrite Z.geb_leb; apply Z.leb_gt; lia).
  fold image_file. rewrite (image_exists_dir _ _ _ Hex), Hex. reflexivity.
Qed.

(** Quota left and the file is not there: the content is fetched; when the
    fetch returns the counter goes up by one, when it raises the error is
    logged; the file is there afterwards if the fetch left one. *)
Lemma download_image_absent :
  downloaded_count self config_channel < max_images ->
  image_exists channel_name image_file w = false ->
  download_image DEFAULT_MAX_IMAGES telegram self w message channel_name
    message_id
  = match returned (download_media telegram message image_path) with
    | Ok _ =>
        (true,
         set_downloaded_images_count
           (<[config_channel := downloaded_count self config_channel + 1]>
              (downloaded_images_count (init_counter self config_channel)))
           (init_counter self config_channel),
         after_fetch (download_media telegram message image_path)
           channel_name image_file
           (emit (DownloadMedia image_path)
              (mkdir_image_dir channel_name w)))
    | Raise e =>
        (false, init_counter self config_channel,
         emit (Log (ErrorDownloadingImage message_id e))
           (after_fetch (download_media telegram message image_path)
              channel_name image_file
              (emit (DownloadMedia image_path)
                 (mkdir_image_dir channel_name w))))
    end.
Proof.
  intros Hc Hex. unfold download_image. rewrite photo.
  rewrite get_max_images_for_channel_resolve.
  fold config_channel max_images.
  rewrite init_counter_lookup.
  change (default 0 (Some (downloaded_count self config_channel)))
    with (downloaded_count self config_channel).
  replace (downloaded_count self config_channel >=? max_images) with false
    by (symmetry; rewrite Z.geb_leb; apply Z.leb_gt; lia).
  fold image_file. rewrite image_exists_mkdir, Hex. reflexivity.
Qed.

End DownloadFacts.

(** What a fetch leaves in the world: the file if it wrote one, and nothing
    else. *)
Lemma after_fetch_image_exists (fetched : download) (dir file : string)
    (w : world) :
  image_exists dir file (after_fetch fetched dir file w)
  = file_written fetched || image_exists dir file w.
Proof.
  unfold after_fetch. destruct (file_written fetched); [|reflexivity].
  apply image_exists_write.
Qed.

Lemma after_fetch_frame (fetched : download) (dir file : string) (w : world) :
  partitions (after_fetch fetched dir file w) = partitions w
  /\ ticks (after_fetch fetched dir file w) = ticks w
  /\ trace (after_fetch fetched dir file w) = trace w.
Proof. unfold after_fetch. destruct (file_written fetched); auto. Qed.

Lemma init_counter_same (self : scraper) (k : string) :
  init_counter self k = self <-> is_Some (downloaded_images_count self !! k).
Proof.
  split; [|apply init_counter_present].
  intros E. pose proof (init_counter_lookup self k) as Hl.
  rewrite E in Hl. rewrite Hl. eauto.
Qed.

Lemma init_counter_fresh (self : scraper) (k : string) :
  downloaded_images_count self !! k = None ->
  downloaded_images_count (init_counter self k) !! k = Some 0.
Proof.
  intros E. rewrite init_counter_lookup. unfold downloaded_count.
  rewrite E. reflexivity.
Qed.

(** C8 (as amended).  A call of [download_image] for a photo message whose
    channel quota is not exhausted.  If the target file is already on disk
    the call returns true, fetches nothing and leaves the world as it is;
    every counter reads the same and the other fields of the scraper are
    the same, but the scraper object is unchanged only when the channel had
    a counter: otherwise the call creates the counter, at 0.  If the file is
    not there the content is fetched, once: when the fetch returns with the
    file written, the call returns true and the counter is one higher; when
    the fetch raises, the call logs the error, returns false and leaves the
    counter alone; the file is on disk afterwards exactly when the fetch
    left one. *)
Theorem download_image_existing_file_is_noop (DEFAULT_MAX_IMAGES : Z)
    (telegram : provider) (self : scraper) (w : world) (message : Message.t)
    (channel_name : string) (message_id : Z) :
  let config_channel :=
    get_config_channel_name (channel_max_images self) channel_name in
  let max_images :=
    RegistrySpec.resolve_quota DEFAULT_MAX_IMAGES (channel_max_images self)
      channel_name in
  let image_file := pretty message_id +:+ ".jpg" in
  let image_path :=
    "data/raw/images/" +:+ channel_name +:+ "/" +:+ image_file in
  let fetched := download_media telegram message image_path in
  Message.media message = Some Message.MessageMediaPhoto ->
  downloaded_count self config_channel < max_images ->
  (image_exists channel_name image_file w = true ->
   exists self',
     download_image DEFAULT_MAX_IMAGES telegram self w message channel_name
       message_id = (true, self', w)
     /\ (forall k, downloaded_count self' k = downloaded_count self k)
     /\ client self' = client self
     /\ channel_max_images self' = channel_max_images self
     /\ channel_limit_reached self' = channel_limit_reached self
     /\ scraped_channels self' = scraped_channels self
     /\ scraped_dates self' = scraped_dates self
     /\ (self' = self
         <-> is_Some (downloaded_images_count self !! config_channel))
     /\ (downloaded_images_count self !! config_channel = None ->
         downloaded_images_count self' !! config_channel = Some 0))
  /\ (image_exists channel_name image_file w = false ->
      exists ret self' w',
        download_image DEFAULT_MAX_IMAGES telegram self w message channel_name
          message_id = (ret, self', w')
        /\ new_events w w' !! 0%nat = Some (DownloadMedia image_path)
        /\ image_exists channel_name image_file w' = file_written fetched
        /\ (fetched = mk_download (Ok ()) true ->
            ret = true
            /\ downloaded_count self' config_channel
               = downloaded_count self config_channel + 1
            /\ image_exists channel_name image_file w' = true
            /\ new_events w w' = [DownloadMedia image_path])
        /\ (forall e, returned fetched = Raise e ->
            ret = false
            /\ downloaded_count self' config_channel
               = downloaded_count self config_channel
            /\ new_events w w'
               = [DownloadMedia image_path;
                  Log (ErrorDownloadingImage message_id e)])).
Proof.
  intros config_channel max_images image_file image_path fetched Hphoto Hc.
  split.
  - intros Hex. exists (init_counter self config_channel).
    split; [apply download_image_present; assumption|].
    split; [intros k; apply init_counter_count|].
    destruct (init_counter_fields self config_channel)
      as (H1 & H2 & H3 & H4 & H5).
    repeat (split; [assumption|]).
    split; [apply init_counter_same|apply init_counter_fresh].
  - intros Hex.
    pose proof (download_image_absent DEFAULT_MAX_IMAGES telegram self w
                  message channel_name message_id Hphoto Hc Hex) as Hrun.
    fold config_channel image_file image_path in Hrun. fold fetched in Hrun.
    assert (Hmk : trace (mkdir_image_dir channel_name w) = trace w).
    { unfold mkdir_image_dir. destruct (images w !! channel_name); reflexivity. }
    set (w2 := emit (DownloadMedia image_path)
                 (mkdir_image_dir channel_name w)) in *.
    destruct (after_fetch_frame fetched channel_name image_file w2)
      as (_ & _ & Htr).
    assert (Htr2 : trace (after_fetch fetched channel_name image_file w2)
                   = trace w ++ [DownloadMedia image_path]).
    { rewrite Htr. unfold w2. cbn [emit trace]. rewrite Hmk. reflexivity. }
    assert (Hfile : image_exists channel_name image_file
                      (after_fetch fetched channel_name image_file w2)
                    = file_written fetched).
    { rewrite after_fetch_image_exists. unfold w2.
      rewrite image_exists_emit, image_exists_mkdir, Hex.
      apply orb_false_r. }
    destruct (returned fetched) as [[]|e0] eqn:Hdl;
      eexists _, _, _; (split; [exact Hrun|]).
    + assert (Hnew : new_events w
                       (after_fetch fetched channel_name image_file w2)
                     = [DownloadMedia image_path])
        by (unfold new_events; rewrite Htr2; apply drop_app_length).
      split; [rewrite Hnew; reflexivity|].
      split; [exact Hfile|]. split.
      * intros Hf. split; [reflexivity|]. split; [|split; [|exact Hnew]].
        -- unfold downloaded_count at 1.
           cbn [set_downloaded_images_count downloaded_images_count].
           rewrite lookup_insert_eq. reflexivity.
        -- rewrite Hfile, Hf. reflexivity.
      * intros e [=].
    + assert (Hnew : new_events w
                       (emit (Log (ErrorDownloadingImage message_id e0))
                          (after_fetch fetched channel_name image_file w2))
                     = [DownloadMedia image_path;
                        Log (ErrorDownloadingImage message_id e0)]).
      { unfold new_events. cbn [emit trace].
        rewrite Htr2, <- app_assoc, drop_app_length. reflexivity. }
      split; [rewrite Hnew; reflexivity|].
      split; [rewrite image_exists_emit; exact Hfile|].
      split; [intros Hf; rewrite Hf in Hdl; discriminate|].
      intros e [= <-]. split; [reflexivity|].
      split; [apply init_counter_count|exact Hnew].
Qed.

Lemma download_image_existing_file_is_noop_witness :
  exists self',
    download_image 1500 (Sample.telegram []) Sample.scraper0
      Sample.world_images (Sample.photo 2 Sample.day0) "TestChan" 2
    = (true, self', Sample.world_images)
    /\ forall k, downloaded_count self' k = downloaded_count Sample.scraper0 k.
Proof.
  destruct (download_image_existing_file_is_noop 1500 (Sample.telegram [])
              Sample.scraper0 Sample.world_images (Sample.photo 2 Sample.day0)
              "TestChan" 2) as [Hpresent _].
  - reflexivity.
  - vm_compute. reflexivity.
  - destruct Hpresent as (self' & Hrun & Hcount & _).
    + vm_compute. reflexivity.
    + exists self'. split; [exact Hrun|exact Hcount].
Defined.

(** C8 (as stated) fails.  With the images [1.jpg] and [2.jpg] on disk, a
    quota of two and no counter yet, a call for the message whose file is
    there returns true and fetches nothing, but the scraper is not left as
    it was: it now holds the counter 0.  The difference shows in the next
    scrape of the channel, which no longer seeds the counter from the two
    files on disk: it fetches two more images and ends with four files,
    where the scraper left alone fetches none.  And a fetch for a file that
    is not there need not write it: when the provider returns without
    writing, the counter goes up all the same. *)
Lemma download_image_creates_counter_counterexample :
  let call :=
    download_image 1500 (Sample.telegram []) Sample.scraper_q2
      Sample.world_images (Sample.photo 2 Sample.day0) "TestChan" 2 in
  let history :=
    [Yield (Sample.photo 3 Sample.day0); Yield (Sample.photo 4 Sample.day0)] in
  let scrape_after (self : scraper) :=
    scrape_channel 1500 Sample.clock0 (Sample.telegram history) self
      Sample.world_images "testchan" None None in
  let fetch :=
    download_image 1500 Fixture.telegram_nothing Sample.scraper0
      Sample.world_images (Sample.photo 3 Sample.day0) "TestChan" 3 in
  image_exists "TestChan" "2.jpg" Sample.world_images = true
  /\ downloaded_count Sample.scraper_q2 "TestChan"
     < RegistrySpec.resolve_quota 1500 (channel_max_images Sample.scraper_q2)
         "TestChan"
  /\ call.1.1 = true
  /\ call.2 = Sample.world_images
  /\ downloaded_images_count Sample.scraper_q2 !! "TestChan"%string = None
  /\ downloaded_images_count call.1.2 !! "TestChan"%string = Some 0
  /\ call.1.2 <> Sample.scraper_q2
  /\ count_jpg "TestChan" (scrape_after Sample.scraper_q2).2 = 2
  /\ count_jpg "TestChan" (scrape_after call.1.2).2 = 4
  /\ image_exists "TestChan" "3.jpg" Sample.world_images = false
  /\ fetch.1.1 = true
  /\ downloaded_images_count fetch.1.2 !! "TestChan"%string = Some 1
  /\ image_exists "TestChan" "3.jpg" fetch.2 = false.
Proof.
  split_and!; try (vm_compute; reflexivity).
  intros E. apply (f_equal (fun s => downloaded_images_count s
                                      !! "TestChan"%string)) in E.
  vm_compute in E. discriminate.
Qed.

(** ** Lemmas on the steps of the channel loop *)

Lemma count_set_eq (self self0 : scraper) (k : string) (c : Z) :
  downloaded_count
    (set_downloaded_images_count
       (<[k := c]> (downloaded_images_count self0)) self) k = c.
Proof.
  unfold downloaded_count. cbn [set_downloaded_images_count
                                  downloaded_images_count].
  rewrite lookup_insert_eq. reflexivity.
Qed.

Lemma count_set_ne (self self0 : scraper) (k k' : string) (c : Z) :
  k' <> k ->
  downloaded_count
    (set_downloaded_images_count
       (<[k := c]> (downloaded_images_count self0)) self) k'
  = downloaded_count self0 k'.
Proof.
  intros Hne. unfold downloaded_count.
  cbn [set_downloaded_images_count downloaded_images_count].
  rewrite lookup_insert_ne by congruence. reflexivity.
Qed.

Lemma count_add_limit (self : scraper) (k k' : string) :
  downloaded_count (add_channel_limit_reached k self) k'
  = downloaded_count self k'.
Proof. reflexivity. Qed.

Ltac count_simpl :=
  rewrite ?count_add_limit;
  rewrite ?count_set_eq;
  rewrite ?count_set_ne by congruence;
  rewrite ?init_counter_count.

Section LoopFacts.

Variable DEFAULT_MAX_IMAGES : Z.
Variable clock : nat -> datetime.
Variable telegram : provider.

(** Whatever the message, a [download_image] call keeps the registry,
    moves only the counter of the canonical key, never lowers it and never
    takes it past the quota, and leaves the partition files and the clock
    alone. *)
Lemma download_image_step (self : scraper) (w : world)
    (message : Message.t) (channel_name : string) (message_id : Z) :
  let config_channel :=
    get_config_channel_name (channel_max_images self) channel_name in
  let max_images :=
    RegistrySpec.resolve_quota DEFAULT_MAX_IMAGES (channel_max_images self)
      channel_name in
  exists ret self' w',
    download_image DEFAULT_MAX_IMAGES telegram self w message channel_name
      message_id = (ret, self', w')
    /\ channel_max_images self' = channel_max_images self
    /\ client self' = client self
    /\ (forall k, k <> config_channel ->
          downloaded_count self' k = downloaded_count self k)
    /\ downloaded_count self config_channel
       <= downloaded_count self' config_channel
       <= Z.max (downloaded_count self config_channel) max_images
    /\ partitions w' = partitions w /\ ticks w' = ticks w.
Proof.
  intros config_channel max_images.
  destruct (init_counter_fields self config_channel)
    as (F1 & F2 & F3 & F4 & F5).
  assert (Hmk : partitions (mkdir_image_dir channel_name w) = partitions w
                /\ ticks (mkdir_image_dir channel_name w) = ticks w).
  { unfold mkdir_image_dir. destruct (images w !! channel_name); auto. }
  destruct Hmk as [Hmk1 Hmk2].
  destruct (Message.media message) as [[|]|] eqn:Hmedia.
  - destruct (Z_lt_le_dec (downloaded_count self config_channel) max_images)
      as [Hlt|Hle].
    + destruct (image_exists channel_name (pretty message_id +:+ ".jpg") w)
        eqn:Hex.
      * eexists _, _, _. split;
          [apply download_image_present; assumption|].
        split_and!; try assumption; try (intros k Hk); count_simpl;
          try reflexivity; lia.
      * rewrite (download_image_absent DEFAULT_MAX_IMAGES telegram self w
                   message channel_name message_id Hmedia Hlt Hex).
        fold config_channel.
        destruct (download_media telegram message _) as [[u|e] [|]];
          cbn [returned file_written after_fetch];
          eexists _, _, _; (split; [reflexivity|]);
          cbn [set_downloaded_images_count channel_max_images client
                 write_image set_images emit partitions ticks];
          split_and!; try assumption; try (intros k Hk); count_simpl;
          try reflexivity; lia.
    + rewrite (download_image_exhausted DEFAULT_MAX_IMAGES telegram self w
                 message channel_name message_id Hmedia Hle).
      fold config_channel.
      destruct (bool_decide _); eexists _, _, _; (split; [reflexivity|]);
        cbn [add_channel_limit_reached channel_max_images client emit
               partitions ticks];
        split_and!; try assumption; try (intros k Hk); count_simpl;
        try reflexivity; lia.
  - unfold download_image. rewrite Hmedia. eexists _, _, _.
    split; [reflexivity|]. split_and!; auto; lia.
  - unfold download_image. rewrite Hmedia. eexists _, _, _.
    split; [reflexivity|]. split_and!; auto; lia.
Qed.

End LoopFacts.

Section ExtractFacts.

Variable clock : nat -> datetime.

Lemma extract_message_data_some (w : world) (message : Message.t)
    (channel_name : string) (i : Z) :
  Message.id message = Some i ->
  exists r,
    extract_message_data clock w message channel_name
    = (Some r, mk_world (images w) (partitions w) (S (ticks w)) (trace w))
    /\ Scraped.message_id r = i
    /\ Scraped.scraped_at r = clock (ticks w)
    /\ is_record_of channel_name message r.
Proof.
  intros Hid. unfold extract_message_data. rewrite Hid. cbn [now].
  eexists. split; [reflexivity|]. unfold is_record_of. cbn.
  rewrite Hid. repeat split.
Qed.

Lemma extract_message_data_none (w : world) (message : Message.t)
    (channel_name : string) :
  Message.id message = None ->
  extract_message_data clock w message channel_name = (None, w).
Proof. intros Hid. unfold extract_message_data. rewrite Hid. reflexivity. Qed.

(** Extraction reads the clock and touches nothing else. *)
Lemma extract_message_data_world (w : world) (message : Message.t)
    (channel_name : string) :
  let w' := (extract_message_data clock w message channel_name).2 in
  images w' = images w /\ partitions w' = partitions w
  /\ trace w' = trace w.
Proof.
  unfold extract_message_data.
  destruct (Message.id message); cbn; auto.
Qed.


End ExtractFacts.

Section MessageFacts.

Variable DEFAULT_MAX_IMAGES : Z.
Variable clock : nat -> datetime.
Variable telegram : provider.

(** The body of the inner [try] never raises: both handlers of the loop
    are out of reach of anything the body does. *)
Lemma message_body_never_raises (self : scraper) (w : world)
    (messages : list Scraped.t) (message : Message.t)
    (channel_name : string) :
  (message_body DEFAULT_MAX_IMAGES clock telegram self w messages message
     channel_name).1 = Ok ().
Proof.
  unfold message_body.
  destruct (extract_message_data clock w message channel_name) as [[r|] w1];
    [|reflexivity].
  destruct (_ && _); [|reflexivity].
  destruct (download_image _ _ _ _ _ _ _) as [[? ?] ?]. reflexivity.
Qed.

Lemma process_message_body (self : scraper) (w : world)
    (messages : list Scraped.t) (message : Message.t)
    (channel_name : string) :
  process_message DEFAULT_MAX_IMAGES clock telegram self w messages message
    channel_name
  = (message_body DEFAULT_MAX_IMAGES clock telegram self w messages message
       channel_name).2.
Proof.
  unfold process_message.
  pose proof (message_body_never_raises self w messages message
                channel_name) as Hok.
  destruct (message_body _ _ _ _ _ _ _ _) as [res s]. cbn in Hok.
  subst res. reflexivity.
Qed.

(** One turn of the loop keeps what was scraped so far, adds the record
    of the message when it has one, keeps the registry, moves only the
    counter of the canonical key, within the quota, and leaves the
    partition files alone. *)
Lemma process_message_step (self : scraper) (w : world)
    (messages : list Scraped.t) (message : Message.t)
    (channel_name : string) :
  let config_channel :=
    get_config_channel_name (channel_max_images self) channel_name in
  let max_images :=
    RegistrySpec.resolve_quota DEFAULT_MAX_IMAGES (channel_max_images self)
      channel_name in
  exists self' w',
    process_message DEFAULT_MAX_IMAGES clock telegram self w messages
      message channel_name
    = (messages
         ++ option_list
              (extract_message_data clock w message channel_name).1,
       self', w')
    /\ channel_max_images self' = channel_max_images self
    /\ client self' = client self
    /\ (forall k, k <> config_channel ->
          downloaded_count self' k = downloaded_count self k)
    /\ downloaded_count self config_channel
       <= downloaded_count self' config_channel
       <= Z.max (downloaded_count self config_channel) max_images
    /\ partitions w' = partitions w.
Proof.
  intros config_channel max_images.
  rewrite process_message_body. unfold message_body.
  pose proof (extract_message_data_world clock w message channel_name)
    as (_ & Hp & _).
  destruct (extract_message_data clock w message channel_name)
    as [[r|] w1]; cbn [fst snd option_list] in *.
  - destruct (_ && _).
    + destruct (download_image_step DEFAULT_MAX_IMAGES telegram self w1
                  message channel_name (Scraped.message_id r))
        as (ret & self' & w' & -> & H1 & H2 & H3 & H4 & H5 & _).
      exists self', (emit (Sleep 500) w'). cbn [snd emit partitions].
      subst config_channel max_images.
      split_and!; try assumption; try reflexivity; try lia; congruence.
    + exists self, (emit (Sleep 500) w1). cbn [snd emit partitions].
      split_and!; try assumption; try reflexivity; lia.
  - exists self, (emit (Sleep 500) w1). cbn [snd emit partitions].
    rewrite app_nil_r.
    split_and!; try assumption; try reflexivity; lia.
Qed.

End MessageFacts.

Section IterateFacts.

Variable DEFAULT_MAX_IMAGES : Z.
Variable clock : nat -> datetime.
Variable telegram : provider.

(** The loop only ever appends to what was scraped, keeps the registry,
    moves only the counter of the canonical key, never lowers it and never
    takes it past the quota. *)
Lemma iterate_step (steps : list iter_step) (self : scraper) (w : world)
    (messages : list Scraped.t) (channel_name : string) :
  exists res messages' self' w',
    iterate DEFAULT_MAX_IMAGES clock telegram steps self w messages
      channel_name = (res, (messages', self', w'))
    /\ messages `prefix_of` messages'
    /\ channel_max_images self' = channel_max_images self
    /\ client self' = client self
    /\ (forall k,
          k <> get_config_channel_name (channel_max_images self)
                 channel_name ->
          downloaded_count self' k = downloaded_count self k)
    /\ downloaded_count self
         (get_config_channel_name (channel_max_images self) channel_name)
       <= downloaded_count self'
            (get_config_channel_name (channel_max_images self) channel_name)
       <= Z.max
            (downloaded_count self
               (get_config_channel_name (channel_max_images self)
                  channel_name))
            (RegistrySpec.resolve_quota DEFAULT_MAX_IMAGES
               (channel_max_images self) channel_name)
    /\ partitions w' = partitions w.
Proof.
  revert self w messages.
  induction steps as [|[message|e] rest IH]; intros self w messages.
  - exists (Ok ()), messages, self, w. split; [reflexivity|].
    split_and!; try reflexivity; lia.
  - cbn [iterate].
    destruct (process_message_step DEFAULT_MAX_IMAGES clock telegram self w
                messages message channel_name)
      as (self1 & w1 & -> & H1 & H2 & H3 & H4 & H5).
    destruct (IH self1 w1
                (messages
                   ++ option_list
                        (extract_message_data clock w message
                           channel_name).1))
      as (res & messages' & self' & w' & -> & I0 & I1 & I2 & I3 & I4 & I5).
    rewrite H1 in I3, I4.
    exists res, messages', self', w'. split; [reflexivity|].
    split_and!; try congruence; try lia.
    + etrans; [apply prefix_app_r; reflexivity|exact I0].
    + intros k Hk. rewrite I3, H3 by exact Hk. reflexivity.
  - exists (Raise e), messages, self, w. split; [reflexivity|].
    split_and!; try reflexivity; lia.
Qed.




End IterateFacts.

(** ** Lemmas on [scrape_channel] *)

Section ScrapeFacts.

Variable DEFAULT_MAX_IMAGES : Z.
Variable clock : nat -> datetime.
Variable telegram : provider.

(** The seeding block sets the counter of the canonical key to its entry
    value and touches no other counter, no file and no image. *)
Lemma seed_image_counter_spec (self : scraper) (w : world)
    (channel_name config_channel : string) (max_images : Z) :
  exists self1 w1 evs,
    seed_image_counter self w channel_name config_channel max_images
    = (self1, w1)
    /\ channel_max_images self1 = channel_max_images self
    /\ client self1 = client self
    /\ downloaded_count self1 config_channel
       = entry_count self w channel_name config_channel
    /\ (forall k, k <> config_channel ->
          downloaded_count self1 k = downloaded_count self k)
    /\ images w1 = images w
    /\ partitions w1 = partitions w
    /\ trace w1 = trace w ++ evs
    /\ Forall (fun e => is_download e = false) evs.
Proof.
  unfold seed_image_counter, entry_count.
  assert (Hn : (if image_dir_exists channel_name w
                then count_jpg channel_name w else 0)
               = count_jpg channel_name w).
  { unfold image_dir_exists, count_jpg.
    destruct (images w !! channel_name); reflexivity. }
  destruct (downloaded_images_count self !! config_channel) as [c|] eqn:E.
  - destruct (_ && _).
    + eexists _, _, [_]. split; [reflexivity|].
      cbn [add_channel_limit_reached channel_max_images client emit images
             partitions trace].
      split_and!; try reflexivity.
      * rewrite count_add_limit. unfold downloaded_count. rewrite E.
        reflexivity.
      * repeat constructor.
    + exists self, w, []. rewrite app_nil_r.
      split_and!; try reflexivity.
      * unfold downloaded_count. rewrite E. reflexivity.
      * constructor.
  - rewrite Hn. destruct (_ >=? _).
    + eexists _, _, [_]. split; [reflexivity|].
      cbn [add_channel_limit_reached set_downloaded_images_count
             channel_max_images client emit images partitions trace].
      split_and!; try reflexivity.
      * rewrite count_add_limit. apply count_set_eq.
      * intros k Hk. rewrite count_add_limit. apply count_set_ne. exact Hk.
      * repeat constructor.
    + eexists _, w, []. split; [reflexivity|]. rewrite app_nil_r.
      cbn [set_downloaded_images_count channel_max_images client].
      split_and!; try reflexivity.
      * apply count_set_eq.
      * intros k Hk. apply count_set_ne. exact Hk.
      * constructor.
Qed.

(** [scrape_channel] on a connected scraper and a channel that resolves:
    the counter is seeded, then the history is iterated. *)
Lemma scrape_channel_found (self : scraper) (w : world)
    (channel_username : string) (limit : option nat)
    (offset_date : option datetime) (e : entity) :
  client self = true ->
  get_entity telegram channel_username = Ok e ->
  scrape_channel DEFAULT_MAX_IMAGES clock telegram self w channel_username
    limit offset_date
  = let channel_name := display_name e channel_username in
    let seeded :=
      seed_image_counter self w channel_name
        (get_config_channel_name (channel_max_images self) channel_name)
        (RegistrySpec.resolve_quota DEFAULT_MAX_IMAGES
           (channel_max_images self) channel_name) in
    match iterate DEFAULT_MAX_IMAGES clock telegram
            (iter_messages telegram e limit offset_date)
            seeded.1 seeded.2 [] channel_name with
    | (Ok _, (messages, self2, w2)) =>
        (messages, add_scraped_channel channel_name self2, w2)
    | (Raise ex, (messages, self2, w2)) =>
        (messages, self2,
         emit (Log (ErrorScrapingChannel channel_username ex)) w2)
    end.
Proof.
  intros Hc He. unfold scrape_channel. rewrite Hc, He. cbn [negb].
  fold (display_name e channel_username).
  rewrite get_max_images_for_channel_resolve.
  destruct (seed_image_counter _ _ _ _ _) as [self1 w1]. reflexivity.
Qed.

End ScrapeFacts.

(** C2 (as amended).  The counter of a channel is seeded by
    [scrape_channel], not by [download_image]: for a channel met for the
    first time, with N [.jpg] files in its image directory and quota M, the
    seeding block that precedes the iteration sets the counter to N, and the
    counter the scrape ends with lies between N and max(N, M).  From any
    state with the same registry, a [download_image] call for a photo
    returns false, writes nothing and leaves the counter alone once the
    counter has reached M; below M, for a file not yet on disk whose fetch
    succeeds, it returns true, writes the file and raises the counter by
    one. *)
Theorem quota_seeded_by_scrape_channel (DEFAULT_MAX_IMAGES : Z)
    (clock : nat -> datetime) (telegram : provider) (self : scraper)
    (w : world) (channel_username : string) (limit : option nat)
    (offset_date : option datetime) (e : entity) :
  let channel_name := display_name e channel_username in
  let config_channel :=
    get_config_channel_name (channel_max_images self) channel_name in
  let M :=
    RegistrySpec.resolve_quota DEFAULT_MAX_IMAGES (channel_max_images self)
      channel_name in
  let N := count_jpg channel_name w in
  client self = true ->
  get_entity telegram channel_username = Ok e ->
  downloaded_images_count self !! config_channel = None ->
  downloaded_count
    (seed_image_counter self w channel_name config_channel M).1 config_channel
  = N
  /\ N <= downloaded_count
            (scrape_channel DEFAULT_MAX_IMAGES clock telegram self w
               channel_username limit offset_date).1.2 config_channel
       <= Z.max N M
  /\ (forall (self0 : scraper) (w0 : world) (message : Message.t)
             (message_id : Z),
        channel_max_images self0 = channel_max_images self ->
        Message.media message = Some Message.MessageMediaPhoto ->
        let image_file := pretty message_id +:+ ".jpg" in
        (M <= downloaded_count self0 config_channel ->
         exists self1 w1,
           download_image DEFAULT_MAX_IMAGES telegram self0 w0 message
             channel_name message_id = (false, self1, w1)
           /\ images w1 = images w0
           /\ downloaded_count self1 config_channel
              = downloaded_count self0 config_channel)
        /\ (downloaded_count self0 config_channel < M ->
            image_exists channel_name image_file w0 = false ->
            download_media telegram message
              ("data/raw/images/" +:+ channel_name +:+ "/" +:+ image_file)
            = mk_download (Ok ()) true ->
            exists self1 w1,
              download_image DEFAULT_MAX_IMAGES telegram self0 w0 message
                channel_name message_id = (true, self1, w1)
              /\ image_exists channel_name image_file w1 = true
              /\ downloaded_count self1 config_channel
                 = downloaded_count self0 config_channel + 1)).
Proof.
  intros channel_name config_channel M N Hclient Hentity Hnone.
  destruct (seed_image_counter_spec self w channel_name config_channel M)
    as (self1 & w1 & evs & Hseed & S1 & S2 & S3 & S4 & _).
  assert (Hentry : entry_count self w channel_name config_channel = N).
  { unfold entry_count. rewrite Hnone. reflexivity. }
  split; [rewrite Hseed; cbn [fst]; rewrite S3; exact Hentry|]. split.
  - rewrite (scrape_channel_found DEFAULT_MAX_IMAGES clock telegram self w
               channel_username limit offset_date e Hclient Hentity).
    cbv zeta. fold channel_name config_channel M. rewrite Hseed.
    cbn [fst snd].
    destruct (iterate_step DEFAULT_MAX_IMAGES clock telegram
                (iter_messages telegram e limit offset_date) self1 w1 []
                channel_name)
      as (res & messages' & self' & w' & -> & _ & _ & _ & _ & Hb & _).
    rewrite S1 in Hb. fold config_channel M in Hb. rewrite S3, Hentry in Hb.
    destruct res; cbn [fst snd]; rewrite ?count_add_limit; exact Hb.
  - intros self0 w0 message message_id Hreg Hphoto image_file. split.
    + intros Hc.
      pose proof (download_image_exhausted DEFAULT_MAX_IMAGES telegram self0
                    w0 message channel_name message_id Hphoto) as Hrun.
      rewrite Hreg in Hrun. specialize (Hrun Hc). rewrite Hrun.
      fold config_channel M.
      destruct (bool_decide _); eexists _, _; (split; [reflexivity|]);
        (split; [reflexivity|]); rewrite ?count_add_limit;
        apply init_counter_count.
    + intros Hc Hex Hdl. subst image_file.
      pose proof (download_image_absent DEFAULT_MAX_IMAGES telegram self0
                    w0 message channel_name message_id Hphoto) as Hrun.
      rewrite Hreg in Hrun. specialize (Hrun Hc Hex).
      rewrite Hdl in Hrun. cbn [returned] in Hrun. rewrite Hrun.
      fold config_channel.
      eexists _, _. split; [reflexivity|].
      split; [|apply count_set_eq].
      rewrite after_fetch_image_exists. reflexivity.
Qed.

Lemma quota_seeded_by_scrape_channel_witness :
  downloaded_count
    (seed_image_counter Sample.scraper_q2 Sample.world_images "TestChan"
       "TestChan" 2).1 "TestChan" = 2
  /\ 2 <= downloaded_count
            (scrape_channel 1500 Sample.clock0
               (Sample.telegram [Yield (Sample.photo 3 Sample.day0)])
               Sample.scraper_q2 Sample.world_images "testchan" None None).1.2
            "TestChan" <= 2.
Proof.
  destruct (quota_seeded_by_scrape_channel 1500 Sample.clock0
              (Sample.telegram [Yield (Sample.photo 3 Sample.day0)])
              Sample.scraper_q2 Sample.world_images "testchan" None None
              (mk_entity (Some "TestChan"%string)))
    as (Hseed & Hbound & _).
  - reflexivity.
  - reflexivity.
  - reflexivity.
  - split; [exact Hseed|exact Hbound].
Defined.

(** C2 (as stated) fails.  With two images on disk and a quota of two, a
    first [download_image] call for the channel does not seed the counter
    with the two files: it starts from 0, fetches a third image and leaves
    the counter at 1. *)
Lemma download_image_seeds_zero_counterexample :
  let run :=
    download_image 1500 (Sample.telegram []) Sample.scraper_q2
      Sample.world_images (Sample.photo 3 Sample.day0) "TestChan" 3 in
  downloaded_images_count Sample.scraper_q2 !! "TestChan"%string = None
  /\ count_jpg "TestChan" Sample.world_images = 2
  /\ RegistrySpec.resolve_quota 1500 (channel_max_images Sample.scraper_q2)
       "TestChan" = 2
  /\ run.1.1 = true
  /\ downloaded_images_count run.1.2 !! "TestChan"%string = Some 1
  /\ count_jpg "TestChan" run.2 = 3.
Proof. vm_compute. repeat split. Qed.

(** ** What [scrape_channel] returns *)

Lemma with_id_cons_some (m : Message.t) (l : list Message.t) (i : Z) :
  Message.id m = Some i -> with_id (m :: l) = m :: with_id l.
Proof.
  intros Hid. unfold with_id. apply filter_cons_True. rewrite Hid. eauto.
Qed.

Lemma with_id_cons_none (m : Message.t) (l : list Message.t) :
  Message.id m = None -> with_id (m :: l) = with_id l.
Proof.
  intros Hid. unfold with_id. apply filter_cons_False. rewrite Hid.
  intros [x Hx]. discriminate.
Qed.

Lemma records_ids (channel_name : string) (l : list Message.t)
    (rs : list Scraped.t) :
  Forall2 (is_record_of channel_name) (with_id l) rs ->
  ids rs = omap Message.id l
  /\ Forall (fun r => Scraped.channel_name r = channel_name) rs.
Proof.
  revert rs. induction l as [|m l IH]; intros rs Hrs.
  - unfold with_id in Hrs. cbn in Hrs. apply Forall2_nil_inv_l in Hrs.
    subst rs. split; [reflexivity|constructor].
  - destruct (Message.id m) as [i|] eqn:Hid.
    + rewrite (with_id_cons_some m l i Hid) in Hrs.
      apply Forall2_cons_inv_l in Hrs.
      destruct Hrs as (r & rs' & Hr & Hrs' & ->).
      destruct (IH rs' Hrs') as [Hids Hch]. split.
      * cbn. rewrite Hid. cbn. unfold ids in Hids. rewrite Hids.
        destruct Hr as (Hri & _). rewrite Hid in Hri.
        injection Hri as ->. reflexivity.
      * constructor; [apply Hr|exact Hch].
    + rewrite (with_id_cons_none m l Hid) in Hrs.
      destruct (IH rs Hrs) as [Hids Hch]. split; [|exact Hch].
      cbn. rewrite Hid. exact Hids.
Qed.

Section ScrapeResult.

Variable DEFAULT_MAX_IMAGES : Z.
Variable clock : nat -> datetime.
Variable telegram : provider.

(** The loop adds to what was scraped one record per yielded message that
    has an id, in iteration order. *)
Lemma iterate_records (steps : list iter_step) (self : scraper) (w : world)
    (messages : list Scraped.t) (channel_name : string) :
  exists recs,
    (iterate DEFAULT_MAX_IMAGES clock telegram steps self w messages
       channel_name).2.1.1 = messages ++ recs
    /\ Forall2 (is_record_of channel_name) (with_id (yielded steps)) recs.
Proof.
  revert self w messages.
  induction steps as [|[m|e] rest IH]; intros self w messages.
  - exists []. rewrite app_nil_r. split; [reflexivity|constructor].
  - cbn [iterate yielded].
    destruct (process_message_step DEFAULT_MAX_IMAGES clock telegram self w
                messages m channel_name) as (self1 & w1 & -> & _).
    destruct (IH self1 w1
                (messages
                   ++ option_list
                        (extract_message_data clock w m channel_name).1))
      as (recs & Hrun & Hrecs).
    rewrite Hrun.
    destruct (Message.id m) as [i|] eqn:Hid.
    + destruct (extract_message_data_some clock w m channel_name i Hid)
        as (r & -> & _ & _ & Hrec).
      cbn [fst option_list option_rect]. exists (r :: recs).
      rewrite <- app_assoc. split; [reflexivity|].
      rewrite (with_id_cons_some m _ i Hid). constructor; assumption.
    + rewrite (extract_message_data_none clock w m channel_name Hid).
      cbn [fst option_list option_rect]. rewrite app_nil_r.
      exists recs. split; [reflexivity|].
      rewrite (with_id_cons_none m _ Hid). exact Hrecs.
  - exists []. rewrite app_nil_r. split; [reflexivity|constructor].
Qed.

End ScrapeResult.

(** ** From the scrape to the partition files *)

Section PersistFacts.

Variable clock : nat -> datetime.






End PersistFacts.




(** ** The rate-limit handler is out of reach *)

Section FloodFacts.

Variable DEFAULT_MAX_IMAGES : Z.
Variable clock : nat -> datetime.
Variable telegram : provider.

Lemma mkdir_image_dir_trace (dir : string) (w : world) :
  trace (mkdir_image_dir dir w) = trace w.
Proof.
  unfold mkdir_image_dir. destruct (images w !! dir); reflexivity.
Qed.

Lemma init_counter_scraped_channels (self : scraper) (k : string) :
  scraped_channels (init_counter self k) = scraped_channels self.
Proof. apply init_counter_fields. Qed.

(** A [download_image] call never sleeps and never marks a channel as
    scraped, whatever the provider answers. *)
Lemma download_image_quiet (self : scraper) (w : world)
    (message : Message.t) (channel_name : string) (message_id : Z) :
  exists ret self' w' evs,
    download_image DEFAULT_MAX_IMAGES telegram self w message channel_name
      message_id = (ret, self', w')
    /\ scraped_channels self' = scraped_channels self
    /\ trace w' = trace w ++ evs
    /\ Forall (fun ev => pacing_only ev = true) evs.
Proof.
  destruct (Message.media message) as [[|]|] eqn:Hmedia.
  - destruct (Z_lt_le_dec
                (downloaded_count self
                   (get_config_channel_name (channel_max_images self)
                      channel_name))
                (RegistrySpec.resolve_quota DEFAULT_MAX_IMAGES
                   (channel_max_images self) channel_name)) as [Hlt|Hle].
    + destruct (image_exists channel_name (pretty message_id +:+ ".jpg") w)
        eqn:Hex.
      * rewrite (download_image_present DEFAULT_MAX_IMAGES telegram self w
                   message channel_name message_id Hmedia Hlt Hex).
        eexists _, _, _, []. split; [reflexivity|].
        rewrite app_nil_r, init_counter_scraped_channels.
        split_and!; try reflexivity. constructor.
      * rewrite (download_image_absent DEFAULT_MAX_IMAGES telegram self w
                   message channel_name message_id Hmedia Hlt Hex).
        match goal with
        | |- context [after_fetch ?f ?d ?n ?w0] =>
            destruct (after_fetch_frame f d n w0) as (_ & _ & Htr)
        end.
        destruct (returned (download_media telegram message _)) as [u|e].
        -- eexists _, _, _, [_]. split; [reflexivity|].
           cbn [set_downloaded_images_count scraped_channels].
           rewrite Htr. cbn [emit trace].
           rewrite mkdir_image_dir_trace, init_counter_scraped_channels.
           split_and!; try reflexivity. repeat constructor.
        -- eexists _, _, _, [_; _]. split; [reflexivity|].
           cbn [emit trace]. rewrite Htr. cbn [emit trace].
           rewrite mkdir_image_dir_trace, init_counter_scraped_channels,
             <- app_assoc.
           split_and!; try reflexivity. repeat constructor.
    + rewrite (download_image_exhausted DEFAULT_MAX_IMAGES telegram self w
                 message channel_name message_id Hmedia Hle).
      destruct (bool_decide _).
      * eexists _, _, _, []. split; [reflexivity|].
        rewrite app_nil_r, init_counter_scraped_channels.
        split_and!; try reflexivity. constructor.
      * eexists _, _, _, [_]. split; [reflexivity|].
        cbn [add_channel_limit_reached scraped_channels emit trace].
        rewrite init_counter_scraped_channels.
        split_and!; try reflexivity. repeat constructor.
  - unfold download_image. rewrite Hmedia. eexists _, _, _, [].
    split; [reflexivity|]. rewrite app_nil_r.
    split_and!; try reflexivity. constructor.
  - unfold download_image. rewrite Hmedia. eexists _, _, _, [].
    split; [reflexivity|]. rewrite app_nil_r.
    split_and!; try reflexivity. constructor.
Qed.

(** One turn of the loop sleeps for the pacing delay only. *)
Lemma process_message_quiet (self : scraper) (w : world)
    (messages : list Scraped.t) (message : Message.t)
    (channel_name : string) :
  exists messages' self' w' evs,
    process_message DEFAULT_MAX_IMAGES clock telegram self w messages
      message channel_name = (messages', self', w')
    /\ scraped_channels self' = scraped_channels self
    /\ trace w' = trace w ++ evs
    /\ Forall (fun ev => pacing_only ev = true) evs.
Proof.
  rewrite process_message_body. unfold message_body.
  pose proof (extract_message_data_world clock w message channel_name)
    as (_ & _ & Ht).
  destruct (extract_message_data clock w message channel_name)
    as [[r|] w1]; cbn [fst snd] in *.
  - destruct (_ && _).
    + destruct (download_image_quiet self w1 message channel_name
                  (Scraped.message_id r))
        as (ret & self' & w' & evs & -> & H1 & H2 & H3).
      eexists _, _, _, (evs ++ [Sleep 500]). split; [reflexivity|].
      cbn [emit trace]. rewrite H2, Ht, <- app_assoc.
      split_and!; try assumption; try reflexivity.
      apply Forall_app. split; [assumption|]. repeat constructor.
    + eexists _, _, _, [Sleep 500]. split; [reflexivity|].
      cbn [emit trace]. rewrite Ht.
      split_and!; try reflexivity. repeat constructor.
  - eexists _, _, _, [Sleep 500]. split; [reflexivity|].
    cbn [emit trace]. rewrite Ht.
    split_and!; try reflexivity. repeat constructor.
Qed.

Lemma iterate_quiet (steps : list iter_step) (self : scraper) (w : world)
    (messages : list Scraped.t) (channel_name : string) :
  exists res messages' self' w' evs,
    iterate DEFAULT_MAX_IMAGES clock telegram steps self w messages
      channel_name = (res, (messages', self', w'))
    /\ scraped_channels self' = scraped_channels self
    /\ trace w' = trace w ++ evs
    /\ Forall (fun ev => pacing_only ev = true) evs.
Proof.
  revert self w messages.
  induction steps as [|[message|e] rest IH]; intros self w messages.
  - eexists _, _, _, _, []. split; [reflexivity|]. rewrite app_nil_r.
    split_and!; try reflexivity. constructor.
  - cbn [iterate].
    destruct (process_message_quiet self w messages message channel_name)
      as (messages1 & self1 & w1 & evs1 & -> & H1 & H2 & H3).
    destruct (IH self1 w1 messages1)
      as (res & messages' & self' & w' & evs & -> & I1 & I2 & I3).
    eexists _, _, _, _, (evs1 ++ evs). split; [reflexivity|].
    rewrite I1, I2, H1, H2, app_assoc.
    split_and!; try reflexivity. apply Forall_app. split; assumption.
  - eexists _, _, _, _, []. split; [reflexivity|]. rewrite app_nil_r.
    split_and!; try reflexivity. constructor.
Qed.

(** Once the iterator raises, the loop is over: what it would have
    yielded afterwards plays no part. *)
Lemma iterate_throw (pre post : list iter_step) (e : exn) (self : scraper)
    (w : world) (messages : list Scraped.t) (channel_name : string) :
  (forall ex, Throw ex ∉ pre) ->
  iterate DEFAULT_MAX_IMAGES clock telegram (pre ++ Throw e :: post) self w
    messages channel_name
  = (Raise e,
     (iterate DEFAULT_MAX_IMAGES clock telegram pre self w messages
        channel_name).2).
Proof.
  intros Hpre. revert self w messages.
  induction pre as [|[m|ex] pre IH]; intros self w messages.
  - reflexivity.
  - cbn [app iterate].
    destruct (process_message _ _ _ _ _ _ _ _) as [[messages1 self1] w1].
    apply IH. intros ex Hex. apply (Hpre ex). right. exact Hex.
  - exfalso. apply (Hpre ex). left.
Qed.

End FloodFacts.

Lemma seed_image_counter_quiet (self : scraper) (w : world)
    (channel_name config_channel : string) (max_images : Z) :
  exists self1 w1 evs,
    seed_image_counter self w channel_name config_channel max_images
    = (self1, w1)
    /\ scraped_channels self1 = scraped_channels self
    /\ trace w1 = trace w ++ evs
    /\ Forall (fun ev => pacing_only ev = true) evs.
Proof.
  unfold seed_image_counter.
  destruct (downloaded_images_count self !! config_channel) as [c|].
  - destruct (_ && _).
    + eexists _, _, [_]. split; [reflexivity|].
      split_and!; try reflexivity. repeat constructor.
    + eexists _, _, []. split; [reflexivity|]. rewrite app_nil_r.
      split_and!; try reflexivity. constructor.
  - destruct (_ >=? _).
    + eexists _, _, [_]. split; [reflexivity|].
      split_and!; try reflexivity. repeat constructor.
    + eexists _, _, []. split; [reflexivity|]. rewrite app_nil_r.
      split_and!; try reflexivity. constructor.
Qed.

(** C7 (what the code does instead).  When the iterator raises the
    provider's rate-limit signal, [scrape_channel] does not wait and does not
    resume: the signal leaves the loop through the outer handler.  The
    result holds the messages yielded before the signal and none of those
    that would have followed; no sleep of the signalled duration is made;
    the last log line is the channel's error; and the channel is not marked
    as scraped.  Nor does a turn of the loop ever sleep for that duration:
    whatever the provider raises inside a turn is caught before the loop's
    own handler can see it. *)
Theorem flood_wait_aborts_scrape (DEFAULT_MAX_IMAGES : Z)
    (clock : nat -> datetime) (telegram : provider) (self : scraper)
    (w : world) (channel_username : string) (limit : option nat)
    (offset_date : option datetime) (e : entity)
    (pre post : list iter_step) (seconds : Z) :
  let channel_name := display_name e channel_username in
  let seeded :=
    seed_image_counter self w channel_name
      (get_config_channel_name (channel_max_images self) channel_name)
      (RegistrySpec.resolve_quota DEFAULT_MAX_IMAGES
         (channel_max_images self) channel_name) in
  client self = true ->
  get_entity telegram channel_username = Ok e ->
  iter_messages telegram e limit offset_date
  = pre ++ Throw (FloodWaitError seconds) :: post ->
  (forall ex, Throw ex ∉ pre) ->
  exists messages self' w',
    scrape_channel DEFAULT_MAX_IMAGES clock telegram self w channel_username
      limit offset_date = (messages, self', w')
    /\ (iterate DEFAULT_MAX_IMAGES clock telegram pre seeded.1 seeded.2 []
          channel_name).2.1.1 = messages
    /\ (Sleep (1000 * seconds) ∉ new_events w w')
    /\ last (trace w')
       = Some (Log (ErrorScrapingChannel channel_username
                      (FloodWaitError seconds)))
    /\ scraped_channels self' = scraped_channels self
    /\ (forall self0 w0 messages0 message0,
          Sleep (1000 * seconds)
          ∉ new_events w0
              (process_message DEFAULT_MAX_IMAGES clock telegram self0 w0
                 messages0 message0 channel_name).2).
Proof.
  intros channel_name seeded Hclient Hentity Hsteps Hpre.
  rewrite (scrape_channel_found DEFAULT_MAX_IMAGES clock telegram self w
             channel_username limit offset_date e Hclient Hentity).
  cbv zeta. fold channel_name. fold seeded. rewrite Hsteps.
  rewrite (iterate_throw DEFAULT_MAX_IMAGES clock telegram pre post
             (FloodWaitError seconds) seeded.1 seeded.2 [] channel_name Hpre).
  destruct (seed_image_counter_quiet self w channel_name
              (get_config_channel_name (channel_max_images self) channel_name)
              (RegistrySpec.resolve_quota DEFAULT_MAX_IMAGES
                 (channel_max_images self) channel_name))
    as (self1 & w1 & evs0 & Hseed & S1 & S2 & S3).
  fold seeded in Hseed. rewrite Hseed. cbn [fst snd].
  destruct (iterate_quiet DEFAULT_MAX_IMAGES clock telegram pre self1 w1 []
              channel_name)
    as (res & messages' & self' & w' & evs & -> & I1 & I2 & I3).
  cbn [fst snd].
  assert (Hno : forall l, Forall (fun ev => pacing_only ev = true) l ->
                          Sleep (1000 * seconds) ∉ l).
  { intros l Hl Hin'. rewrite Forall_forall in Hl.
    specialize (Hl _ Hin'). cbn in Hl. apply Z.eqb_eq in Hl. lia. }
  eexists _, _, _. split; [reflexivity|]. split; [reflexivity|].
  cbn [emit trace]. split_and!.
  - unfold new_events. cbn [emit trace].
    rewrite I2, S2, <- !app_assoc, drop_app_length.
    intros Hin. rewrite !elem_of_app in Hin.
    destruct Hin as [Hin|[Hin|Hin]].
    + exact (Hno _ S3 Hin).
    + exact (Hno _ I3 Hin).
    + apply list_elem_of_singleton in Hin. discriminate.
  - apply last_snoc.
  - congruence.
  - intros self0 w0 messages0 message0.
    destruct (process_message_quiet DEFAULT_MAX_IMAGES clock telegram self0
                w0 messages0 message0 channel_name)
      as (messages2 & self2 & w2 & evs2 & -> & _ & P2 & P3).
    cbn [snd]. unfold new_events. rewrite P2, drop_app_length.
    exact (Hno _ P3).
Qed.

Lemma flood_wait_aborts_scrape_witness :
  exists messages self' w',
    scrape_channel 1500 Sample.clock0
      (Sample.telegram [Yield (Sample.photo 3 Sample.day0);
                        Throw (FloodWaitError 120);
                        Yield (Sample.photo 4 Sample.day0)])
      Sample.scraper0 Sample.world0 "testchan" None None
    = (messages, self', w')
    /\ ids messages = [3]
    /\ (Sleep 120000 ∉ new_events Sample.world0 w')
    /\ last (trace w')
       = Some (Log (ErrorScrapingChannel "testchan" (FloodWaitError 120)))
    /\ scraped_channels self' = ∅.
Proof.
  destruct (flood_wait_aborts_scrape 1500 Sample.clock0
              (Sample.telegram [Yield (Sample.photo 3 Sample.day0);
                                Throw (FloodWaitError 120);
                                Yield (Sample.photo 4 Sample.day0)])
              Sample.scraper0 Sample.world0 "testchan" None None
              (mk_entity (Some "TestChan"%string))
              [Yield (Sample.photo 3 Sample.day0)]
              [Yield (Sample.photo 4 Sample.day0)] 120)
    as (messages & self' & w' & Hrun & Hmsgs & Hsleep & Hlast & Hmark & _).
  - reflexivity.
  - reflexivity.
  - reflexivity.
  - intros ex Hex. apply elem_of_cons in Hex. destruct Hex as [Hex|Hex];
      [discriminate|]. apply elem_of_nil in Hex. contradiction.
  - exists messages, self', w'. split; [exact Hrun|].
    split; [rewrite <- Hmsgs; vm_compute; reflexivity|].
    split; [exact Hsleep|]. split; [exact Hlast|exact Hmark].
Defined.




(** * Further properties *)

(** ** The registry *)

(** X1. Whatever the environment holds, the loaded registry has exactly the
    three known channels, in the order of the source, and the limit of each
    is the integer of its own variable, or the default when the variable is
    unset, empty or not an integer. *)
Theorem load_channel_limits_total (default_quota : Z)
    (getenv : string -> option string) (py_int : string -> option Z) :
  dict_keys (_load_channel_limits default_quota getenv py_int)
  = known_channel_names
  /\ Forall
       (fun channel =>
          dict_get channel (_load_channel_limits default_quota getenv py_int)
          = Some (env_limit default_quota getenv py_int channel))
       known_channel_names.
Proof.
  unfold _load_channel_limits, known_channel_names, env_limit.
  cbn [load_limits_loop].
  split; [|repeat constructor];
    repeat match goal with
           | |- context [match getenv ?k with _ => _ end] =>
               destruct (getenv k) as [[|? ?]|]
           | |- context [match py_int ?s with _ => _ end] =>
               destruct (py_int s)
           end; reflexivity.
Qed.

Lemma config_name_ci_loop_first (mapping : pydict Z) (name key : string) :
  config_name_ci_loop (dict_keys mapping) name = Some key ->
  exists value,
    max_images_ci_loop mapping name = Some value
    /\ dict_get key mapping = Some value.
Proof.
  unfold dict_keys.
  induction mapping as [|[k0 v0] rest IH]; cbn; [discriminate|].
  destruct (String.eqb_spec (PyStr.lower k0) (PyStr.lower name)) as [E|E].
  - intros [= <-]. exists v0. rewrite String.eqb_refl. auto.
  - intros Hfind. destruct (IH Hfind) as (v & Hv & Hget).
    exists v. split; [exact Hv|].
    destruct (String.eqb_spec k0 key) as [->|_]; [|exact Hget].
    exfalso. apply E. clear -Hfind.
    induction rest as [|[k1 v1] rest IH]; cbn in Hfind; [discriminate|].
    destruct (String.eqb_spec (PyStr.lower k1) (PyStr.lower name)) as [E1|_];
      [injection Hfind as <-; exact E1|auto].
Qed.

Lemma config_name_ci_loop_none (mapping : pydict Z) (name : string) :
  config_name_ci_loop (dict_keys mapping) name = None ->
  max_images_ci_loop mapping name = None.
Proof.
  unfold dict_keys.
  induction mapping as [|[k0 v0] rest IH]; cbn; [reflexivity|].
  destruct (String.eqb (PyStr.lower k0) (PyStr.lower name));
    [discriminate|exact IH].
Qed.

Lemma max_images_pattern_loop_covered (mapping : pydict Z)
    (table : list (string * string)) (n : string) :
  Forall (fun entry => dict_mem (snd entry) mapping = true) table ->
  max_images_pattern_loop mapping table n
  = (fun c => dict_index c mapping) <$> config_name_pattern_loop table n.
Proof.
  induction 1 as [|[p c] rest Hc _ IH]; cbn; [reflexivity|].
  cbn in Hc. rewrite Hc, andb_true_r.
  destruct (PyStr.contains p n); [reflexivity|exact IH].
Qed.

Lemma config_name_pattern_loop_covered (mapping : pydict Z)
    (table : list (string * string)) (n c : string) :
  Forall (fun entry => dict_mem (snd entry) mapping = true) table ->
  config_name_pattern_loop table n = Some c -> dict_mem c mapping = true.
Proof.
  induction 1 as [|[p c0] rest Hc _ IH]; cbn; [discriminate|].
  destruct (PyStr.contains p n); [intros [= <-]; exact Hc|exact IH].
Qed.

Lemma get_max_images_for_channel_key (default_quota : Z)
    (mapping : pydict Z) (key : string) (value : Z) :
  dict_get key mapping = Some value ->
  get_max_images_for_channel default_quota mapping key = Ok value.
Proof.
  intros Hget. unfold get_max_images_for_channel, dict_mem, dict_index.
  rewrite Hget. reflexivity.
Qed.

Lemma get_max_images_for_channel_canonical (default_quota : Z)
    (mapping : pydict Z) (name : string) :
  covers_mappings mapping ->
  get_max_images_for_channel default_quota mapping
    (get_config_channel_name mapping name)
  = get_max_images_for_channel default_quota mapping name.
Proof.
  intros Hcov. unfold get_config_channel_name.
  destruct (dict_mem name mapping) eqn:Hmem; [reflexivity|].
  destruct (config_name_ci_loop (dict_keys mapping) name) as [key|] eqn:Hci.
  - destruct (config_name_ci_loop_first mapping name key Hci)
      as (value & Hv & Hget).
    rewrite (get_max_images_for_channel_key _ _ _ _ Hget).
    unfold get_max_images_for_channel. rewrite Hmem, Hv. reflexivity.
  - apply config_name_ci_loop_none in Hci.
    destruct (config_name_pattern_loop channel_mappings (normalized name))
      as [c|] eqn:Hpat; [|reflexivity].
    pose proof (config_name_pattern_loop_covered mapping _ _ _ Hcov Hpat)
      as Hc.
    apply dict_mem_get in Hc. destruct Hc as [value Hget].
    rewrite (get_max_images_for_channel_key _ _ _ _ Hget).
    unfold get_max_images_for_channel. rewrite Hmem, Hci.
    rewrite (max_images_pattern_loop_covered mapping _ _ Hcov), Hpat.
    cbn. symmetry. apply dict_index_get, Hget.
Qed.

Lemma resolve_quota_canonical (default_quota : Z) (mapping : pydict Z)
    (name : string) :
  covers_mappings mapping ->
  RegistrySpec.resolve_quota default_quota mapping
    (get_config_channel_name mapping name)
  = RegistrySpec.resolve_quota default_quota mapping name.
Proof.
  intros Hcov.
  pose proof (get_max_images_for_channel_canonical default_quota mapping name
                Hcov) as E.
  rewrite !get_max_images_for_channel_resolve in E. congruence.
Qed.

(** X2. When the registry holds every config name of the pattern table (as
    the loaded registry does), the quota resolved for a name is the quota
    resolved for its canonical key, so a counter is always judged against
    one quota, whichever of the channel's names is used. *)
Theorem quota_of_canonical_name (default_quota : Z) (mapping : pydict Z)
    (name : string) :
  covers_mappings mapping ->
  get_max_images_for_channel default_quota mapping
    (get_config_channel_name mapping name)
  = get_max_images_for_channel default_quota mapping name
  /\ exists quota,
       get_max_images_for_channel default_quota mapping name = Ok quota
       /\ get_max_images_for_channel default_quota mapping
            (get_config_channel_name mapping name) = Ok quota.
Proof.
  intros Hcov.
  split; [apply get_max_images_for_channel_canonical, Hcov|].
  exists (RegistrySpec.resolve_quota default_quota mapping name).
  rewrite get_max_images_for_channel_canonical by exact Hcov.
  split; apply get_max_images_for_channel_resolve.
Qed.

Lemma quota_of_canonical_name_witness :
  get_max_images_for_channel 1500 Sample.limits0
    (get_config_channel_name Sample.limits0 "Lobelia pharmacy")
  = get_max_images_for_channel 1500 Sample.limits0 "Lobelia pharmacy".
Proof.
  apply (quota_of_canonical_name 1500 Sample.limits0 "Lobelia pharmacy").
  repeat constructor.
Defined.

(** X3. Under the same condition the canonical key is a fixed point: resolving
    a resolved name gives it back, so a counter is never re-keyed. *)
Theorem canonical_name_idempotent (mapping : pydict Z) (name : string) :
  covers_mappings mapping ->
  get_config_channel_name mapping (get_config_channel_name mapping name)
  = get_config_channel_name mapping name.
Proof.
  intros Hcov.
  assert (Hkey : forall key, dict_mem key mapping = true ->
                   get_config_channel_name mapping key = key).
  { intros key Hk. unfold get_config_channel_name. rewrite Hk. reflexivity. }
  remember (get_config_channel_name mapping name) as k eqn:Hk.
  unfold get_config_channel_name in Hk.
  destruct (dict_mem name mapping) eqn:Hmem; [subst k; apply Hkey, Hmem|].
  destruct (config_name_ci_loop (dict_keys mapping) name) as [key|] eqn:Hci.
  - subst k. apply Hkey.
    destruct (config_name_ci_loop_first mapping name key Hci)
      as (value & _ & Hget).
    unfold dict_mem. rewrite Hget. reflexivity.
  - destruct (config_name_pattern_loop channel_mappings (normalized name))
      as [c|] eqn:Hpat; subst k.
    + apply Hkey. exact (config_name_pattern_loop_covered _ _ _ _ Hcov Hpat).
    + unfold get_config_channel_name. rewrite Hmem, Hci, Hpat. reflexivity.
Qed.

Lemma canonical_name_idempotent_witness :
  get_config_channel_name Sample.limits0
    (get_config_channel_name Sample.limits0 "Tikvah | Pharma")
  = get_config_channel_name Sample.limits0 "Tikvah | Pharma".
Proof.
  apply (canonical_name_idempotent Sample.limits0 "Tikvah | Pharma").
  repeat constructor.
Defined.

(** ** Sanitized channel names and partition paths *)

Lemma all_chars_impl (p q : ascii -> bool) (s : string) :
  (forall c, p c = true -> q c = true) ->
  all_chars p s = true -> all_chars q s = true.
Proof.
  intros Hpq. induction s as [|c s IH]; cbn; [reflexivity|].
  rewrite !andb_true_iff. intros [Hc Hs]. auto.
Qed.

Lemma all_chars_keep_chars (p : ascii -> bool) (s : string) :
  all_chars p (PyStr.keep_chars p s) = true.
Proof.
  induction s as [|c s IH]; cbn; [reflexivity|].
  destruct (p c) eqn:E; cbn; [rewrite E|]; exact IH.
Qed.

Lemma keep_chars_all (p : ascii -> bool) (s : string) :
  all_chars p s = true -> PyStr.keep_chars p s = s.
Proof.
  induction s as [|c s IH]; cbn; [reflexivity|].
  rewrite andb_true_iff. intros [-> Hs]. rewrite (IH Hs). reflexivity.
Qed.

Lemma all_chars_rev_onto (p : ascii -> bool) (s acc : string) :
  all_chars p (PyStr.rev_onto s acc) = all_chars p s && all_chars p acc.
Proof.
  revert acc. induction s as [|c s IH]; intros acc; cbn; [reflexivity|].
  rewrite IH. cbn. destruct (p c), (all_chars p s); reflexivity.
Qed.

Lemma all_chars_rev (p : ascii -> bool) (s : string) :
  all_chars p (PyStr.rev s) = all_chars p s.
Proof.
  unfold PyStr.rev. rewrite all_chars_rev_onto. cbn. apply andb_true_r.
Qed.

Lemma all_chars_lstrip_spaces (p : ascii -> bool) (s : string) :
  all_chars p s = true -> all_chars p (PyStr.lstrip_spaces s) = true.
Proof.
  induction s as [|c s IH]; [reflexivity|].
  intros Hs. pose proof Hs as Hs'. cbn in Hs'.
  apply andb_true_iff in Hs'. destruct Hs' as [_ Hrest].
  cbn [PyStr.lstrip_spaces].
  destruct c as [[] [] [] [] [] [] [] []]; auto.
Qed.

Lemma lstrip_spaces_no_space (s : string) :
  all_chars (fun c => negb (Ascii.eqb c " ")) s = true ->
  PyStr.lstrip_spaces s = s.
Proof.
  destruct s as [|c s]; [reflexivity|]. cbn.
  rewrite andb_true_iff. intros [Hc _].
  destruct c as [[] [] [] [] [] [] [] []]; try reflexivity; discriminate.
Qed.

Lemma string_append_nil_r (s : string) : s +:+ "" = s.
Proof.
  induction s as [|c s IH]; [reflexivity|].
  change (String c (s +:+ "") = String c s). rewrite IH. reflexivity.
Qed.

Lemma rev_onto_rev_onto (s a b : string) :
  PyStr.rev_onto (PyStr.rev_onto s a) b = PyStr.rev_onto a (s +:+ b).
Proof.
  revert a b. induction s as [|c s IH]; intros a b; [reflexivity|].
  cbn [PyStr.rev_onto]. rewrite IH. reflexivity.
Qed.

Lemma rev_involutive (s : string) : PyStr.rev (PyStr.rev s) = s.
Proof.
  unfold PyStr.rev. rewrite rev_onto_rev_onto. cbn.
  apply string_append_nil_r.
Qed.

Lemma replace_char_absent (a b : ascii) (s : string) :
  all_chars (fun c => negb (Ascii.eqb c a)) s = true ->
  PyStr.replace_char a b s = s.
Proof.
  induction s as [|c s IH]; cbn; [reflexivity|].
  rewrite andb_true_iff. intros [Hc Hs]. rewrite (IH Hs).
  destruct (Ascii.eqb c a); [discriminate|reflexivity].
Qed.

Lemma all_chars_replace_space (s : string) :
  all_chars (fun c => file_name_char c || Ascii.eqb c " ") s = true ->
  all_chars file_name_char (PyStr.replace_char " " "_" s) = true.
Proof.
  induction s as [|c s IH]; cbn; [reflexivity|].
  rewrite !andb_true_iff. intros [Hc Hs]. split; [|auto].
  destruct (Ascii.eqb c " "); [reflexivity|].
  rewrite orb_false_r in Hc. exact Hc.
Qed.

Lemma file_name_char_not_space (c : ascii) :
  file_name_char c = true -> negb (Ascii.eqb c " ") = true.
Proof.
  destruct (Ascii.eqb_spec c " ") as [->|_]; [discriminate|reflexivity].
Qed.

(** A string of file-name characters is its own sanitized form. *)
Lemma safe_channel_name_fixed (s : string) :
  all_chars file_name_char s = true -> safe_channel_name s = s.
Proof.
  intros Hs.
  assert (Hns : all_chars (fun c => negb (Ascii.eqb c " ")) s = true)
    by (eapply all_chars_impl; [apply file_name_char_not_space|exact Hs]).
  unfold safe_channel_name. rewrite keep_chars_all.
  - unfold PyStr.strip_spaces.
    rewrite (lstrip_spaces_no_space s Hns).
    rewrite lstrip_spaces_no_space by (rewrite all_chars_rev; exact Hns).
    rewrite rev_involutive. apply replace_char_absent, Hns.
  - eapply all_chars_impl; [|exact Hs]. unfold file_name_char.
    intros c. destruct (PyStr.isalnum c), (Ascii.eqb c " "),
      (Ascii.eqb c "-"), (Ascii.eqb c "_"); auto.
Qed.

Lemma safe_channel_name_all (s : string) :
  all_chars file_name_char (safe_channel_name s) = true.
Proof.
  unfold safe_channel_name. apply all_chars_replace_space.
  unfold PyStr.strip_spaces. rewrite all_chars_rev.
  apply all_chars_lstrip_spaces. rewrite all_chars_rev.
  apply all_chars_lstrip_spaces.
  eapply all_chars_impl; [|apply all_chars_keep_chars].
  unfold file_name_char. intros c.
  destruct (PyStr.isalnum c), (Ascii.eqb c " "), (Ascii.eqb c "-"),
    (Ascii.eqb c "_"); auto.
Qed.

Lemma contains_char_excluded (p : ascii -> bool) (c : ascii) (s : string) :
  p c = false -> all_chars p s = true ->
  PyStr.contains (String c EmptyString) s = false.
Proof.
  intros Hc. induction s as [|a s IH]; cbn; [reflexivity|].
  rewrite andb_true_iff. intros [Ha Hs]. rewrite (IH Hs).
  destruct (Ascii.eqb_spec c a) as [->|_]; [congruence|reflexivity].
Qed.

(** X4. The sanitized channel name is made of alphanumeric characters,
    hyphens and underscores only: it holds no space, no path separator and
    no dot, so the file it names stays in its date directory. *)
Theorem safe_channel_name_is_a_file_name (channel_name : string) :
  all_chars file_name_char (safe_channel_name channel_name) = true
  /\ PyStr.contains " " (safe_channel_name channel_name) = false
  /\ PyStr.contains "/" (safe_channel_name channel_name) = false
  /\ PyStr.contains "." (safe_channel_name channel_name) = false.
Proof.
  pose proof (safe_channel_name_all channel_name) as Hall.
  split; [exact Hall|].
  split_and!; apply (contains_char_excluded file_name_char);
    (reflexivity || exact Hall).
Qed.

(** X5. Sanitizing is idempotent: a sanitized name is left as it is. *)
Theorem safe_channel_name_idempotent (channel_name : string) :
  safe_channel_name (safe_channel_name channel_name)
  = safe_channel_name channel_name.
Proof. apply safe_channel_name_fixed, safe_channel_name_all. Qed.

(** X6. A channel username that [validate_channel_format] accepts has, once
    its leading [@]s are dropped, at least five characters, and it is its
    own sanitized file name. *)
Theorem validated_channel_is_its_file_name (channel : string) :
  validate_channel_format channel = true ->
  (5 <= String.length (lstrip_at channel))%nat
  /\ safe_channel_name (lstrip_at channel) = lstrip_at channel.
Proof.
  unfold validate_channel_format.
  destruct (_ || _) eqn:Hshort; [discriminate|].
  destruct (all_chars _ (lstrip_at channel)) eqn:Hall; [|discriminate].
  intros _. apply orb_false_iff in Hshort. destruct Hshort as [_ Hlen].
  apply Nat.ltb_ge in Hlen. split; [exact Hlen|].
  apply safe_channel_name_fixed.
  eapply all_chars_impl; [|exact Hall]. unfold file_name_char.
  intros c. destruct (PyStr.isalnum c), (Ascii.eqb c "-"), (Ascii.eqb c "_");
    auto.
Qed.

Lemma validated_channel_is_its_file_name_witness :
  (5 <= String.length (lstrip_at "@valid_channel"))%nat
  /\ safe_channel_name (lstrip_at "@valid_channel")
     = lstrip_at "@valid_channel".
Proof.
  apply (validated_channel_is_its_file_name "@valid_channel"). reflexivity.
Defined.

Lemma all_chars_append (p : ascii -> bool) (s t : string) :
  all_chars p (s +:+ t) = all_chars p s && all_chars p t.
Proof.
  induction s as [|c s IH]; [reflexivity|].
  change (all_chars p (String c (s +:+ t))
          = all_chars p (String c s) && all_chars p t).
  cbn [all_chars]. rewrite IH. apply andb_assoc.
Qed.

(** A path is cut at its last separator in one way only. *)
Lemma string_append_separator_inj (sep : ascii) (a c b d : string) :
  all_chars (fun x => negb (Ascii.eqb x sep)) b = true ->
  all_chars (fun x => negb (Ascii.eqb x sep)) d = true ->
  a +:+ String sep b = c +:+ String sep d -> a = c /\ b = d.
Proof.
  intros Hb Hd. revert c. induction a as [|x a IH]; intros [|y c] E.
  - injection E as <-. auto.
  - change (String sep b = String y (c +:+ String sep d)) in E.
    injection E as _ E. rewrite E, all_chars_append in Hb.
    cbn [all_chars] in Hb. rewrite Ascii.eqb_refl in Hb.
    cbn in Hb. rewrite andb_false_r in Hb. discriminate.
  - change (String x (a +:+ String sep b) = String sep d) in E.
    injection E as _ E. rewrite <- E, all_chars_append in Hd.
    cbn [all_chars] in Hd. rewrite Ascii.eqb_refl in Hd.
    cbn in Hd. rewrite andb_false_r in Hd. discriminate.
  - change (String x (a +:+ String sep b) = String y (c +:+ String sep d))
      in E.
    injection E as -> E. destruct (IH c E) as [-> ->]. auto.
Qed.

Lemma file_name_has_no_separator (channel_name : string) :
  all_chars (fun x => negb (Ascii.eqb x "/"))
    (safe_channel_name channel_name +:+ ".json") = true.
Proof.
  rewrite all_chars_append. apply andb_true_iff. split; [|reflexivity].
  eapply all_chars_impl; [|apply safe_channel_name_all].
  intros x Hx. destruct (Ascii.eqb_spec x "/") as [->|_];
    [discriminate|reflexivity].
Qed.

(** X7. Two (date, channel) pairs share a partition file exactly when their
    dates are written alike and their channel names sanitize alike. *)
Theorem partition_path_collision (d1 d2 : datetime) (c1 c2 : string) :
  partition_path d1 c1 = partition_path d2 c2
  <-> PyDate.strftime_ymd d1 = PyDate.strftime_ymd d2
      /\ safe_channel_name c1 = safe_channel_name c2.
Proof.
  unfold partition_path, output_file_path. split.
  - intros E. apply (inj (String.append _)) in E.
    apply (string_append_separator_inj "/") in E;
      try apply file_name_has_no_separator.
    destruct E as [Ed E]. split; [exact Ed|].
    apply string_append_inv_tail in E. exact E.
  - intros [-> ->]. reflexivity.
Qed.

(** ** More on [save_messages_to_json] *)

Section SaveMore.

Variable clock : nat -> datetime.

(** What a flush does to the world and the scraper, whatever it is given:
    it writes at most the one file of its date and channel, it never drops a
    stored record, and it touches neither the images nor the counters nor
    the registry. *)
Lemma save_messages_to_json_frame (self : scraper) (w : world)
    (messages : list Scraped.t) (channel_name : string)
    (date : option datetime) :
  exists res self' w',
    save_messages_to_json clock self w messages channel_name date
    = (res, self', w')
    /\ channel_max_images self' = channel_max_images self
    /\ client self' = client self
    /\ downloaded_images_count self' = downloaded_images_count self
    /\ channel_limit_reached self' = channel_limit_reached self
    /\ scraped_channels self' = scraped_channels self
    /\ scraped_dates self ⊆ scraped_dates self'
    /\ images w' = images w
    /\ (forall p, p <> partition_path (flush_date clock w date) channel_name ->
          partitions w' !! p = partitions w !! p)
    /\ (forall p ex, partitions w !! p = Some (Records ex) ->
          exists more, partitions w' !! p = Some (Records (ex ++ more))).
Proof.
  assert (Hsame : forall p ex, partitions w !! p = Some (Records ex) ->
            exists more, partitions w !! p = Some (Records (ex ++ more))).
  { intros p ex Hp. exists []. rewrite app_nil_r. exact Hp. }
  destruct messages as [|m l].
  - eexists _, _, _. split; [reflexivity|].
    cbn [emit images partitions]. split_and!; auto.
  - destruct (partitions w
                !! partition_path (flush_date clock w date) channel_name)
      as [[ex| | ]|] eqn:E.
    + eexists _, _, _. split.
      { apply (save_messages_to_json_stored clock self w (m :: l)
                 channel_name date ex); [discriminate|].
        unfold stored_records. rewrite E. reflexivity. }
      cbn [add_scraped_date set_partitions channel_max_images client
             downloaded_images_count channel_limit_reached scraped_channels
             scraped_dates images partitions].
      split_and!; try reflexivity.
      * apply union_subseteq_r.
      * destruct date; reflexivity.
      * intros p Hp. rewrite lookup_insert_ne by congruence.
        destruct date; reflexivity.
      * intros p ex' Hp.
        destruct (decide (p = partition_path (flush_date clock w date)
                                channel_name)) as [->|Hne].
        -- rewrite E in Hp. injection Hp as <-.
           rewrite lookup_insert_eq. unfold merge_messages. eauto.
        -- rewrite lookup_insert_ne by congruence.
           exists []. rewrite app_nil_r.
           destruct date; exact Hp.
    + eexists _, _, _. split.
      { apply (save_messages_to_json_not_json clock self w (m :: l)
                 channel_name date); [discriminate|exact E]. }
      cbn [add_scraped_date set_partitions channel_max_images client
             downloaded_images_count channel_limit_reached scraped_channels
             scraped_dates images partitions emit].
      split_and!; try reflexivity.
      * apply union_subseteq_r.
      * destruct date; reflexivity.
      * intros p Hp. rewrite lookup_insert_ne by congruence.
        destruct date; reflexivity.
      * intros p ex' Hp.
        destruct (decide (p = partition_path (flush_date clock w date)
                                channel_name)) as [->|Hne].
        -- rewrite E in Hp. discriminate.
        -- rewrite lookup_insert_ne by congruence.
           exists []. rewrite app_nil_r.
           destruct date; exact Hp.
    + unfold save_messages_to_json, partition_path in *.
      destruct date as [d|]; cbn [flush_date now partitions] in *;
        rewrite E; eexists _, _, _; (split; [reflexivity|]);
        cbn [images partitions]; split_and!; auto.
    + eexists _, _, _. split.
      { apply (save_messages_to_json_stored clock self w (m :: l)
                 channel_name date []); [discriminate|].
        unfold stored_records. rewrite E. reflexivity. }
      cbn [add_scraped_date set_partitions channel_max_images client
             downloaded_images_count channel_limit_reached scraped_channels
             scraped_dates images partitions].
      split_and!; try reflexivity.
      * apply union_subseteq_r.
      * destruct date; reflexivity.
      * intros p Hp. rewrite lookup_insert_ne by congruence.
        destruct date; reflexivity.
      * intros p ex' Hp.
        destruct (decide (p = partition_path (flush_date clock w date)
                                channel_name)) as [->|Hne].
        -- rewrite E in Hp. discriminate.
        -- rewrite lookup_insert_ne by congruence.
           exists []. rewrite app_nil_r.
           destruct date; exact Hp.
Qed.

End SaveMore.

(** X8. Flushing is idempotent.  Whenever a flush has returned normally, a
    second flush of the same batch under the same date that returns
    normally too has changed no partition file and added no date, whatever
    the batch holds (duplicates included) and whatever the file held before
    the first flush. *)
Theorem flush_twice_is_flush_once (clock : nat -> datetime)
    (self self1 self2 : scraper) (w w1 w2 : world)
    (messages : list Scraped.t) (channel_name : string) (d : datetime) :
  save_messages_to_json clock self w messages channel_name (Some d)
  = (Ok (), self1, w1) ->
  save_messages_to_json clock self1 w1 messages channel_name (Some d)
  = (Ok (), self2, w2) ->
  partitions w2 = partitions w1
  /\ scraped_dates self2 = scraped_dates self1
  /\ (messages <> [] ->
      exists file,
        partitions w1 !! partition_path d channel_name = Some (Records file)
        /\ forall r, r ∈ messages -> Scraped.message_id r ∈ ids file).
Proof.
  intros Hrun1 Hrun2. destruct messages as [|m l].
  - cbn in Hrun1, Hrun2. injection Hrun1 as <- <-. injection Hrun2 as <- <-.
    split_and!; [reflexivity|reflexivity|congruence].
  - assert (Hne : m :: l <> []) by discriminate.
    assert (Hnt : partitions w !! partition_path d channel_name
                  <> Some NotText).
    { intros Hbad.
      unfold save_messages_to_json, partition_path in Hrun1, Hbad.
      rewrite Hbad in Hrun1. discriminate. }
    destruct (save_messages_to_json_decodable clock self w (m :: l)
                channel_name d Hne Hnt) as (w1' & Hrun1' & Hp1 & _).
    rewrite Hrun1 in Hrun1'. injection Hrun1' as -> <-.
    assert (Hst1 : stored_records w1 (partition_path d channel_name)
                   = Some (merge_messages
                             (stored_or_empty w
                                (partition_path d channel_name)) (m :: l))).
    { unfold stored_records. rewrite Hp1, lookup_insert_eq. reflexivity. }
    rewrite (save_messages_to_json_stored clock _ w1 (m :: l) channel_name
               (Some d) _ Hne Hst1) in Hrun2.
    injection Hrun2 as <- <-.
    cbn [set_partitions partitions add_scraped_date scraped_dates
           flush_clock_read flush_date].
    split_and!.
    + rewrite merge_messages_idempotent, Hp1. apply insert_insert_eq.
    + apply set_eq. intros x. rewrite !elem_of_union. tauto.
    + intros _. eexists. split; [rewrite Hp1; apply lookup_insert_eq|].
      intros r Hr. apply merge_messages_ids. right. unfold ids.
      apply list_elem_of_fmap_2. exact Hr.
Qed.

Lemma flush_twice_is_flush_once_witness :
  let batch :=
    [Sample.record 7 Sample.day0; Sample.record 8 Sample.day0;
     Sample.record 8 Sample.day0] in
  let first :=
    save_messages_to_json Sample.clock0 Sample.scraper0 Sample.world1 batch
      "TestChan" (Some Sample.day0) in
  let second :=
    save_messages_to_json Sample.clock0 first.1.2 first.2 batch "TestChan"
      (Some Sample.day0) in
  first.1.1 = Ok () /\ second.1.1 = Ok ()
  /\ partitions second.2 = partitions first.2.
Proof.
  intros batch first second.
  split; [reflexivity|]. split; [reflexivity|].
  apply (flush_twice_is_flush_once Sample.clock0 Sample.scraper0 first.1.2
           second.1.2 Sample.world1 first.2 second.2 batch "TestChan"
           Sample.day0); reflexivity.
Defined.

(** X9. A flush is local, and append-only when it returns: whatever it is
    given and however it ends, every file but the one of the flush's date
    and channel is untouched, and neither the image store nor the counters
    nor the registry change; and when it returns normally, every partition
    file that held an array still holds it as a prefix of what it holds
    afterwards. *)
Theorem flush_is_append_only (clock : nat -> datetime) (self : scraper)
    (w : world) (messages : list Scraped.t) (channel_name : string)
    (date : option datetime) :
  exists res self' w',
    save_messages_to_json clock self w messages channel_name date
    = (res, self', w')
    /\ (forall p, p <> partition_path (flush_date clock w date) channel_name ->
          partitions w' !! p = partitions w !! p)
    /\ images w' = images w
    /\ downloaded_images_count self' = downloaded_images_count self
    /\ channel_max_images self' = channel_max_images self
    /\ (res = Ok () ->
        forall p ex, partitions w !! p = Some (Records ex) ->
          exists more, partitions w' !! p = Some (Records (ex ++ more))).
Proof.
  destruct (save_messages_to_json_frame clock self w messages channel_name
              date)
    as (res & self' & w' & Hrun & F1 & _ & F3 & _ & _ & _ & F7 & F8 & F9).
  exists res, self', w'. split_and!; try assumption. intros _. exact F9.
Qed.

(** X10. Only a JSON decoding error is tolerated when the existing file is
    read: a file that is not UTF-8 text makes the flush of a non-empty batch
    raise, and then nothing is written, nothing is logged and no date is
    recorded. *)
Theorem flush_raises_on_unreadable_text (clock : nat -> datetime)
    (self : scraper) (w : world) (messages : list Scraped.t)
    (channel_name : string) (date : option datetime) :
  messages <> [] ->
  partitions w !! partition_path (flush_date clock w date) channel_name
  = Some NotText ->
  exists w',
    save_messages_to_json clock self w messages channel_name date
    = (Raise UnicodeDecodeError, self, w')
    /\ partitions w' = partitions w
    /\ images w' = images w
    /\ trace w' = trace w.
Proof.
  intros Hne Hst. destruct messages as [|m l]; [congruence|].
  unfold save_messages_to_json, partition_path in *.
  destruct date as [d|]; cbn [flush_date now partitions] in *;
    rewrite Hst; eexists; split; reflexivity || auto.
Qed.

Lemma flush_raises_on_unreadable_text_witness :
  exists w',
    save_messages_to_json Sample.clock0 Sample.scraper0 Fixture.world_binary
      [Sample.record 8 Sample.day0] "TestChan" (Some Sample.day0)
    = (Raise UnicodeDecodeError, Sample.scraper0, w')
    /\ partitions w' = partitions Fixture.world_binary.
Proof.
  destruct (flush_raises_on_unreadable_text Sample.clock0 Sample.scraper0
              Fixture.world_binary [Sample.record 8 Sample.day0] "TestChan"
              (Some Sample.day0)) as (w' & Hrun & Hparts & _).
  - discriminate.
  - reflexivity.
  - exists w'. auto.
Defined.

(** X11. On a connected scraper and a channel that resolves,
    [scrape_channel] returns exactly one record per message that the
    iterator yielded before raising and that has an id, in iteration order,
    each built from its message and all carrying the channel's display name:
    nothing yielded is lost, duplicated or reordered. *)
Theorem scrape_channel_returns_the_yielded (DEFAULT_MAX_IMAGES : Z)
    (clock : nat -> datetime) (telegram : provider) (self : scraper)
    (w : world) (channel_username : string) (limit : option nat)
    (offset_date : option datetime) (e : entity) :
  let channel_name := display_name e channel_username in
  let history := yielded (iter_messages telegram e limit offset_date) in
  client self = true ->
  get_entity telegram channel_username = Ok e ->
  exists messages self' w',
    scrape_channel DEFAULT_MAX_IMAGES clock telegram self w channel_username
      limit offset_date = (messages, self', w')
    /\ Forall2 (is_record_of channel_name) (with_id history) messages
    /\ ids messages = omap Message.id history
    /\ Forall (fun r => Scraped.channel_name r = channel_name) messages.
Proof.
  intros channel_name history Hclient Hentity.
  rewrite (scrape_channel_found DEFAULT_MAX_IMAGES clock telegram self w
             channel_username limit offset_date e Hclient Hentity).
  cbv zeta. fold channel_name.
  destruct (seed_image_counter _ _ _ _ _) as [self1 w1]. cbn [fst snd].
  destruct (iterate_records DEFAULT_MAX_IMAGES clock telegram
              (iter_messages telegram e limit offset_date) self1 w1 []
              channel_name) as (recs & Hrun & Hrecs).
  destruct (iterate _ _ _ _ _ _ _ _) as [res [[messages' self'] w']].
  cbn [fst snd app] in Hrun. subst messages'.
  destruct (records_ids channel_name _ recs Hrecs) as [Hids Hch].
  destruct res; eexists _, _, _; (split; [reflexivity|]);
    split_and!; assumption.
Qed.

Lemma scrape_channel_returns_the_yielded_witness :
  exists messages self' w',
    scrape_channel 1500 Sample.clock0
      (Sample.telegram [Yield (Sample.photo 3 Sample.day0);
                        Yield (Sample.photo 4 Sample.day1);
                        Throw OtherError;
                        Yield (Sample.photo 5 Sample.day1)])
      Sample.scraper0 Sample.world0 "testchan" None None
    = (messages, self', w')
    /\ ids messages = [3; 4].
Proof.
  destruct (scrape_channel_returns_the_yielded 1500 Sample.clock0
              (Sample.telegram [Yield (Sample.photo 3 Sample.day0);
                                Yield (Sample.photo 4 Sample.day1);
                                Throw OtherError;
                                Yield (Sample.photo 5 Sample.day1)])
              Sample.scraper0 Sample.world0 "testchan" None None
              (mk_entity (Some "TestChan"%string)))
    as (messages & self' & w' & Hrun & _ & Hids & _).
  - reflexivity.
  - reflexivity.
  - exists messages, self', w'. split; [exact Hrun|exact Hids].
Defined.

(** ** The counter and the files on disk *)

Lemma rev_onto_append (a b acc : string) :
  PyStr.rev_onto (a +:+ b) acc = PyStr.rev_onto b (PyStr.rev_onto a acc).
Proof.
  revert acc. induction a as [|c a IH]; intros acc; [reflexivity|].
  change (PyStr.rev_onto (a +:+ b) (String c acc)
          = PyStr.rev_onto b (PyStr.rev_onto a (String c acc))).
  apply IH.
Qed.

Lemma string_append_assoc (a b c : string) :
  (a +:+ b) +:+ c = a +:+ (b +:+ c).
Proof.
  induction a as [|x a IH]; [reflexivity|].
  change (String x ((a +:+ b) +:+ c) = String x (a +:+ (b +:+ c))).
  rewrite IH. reflexivity.
Qed.

Lemma rev_onto_acc (s acc : string) :
  PyStr.rev_onto s acc = PyStr.rev s +:+ acc.
Proof.
  unfold PyStr.rev. revert acc.
  induction s as [|c s IH]; intros acc; [reflexivity|].
  cbn [PyStr.rev_onto]. rewrite IH, (IH (String c EmptyString)).
  rewrite string_append_assoc. reflexivity.
Qed.

Lemma starts_with_append (p s : string) : PyStr.starts_with p (p +:+ s) = true.
Proof.
  induction p as [|c p IH]; [reflexivity|].
  change (Ascii.eqb c c && PyStr.starts_with p (p +:+ s) = true).
  rewrite Ascii.eqb_refl. exact IH.
Qed.

Lemma ends_with_append (s suffix : string) :
  PyStr.ends_with suffix (s +:+ suffix) = true.
Proof.
  unfold PyStr.ends_with, PyStr.rev at 2.
  rewrite rev_onto_append, rev_onto_acc. apply starts_with_append.
Qed.

Section DiskFacts.

Implicit Types (w : world) (dir file : string).

Lemma count_jpg_files w dir :
  count_jpg dir w
  = Z.of_nat
      (size (filter (fun f => PyStr.ends_with ".jpg" f = true)
               (default (∅ : gset string) (images w !! dir)))).
Proof.
  unfold count_jpg. destruct (images w !! dir); [reflexivity|].
  cbn [default from_option].
  rewrite filter_empty_L by apply _. rewrite size_empty. reflexivity.
Qed.

Lemma count_jpg_nonneg w dir : 0 <= count_jpg dir w.
Proof. rewrite count_jpg_files. lia. Qed.

Lemma count_jpg_mkdir w dir dir' :
  count_jpg dir (mkdir_image_dir dir' w) = count_jpg dir w.
Proof.
  unfold mkdir_image_dir. destruct (images w !! dir') eqn:E; [reflexivity|].
  rewrite !count_jpg_files. cbn [set_images images].
  destruct (decide (dir' = dir)) as [->|Hne].
  - rewrite lookup_insert_eq, E. reflexivity.
  - rewrite lookup_insert_ne by exact Hne. reflexivity.
Qed.

Lemma image_exists_files w dir file :
  image_exists dir file w
  = bool_decide (file ∈ default (∅ : gset string) (images w !! dir)).
Proof.
  unfold image_exists. destruct (images w !! dir); [reflexivity|].
  symmetry. apply bool_decide_eq_false. apply not_elem_of_empty.
Qed.

(** Writing a new [.jpg] file adds one to the count of its directory. *)
Lemma count_jpg_write w dir file :
  image_exists dir file w = false ->
  PyStr.ends_with ".jpg" file = true ->
  count_jpg dir (write_image dir file w) = count_jpg dir w + 1.
Proof.
  intros Hex Hjpg. rewrite image_exists_files in Hex.
  apply bool_decide_eq_false in Hex.
  rewrite !count_jpg_files. unfold write_image. cbn [set_images images].
  rewrite lookup_insert_eq. cbn [default from_option id].
  set (S := default ∅ (images w !! dir)) in *.
  rewrite filter_union_L by apply _.
  rewrite filter_singleton_True_L by first [exact Hjpg|apply _].
  rewrite size_union.
  - rewrite size_singleton. lia.
  - apply disjoint_singleton_l. rewrite elem_of_filter. tauto.
Qed.

End DiskFacts.

Section BalanceFacts.

Variable DEFAULT_MAX_IMAGES : Z.
Variable clock : nat -> datetime.
Variable telegram : provider.

Hypothesis atomic : fetch_is_atomic telegram.

(** With fetches that write exactly when they return, a [download_image]
    call moves the counter of the canonical key and the number of [.jpg]
    files of the channel's directory together. *)
Lemma download_image_balance (self : scraper) (w : world)
    (message : Message.t) (channel_name : string) (message_id : Z) :
  exists ret self' w',
    download_image DEFAULT_MAX_IMAGES telegram self w message channel_name
      message_id = (ret, self', w')
    /\ downloaded_count self'
         (get_config_channel_name (channel_max_images self) channel_name)
       - count_jpg channel_name w'
       = downloaded_count self
           (get_config_channel_name (channel_max_images self) channel_name)
         - count_jpg channel_name w.
Proof.
  destruct (Message.media message) as [[|]|] eqn:Hmedia.
  - destruct (Z_lt_le_dec
                (downloaded_count self
                   (get_config_channel_name (channel_max_images self)
                      channel_name))
                (RegistrySpec.resolve_quota DEFAULT_MAX_IMAGES
                   (channel_max_images self) channel_name)) as [Hlt|Hle].
    + destruct (image_exists channel_name (pretty message_id +:+ ".jpg") w)
        eqn:Hex.
      * rewrite (download_image_present DEFAULT_MAX_IMAGES telegram self w
                   message channel_name message_id Hmedia Hlt Hex).
        eexists _, _, _. split; [reflexivity|]. count_simpl. reflexivity.
      * rewrite (download_image_absent DEFAULT_MAX_IMAGES telegram self w
                   message channel_name message_id Hmedia Hlt Hex).
        match goal with
        | |- context [after_fetch (download_media telegram message ?p)] =>
            pose proof (atomic message p) as Hat
        end.
        unfold after_fetch. rewrite Hat.
        destruct (returned (download_media telegram message _)) as [u|e];
          eexists _, _, _; (split; [reflexivity|]); count_simpl.
        -- rewrite count_jpg_write.
           ++ change (count_jpg channel_name (emit ?e ?w0))
                with (count_jpg channel_name w0).
              rewrite count_jpg_mkdir. lia.
           ++ rewrite image_exists_emit, image_exists_mkdir. exact Hex.
           ++ apply ends_with_append.
        -- change (count_jpg channel_name (emit ?e1 (emit ?e2 ?w0)))
             with (count_jpg channel_name w0).
           rewrite count_jpg_mkdir. reflexivity.
    + rewrite (download_image_exhausted DEFAULT_MAX_IMAGES telegram self w
                 message channel_name message_id Hmedia Hle).
      destruct (bool_decide _); eexists _, _, _; (split; [reflexivity|]);
        count_simpl; reflexivity.
  - unfold download_image. rewrite Hmedia. eexists _, _, _.
    split; reflexivity.
  - unfold download_image. rewrite Hmedia. eexists _, _, _.
    split; reflexivity.
Qed.

Lemma process_message_balance (self : scraper) (w : world)
    (messages : list Scraped.t) (message : Message.t)
    (channel_name : string) :
  exists messages' self' w',
    process_message DEFAULT_MAX_IMAGES clock telegram self w messages
      message channel_name = (messages', self', w')
    /\ downloaded_count self'
         (get_config_channel_name (channel_max_images self) channel_name)
       - count_jpg channel_name w'
       = downloaded_count self
           (get_config_channel_name (channel_max_images self) channel_name)
         - count_jpg channel_name w.
Proof.
  rewrite process_message_body. unfold message_body.
  pose proof (extract_message_data_world clock w message channel_name)
    as (Hi & _ & _).
  destruct (extract_message_data clock w message channel_name)
    as [[r|] w1]; cbn [fst snd] in *.
  - assert (Hc : count_jpg channel_name w1 = count_jpg channel_name w)
      by (unfold count_jpg; rewrite Hi; reflexivity).
    destruct (_ && _).
    + destruct (download_image_balance self w1 message channel_name
                  (Scraped.message_id r))
        as (ret & self' & w' & -> & Hb).
      eexists _, _, _. split; [reflexivity|].
      change (count_jpg channel_name (emit ?e ?w0))
        with (count_jpg channel_name w0).
      rewrite Hb, Hc. reflexivity.
    + eexists _, _, _. split; [reflexivity|].
      change (count_jpg channel_name (emit ?e ?w0))
        with (count_jpg channel_name w0).
      rewrite Hc. reflexivity.
  - eexists _, _, _. split; [reflexivity|].
    change (count_jpg channel_name (emit ?e ?w0))
      with (count_jpg channel_name w0).
    unfold count_jpg. rewrite Hi. reflexivity.
Qed.

Lemma iterate_balance (steps : list iter_step) (self : scraper) (w : world)
    (messages : list Scraped.t) (channel_name : string) :
  exists res messages' self' w',
    iterate DEFAULT_MAX_IMAGES clock telegram steps self w messages
      channel_name = (res, (messages', self', w'))
    /\ downloaded_count self'
         (get_config_channel_name (channel_max_images self) channel_name)
       - count_jpg channel_name w'
       = downloaded_count self
           (get_config_channel_name (channel_max_images self) channel_name)
         - count_jpg channel_name w.
Proof.
  revert self w messages.
  induction steps as [|[m|e] rest IH]; intros self w messages.
  - eexists _, _, _, _. split; reflexivity.
  - cbn [iterate].
    destruct (process_message_step DEFAULT_MAX_IMAGES clock telegram self w
                messages m channel_name)
      as (self1 & w1 & Hrun & Hreg & _).
    destruct (process_message_balance self w messages m channel_name)
      as (messages1 & self1' & w1' & Hrun' & Hb1).
    rewrite Hrun in Hrun'. injection Hrun' as <- <- <-. rewrite Hrun.
    destruct (IH self1 w1
                (messages
                   ++ option_list
                        (extract_message_data clock w m channel_name).1))
      as (res & messages' & self' & w' & -> & Hb).
    rewrite Hreg in Hb.
    eexists _, _, _, _. split; [reflexivity|]. lia.
  - eexists _, _, _, _. split; reflexivity.
Qed.

End BalanceFacts.

(** X12. With a provider whose fetches write the file exactly when they
    return, the counter of a channel's canonical key and the number of
    [.jpg] files in its image directory move together through a scrape:
    their difference at the end is the difference at the entry.  So for a
    channel met for the first time the counter ends equal to the number of
    [.jpg] files on disk, and that number never passes the larger of the
    quota and what was there before. *)
Theorem counter_tracks_the_disk (DEFAULT_MAX_IMAGES : Z)
    (clock : nat -> datetime) (telegram : provider) (self : scraper)
    (w : world) (channel_username : string) (limit : option nat)
    (offset_date : option datetime) (e : entity) :
  let channel_name := display_name e channel_username in
  let config_channel :=
    get_config_channel_name (channel_max_images self) channel_name in
  let M :=
    RegistrySpec.resolve_quota DEFAULT_MAX_IMAGES (channel_max_images self)
      channel_name in
  fetch_is_atomic telegram ->
  client self = true ->
  get_entity telegram channel_username = Ok e ->
  exists messages self' w',
    scrape_channel DEFAULT_MAX_IMAGES clock telegram self w channel_username
      limit offset_date = (messages, self', w')
    /\ downloaded_count self' config_channel - count_jpg channel_name w'
       = entry_count self w channel_name config_channel
         - count_jpg channel_name w
    /\ (downloaded_images_count self !! config_channel = None ->
        downloaded_count self' config_channel = count_jpg channel_name w'
        /\ count_jpg channel_name w <= count_jpg channel_name w'
           <= Z.max (count_jpg channel_name w) M).
Proof.
  intros channel_name config_channel M Hatomic Hclient Hentity.
  rewrite (scrape_channel_found DEFAULT_MAX_IMAGES clock telegram self w
             channel_username limit offset_date e Hclient Hentity).
  cbv zeta. fold channel_name config_channel M.
  destruct (seed_image_counter_spec self w channel_name config_channel M)
    as (self1 & w1 & evs & -> & S1 & _ & S3 & _ & S5 & _).
  cbn [fst snd].
  destruct (iterate_balance DEFAULT_MAX_IMAGES clock telegram Hatomic
              (iter_messages telegram e limit offset_date) self1 w1 []
              channel_name)
    as (res & messages' & self' & w' & Hrun & Hb).
  destruct (iterate_step DEFAULT_MAX_IMAGES clock telegram
              (iter_messages telegram e limit offset_date) self1 w1 []
              channel_name)
    as (res0 & messages0 & self0 & w0 & Hrun0 & _ & _ & _ & _ & Hbound & _).
  rewrite Hrun in Hrun0. injection Hrun0 as <- <- <- <-.
  rewrite S1 in Hb, Hbound. fold config_channel M in Hb, Hbound.
  rewrite S3 in Hb, Hbound.
  assert (Hjpg : count_jpg channel_name w1 = count_jpg channel_name w)
    by (unfold count_jpg; rewrite S5; reflexivity).
  rewrite Hjpg in Hb. rewrite Hrun.
  assert (Hfirst : downloaded_images_count self !! config_channel = None ->
            downloaded_count self' config_channel = count_jpg channel_name w'
            /\ count_jpg channel_name w <= count_jpg channel_name w'
               <= Z.max (count_jpg channel_name w) M).
  { intros Hnone. unfold entry_count in Hb, Hbound.
    rewrite Hnone in Hb, Hbound. lia. }
  destruct res; eexists _, _, _; (split; [reflexivity|]);
    rewrite ?count_add_limit;
    change (count_jpg channel_name (emit ?ev ?w2))
      with (count_jpg channel_name w2);
    (split; [exact Hb|exact Hfirst]).
Qed.

Lemma counter_tracks_the_disk_witness :
  exists messages self' w',
    scrape_channel 1500 Sample.clock0
      (Sample.telegram [Yield (Sample.photo 3 Sample.day0);
                        Yield (Sample.photo 4 Sample.day0)])
      Sample.scraper0 Sample.world_images "testchan" None None
    = (messages, self', w')
    /\ downloaded_count self' "TestChan" = count_jpg "TestChan" w'.
Proof.
  destruct (counter_tracks_the_disk 1500 Sample.clock0
              (Sample.telegram [Yield (Sample.photo 3 Sample.day0);
                                Yield (Sample.photo 4 Sample.day0)])
              Sample.scraper0 Sample.world_images "testchan" None None
              (mk_entity (Some "TestChan"%string)))
    as (messages & self' & w' & Hrun & _ & Hfirst).
  - intros message path. reflexivity.
  - reflexivity.
  - reflexivity.
  - exists messages, self', w'. split; [exact Hrun|].
    apply Hfirst. reflexivity.
Defined.

(** ** Messages that are not photos, and the default channels *)

(** X13. A message whose media is not a photo (a document, or none) is
    recorded, with [has_media] telling whether it had media and without an
    [image_path], and that is all: [download_image] is not called, so the
    scraper is unchanged, nothing is fetched or written, and the turn ends
    with the pacing sleep. *)
Theorem other_media_is_recorded_not_downloaded (DEFAULT_MAX_IMAGES : Z)
    (clock : nat -> datetime) (telegram : provider) (self : scraper)
    (w : world) (messages : list Scraped.t) (message : Message.t)
    (channel_name : string) (i : Z) :
  Message.id message = Some i ->
  Message.media message <> Some Message.MessageMediaPhoto ->
  exists r,
    process_message DEFAULT_MAX_IMAGES clock telegram self w messages message
      channel_name
    = (messages ++ [r], self,
       emit (Sleep 500)
         (mk_world (images w) (partitions w) (S (ticks w)) (trace w)))
    /\ Scraped.message_id r = i
    /\ Scraped.has_media r
       = match Message.media message with Some _ => true | None => false end
    /\ Scraped.image_path r = None.
Proof.
  intros Hid Hmedia. rewrite process_message_body. unfold message_body.
  destruct (extract_message_data_some clock w message channel_name i Hid)
    as (r & -> & Hri & _ & Hrec).
  destruct Hrec as (_ & _ & _ & _ & Hhas & Hpath).
  assert (Hnone : Scraped.image_path r = None).
  { rewrite Hpath. destruct (Message.media message) as [[|]|];
      [congruence|reflexivity|reflexivity]. }
  exists r. rewrite Hnone. cbn [truthy_str]. rewrite andb_false_r.
  cbn [snd]. auto.
Qed.

Lemma other_media_is_recorded_not_downloaded_witness :
  exists r,
    process_message 1500 Sample.clock0 (Sample.telegram []) Sample.scraper0
      Sample.world0 []
      (Message.mk (Some 9) None None (Some Message.MessageMediaDocument)
         None None false None) "TestChan"
    = ([] ++ [r], Sample.scraper0,
       emit (Sleep 500) (mk_world ∅ ∅ 1 []))
    /\ Scraped.has_media r = true
    /\ Scraped.image_path r = None.
Proof.
  destruct (other_media_is_recorded_not_downloaded 1500 Sample.clock0
              (Sample.telegram []) Sample.scraper0 Sample.world0 []
              (Message.mk (Some 9) None None
                 (Some Message.MessageMediaDocument) None None false None)
              "TestChan" 9) as (r & Hrun & _ & Hmedia & Hpath).
  - reflexivity.
  - discriminate.
  - exists r. split; [exact Hrun|]. split; [exact Hmedia|exact Hpath].
Defined.

(** X14. Every channel of the curated default list passes the format check
    and is a key of the loaded registry, whatever the environment: it is its
    own canonical name and its quota is the limit loaded for it. *)
Theorem default_channels_are_registered (DEFAULT_MAX_IMAGES : Z)
    (getenv : string -> option string) (py_int : string -> option Z) :
  Forall
    (fun channel =>
       validate_channel_format channel = true
       /\ get_config_channel_name
            (_load_channel_limits DEFAULT_MAX_IMAGES getenv py_int) channel
          = channel
       /\ get_max_images_for_channel DEFAULT_MAX_IMAGES
            (_load_channel_limits DEFAULT_MAX_IMAGES getenv py_int) channel
          = Ok (env_limit DEFAULT_MAX_IMAGES getenv py_int channel))
    get_medical_channels.
Proof.
  unfold get_medical_channels, _load_channel_limits, known_channel_names,
    env_limit.
  cbn [load_limits_loop].
  repeat constructor;
    repeat match goal with
           | |- context [match getenv ?k with _ => _ end] =>
               destruct (getenv k) as [[|? ?]|]
           | |- context [match py_int ?s with _ => _ end] =>
               destruct (py_int s)
           end; reflexivity.
Qed.

(** ** Nothing is ever lost *)

Lemma grows_refl (self : scraper) (w : world) : grows self w self w.
Proof.
  constructor; try reflexivity; try lia; auto.
  intros p ex Hp. exists []. rewrite app_nil_r. exact Hp.
Qed.

Lemma grows_trans (s1 s2 s3 : scraper) (w1 w2 w3 : world) :
  grows s1 w1 s2 w2 -> grows s2 w2 s3 w3 -> grows s1 w1 s3 w3.
Proof.
  intros [A1 A2 A3 A4 A5 A6 A7 A8] [B1 B2 B3 B4 B5 B6 B7 B8].
  constructor; try congruence; try (etrans; eassumption); auto.
  - intros k. specialize (A3 k). specialize (B3 k). lia.
  - intros p ex Hp. destruct (A8 p ex Hp) as [m1 H1].
    destruct (B8 p _ H1) as [m2 H2]. exists (m1 ++ m2).
    rewrite app_assoc. exact H2.
Qed.

(** A change of the world that keeps the images and the partition files. *)
Lemma grows_world (self : scraper) (w w' : world) :
  images w' = images w -> partitions w' = partitions w ->
  grows self w self w'.
Proof.
  intros Hi Hp. constructor; try reflexivity; try lia; auto.
  - intros dir file. unfold image_exists. rewrite Hi. auto.
  - intros p ex Hex. exists []. rewrite app_nil_r, Hp. exact Hex.
Qed.

(** A change of the scraper that keeps the registry and lowers nothing. *)
Lemma grows_scraper (self self' : scraper) (w : world) :
  channel_max_images self' = channel_max_images self ->
  client self' = client self ->
  (forall k, downloaded_count self k <= downloaded_count self' k) ->
  channel_limit_reached self ⊆ channel_limit_reached self' ->
  scraped_channels self ⊆ scraped_channels self' ->
  scraped_dates self ⊆ scraped_dates self' ->
  grows self w self' w.
Proof.
  intros. constructor; auto.
  intros p ex Hex. exists []. rewrite app_nil_r. exact Hex.
Qed.

Lemma grows_init_counter (self : scraper) (w : world) (k : string) :
  grows self w (init_counter self k) w.
Proof.
  destruct (init_counter_fields self k) as (F1 & F2 & F3 & F4 & F5).
  apply grows_scraper;
    [exact F2|exact F1|intros k'; rewrite init_counter_count; lia
    |rewrite F3; reflexivity|rewrite F4; reflexivity|rewrite F5; reflexivity].
Qed.

Lemma grows_add_limit (self : scraper) (w : world) (k : string) :
  grows self w (add_channel_limit_reached k self) w.
Proof.
  apply grows_scraper;
    [reflexivity|reflexivity|intros k'; rewrite count_add_limit; lia
    |apply union_subseteq_r|reflexivity|reflexivity].
Qed.

Lemma grows_add_channel (self : scraper) (w : world) (k : string) :
  grows self w (add_scraped_channel k self) w.
Proof.
  apply grows_scraper;
    [reflexivity|reflexivity|intros k'; unfold downloaded_count; cbn; lia
    |reflexivity|apply union_subseteq_r|reflexivity].
Qed.

Lemma grows_set_counter (self : scraper) (w : world) (k : string) (c : Z) :
  downloaded_count self k <= c ->
  grows self w
    (set_downloaded_images_count (<[k := c]> (downloaded_images_count self))
       self) w.
Proof.
  intros Hc.
  apply grows_scraper;
    [reflexivity|reflexivity| |reflexivity|reflexivity|reflexivity].
  intros k'. destruct (decide (k' = k)) as [->|Hne].
  - rewrite count_set_eq. exact Hc.
  - rewrite count_set_ne by exact Hne. lia.
Qed.

Lemma grows_mkdir (self : scraper) (w : world) (dir : string) :
  grows self w self (mkdir_image_dir dir w).
Proof.
  unfold mkdir_image_dir. destruct (images w !! dir) eqn:E;
    [apply grows_refl|].
  constructor; try reflexivity; try lia.
  - intros d f. unfold image_exists. cbn [set_images images].
    destruct (decide (dir = d)) as [<-|Hne].
    + rewrite E. discriminate.
    + rewrite lookup_insert_ne by exact Hne. auto.
  - intros p ex Hex. exists []. rewrite app_nil_r. exact Hex.
Qed.

Lemma grows_write_image (self : scraper) (w : world) (dir file : string) :
  grows self w self (write_image dir file w).
Proof.
  constructor; try reflexivity; try lia.
  - intros d f. unfold image_exists, write_image. cbn [set_images images].
    destruct (decide (dir = d)) as [<-|Hne].
    + rewrite lookup_insert_eq. destruct (images w !! dir); [|discriminate].
      cbn. rewrite !bool_decide_eq_true. apply elem_of_union_r.
    + rewrite lookup_insert_ne by exact Hne. auto.
  - intros p ex Hex. exists []. rewrite app_nil_r. exact Hex.
Qed.

Lemma grows_emit (self : scraper) (w : world) (e : event) :
  grows self w self (emit e w).
Proof. apply grows_world; reflexivity. Qed.

Lemma grows_after_fetch (self : scraper) (w : world) (fetched : download)
    (dir file : string) :
  grows self w self (after_fetch fetched dir file w).
Proof.
  unfold after_fetch. destruct (file_written fetched);
    [apply grows_write_image|apply grows_refl].
Qed.

Section GrowthFacts.

Variable DEFAULT_MAX_IMAGES : Z.
Variable clock : nat -> datetime.
Variable telegram : provider.

Lemma download_image_grows (self : scraper) (w : world)
    (message : Message.t) (channel_name : string) (message_id : Z) :
  let run :=
    download_image DEFAULT_MAX_IMAGES telegram self w message channel_name
      message_id in
  grows self w run.1.2 run.2.
Proof.
  cbv zeta.
  destruct (Message.media message) as [[|]|] eqn:Hmedia.
  - destruct (Z_lt_le_dec
                (downloaded_count self
                   (get_config_channel_name (channel_max_images self)
                      channel_name))
                (RegistrySpec.resolve_quota DEFAULT_MAX_IMAGES
                   (channel_max_images self) channel_name)) as [Hlt|Hle].
    + destruct (image_exists channel_name (pretty message_id +:+ ".jpg") w)
        eqn:Hex.
      * rewrite (download_image_present DEFAULT_MAX_IMAGES telegram self w
                   message channel_name message_id Hmedia Hlt Hex).
        apply grows_init_counter.
      * rewrite (download_image_absent DEFAULT_MAX_IMAGES telegram self w
                   message channel_name message_id Hmedia Hlt Hex).
        destruct (returned (download_media telegram message _)) as [u|e];
          cbn [fst snd].
        -- eapply grows_trans; [apply grows_init_counter|].
           eapply grows_trans; [apply grows_mkdir|].
           eapply grows_trans; [apply grows_emit|].
           eapply grows_trans; [apply grows_after_fetch|].
           apply grows_set_counter. rewrite init_counter_count. lia.
        -- eapply grows_trans; [apply grows_init_counter|].
           eapply grows_trans; [apply grows_mkdir|].
           eapply grows_trans; [apply grows_emit|].
           eapply grows_trans; [apply grows_after_fetch|]. apply grows_emit.
    + rewrite (download_image_exhausted DEFAULT_MAX_IMAGES telegram self w
                 message channel_name message_id Hmedia Hle).
      destruct (bool_decide _); cbn [fst snd].
      * apply grows_init_counter.
      * eapply grows_trans; [apply grows_init_counter|].
        eapply grows_trans; [apply grows_add_limit|]. apply grows_emit.
  - unfold download_image. rewrite Hmedia. apply grows_refl.
  - unfold download_image. rewrite Hmedia. apply grows_refl.
Qed.

Lemma process_message_grows (self : scraper) (w : world)
    (messages : list Scraped.t) (message : Message.t)
    (channel_name : string) :
  let run :=
    process_message DEFAULT_MAX_IMAGES clock telegram self w messages message
      channel_name in
  grows self w run.1.2 run.2.
Proof.
  cbv zeta. rewrite process_message_body. unfold message_body.
  pose proof (extract_message_data_world clock w message channel_name)
    as (Hi & Hp & _).
  destruct (extract_message_data clock w message channel_name)
    as [[r|] w1]; cbn [fst snd] in *.
  - destruct (_ && _).
    + pose proof (download_image_grows self w1 message channel_name
                    (Scraped.message_id r)) as Hg. cbv zeta in Hg.
      destruct (download_image _ _ _ _ _ _ _) as [[ret self'] w'].
      cbn [fst snd] in *.
      eapply grows_trans; [apply (grows_world self w w1 Hi Hp)|].
      eapply grows_trans; [exact Hg|]. apply grows_emit.
    + cbn [fst snd].
      eapply grows_trans; [apply (grows_world self w w1 Hi Hp)|].
      apply grows_emit.
  - cbn [fst snd].
    eapply grows_trans; [apply (grows_world self w w1 Hi Hp)|].
    apply grows_emit.
Qed.

Lemma iterate_grows (steps : list iter_step) (self : scraper) (w : world)
    (messages : list Scraped.t) (channel_name : string) :
  let run :=
    iterate DEFAULT_MAX_IMAGES clock telegram steps self w messages
      channel_name in
  grows self w run.2.1.2 run.2.2.
Proof.
  cbv zeta. revert self w messages.
  induction steps as [|[m|e] rest IH]; intros self w messages.
  - apply grows_refl.
  - cbn [iterate].
    pose proof (process_message_grows self w messages m channel_name) as Hg.
    cbv zeta in Hg.
    destruct (process_message _ _ _ _ _ _ _ _) as [[messages1 self1] w1].
    cbn [fst snd] in Hg.
    eapply grows_trans; [exact Hg|]. apply IH.
  - apply grows_refl.
Qed.

Lemma seed_image_counter_grows (self : scraper) (w : world)
    (channel_name config_channel : string) (max_images : Z) :
  let run :=
    seed_image_counter self w channel_name config_channel max_images in
  grows self w run.1 run.2.
Proof.
  cbv zeta. unfold seed_image_counter.
  destruct (downloaded_images_count self !! config_channel) as [c|] eqn:E.
  - destruct (_ && _); cbn [fst snd]; [|apply grows_refl].
    eapply grows_trans; [apply grows_add_limit|]. apply grows_emit.
  - assert (Hseed : forall n, 0 <= n ->
              grows self w
                (set_downloaded_images_count
                   (<[config_channel := n]> (downloaded_images_count self))
                   self) w).
    { intros n Hn. apply grows_set_counter. unfold downloaded_count.
      rewrite E. exact Hn. }
    assert (Hn : 0 <= (if image_dir_exists channel_name w
                       then count_jpg channel_name w else 0)).
    { destruct (image_dir_exists channel_name w);
        [apply count_jpg_nonneg|lia]. }
    destruct (_ >=? _); cbn [fst snd]; [|apply Hseed, Hn].
    eapply grows_trans; [apply Hseed, Hn|].
    eapply grows_trans; [apply grows_add_limit|]. apply grows_emit.
Qed.

Lemma scrape_channel_grows (self : scraper) (w : world)
    (channel_username : string) (limit : option nat)
    (offset_date : option datetime) :
  let run :=
    scrape_channel DEFAULT_MAX_IMAGES clock telegram self w channel_username
      limit offset_date in
  grows self w run.1.2 run.2.
Proof.
  cbv zeta. unfold scrape_channel.
  destruct (client self); cbn [negb]; [|apply grows_emit].
  destruct (get_entity telegram channel_username) as [e|ex].
  - rewrite get_max_images_for_channel_resolve.
    match goal with
    | |- context [seed_image_counter ?s ?w0 ?c ?k ?m] =>
        pose proof (seed_image_counter_grows s w0 c k m) as Hs;
        destruct (seed_image_counter s w0 c k m) as [self1 w1]
    end.
    cbv zeta in Hs. cbn [fst snd] in Hs.
    match goal with
    | |- context [iterate ?d ?c ?t ?st ?s ?w0 ?ms ?ch] =>
        pose proof (iterate_grows st s w0 ms ch) as Hi;
        destruct (iterate d c t st s w0 ms ch) as [res [[messages self2] w2]]
    end.
    cbv zeta in Hi. cbn [fst snd] in Hi.
    eapply grows_trans; [exact Hs|]. eapply grows_trans; [exact Hi|].
    destruct res; cbn [fst snd]; [apply grows_add_channel|apply grows_emit].
  - destruct ex; apply grows_emit.
Qed.

End GrowthFacts.

Section RunFacts.

Variable DEFAULT_MAX_IMAGES : Z.
Variable clock : nat -> datetime.
Variable telegram : provider.

Lemma save_messages_to_json_grows (self : scraper) (w : world)
    (messages : list Scraped.t) (channel_name : string)
    (date : option datetime) :
  let run := save_messages_to_json clock self w messages channel_name date in
  grows self w run.1.2 run.2.
Proof.
  cbv zeta.
  destruct (save_messages_to_json_frame clock self w messages channel_name
              date)
    as (res & self' & w' & -> & F1 & F2 & F3 & F4 & F5 & F6 & F7 & _ & F9).
  cbn [fst snd]. constructor; auto.
  - intros k. unfold downloaded_count. rewrite F3. lia.
  - rewrite F4. reflexivity.
  - rewrite F5. reflexivity.
  - intros dir file. unfold image_exists. rewrite F7. auto.
Qed.

Lemma save_by_date_grows (items : list (string * list Scraped.t))
    (channel_name : string) (self : scraper) (w : world) :
  let run := save_by_date clock items channel_name self w in
  grows self w run.1.2 run.2.
Proof.
  cbv zeta. revert self w.
  induction items as [|[k l] rest IH]; intros self w; [apply grows_refl|].
  cbn [save_by_date].
  destruct (PyDate.strptime_ymd k) as [d|e]; [|apply grows_refl].
  pose proof (save_messages_to_json_grows self w l channel_name (Some d))
    as Hg. cbv zeta in Hg.
  destruct (save_messages_to_json clock self w l channel_name (Some d))
    as [[res self1] w1]. cbn [fst snd] in Hg.
  destruct res; [|exact Hg].
  eapply grows_trans; [exact Hg|apply IH].
Qed.

Lemma flush_channel_grows (self : scraper) (w : world)
    (messages : list Scraped.t) :
  let run := flush_channel clock self w messages in
  grows self w run.1.2 run.2.
Proof.
  cbv zeta. unfold flush_channel.
  destruct messages as [|first rest]; [apply grows_refl|].
  pose proof (group_by_date_world clock (first :: rest) w [])
    as (Hi & Hp & _).
  destruct (group_by_date clock (first :: rest) w []) as [items w1].
  cbn [fst snd] in Hi, Hp.
  eapply grows_trans; [apply (grows_world self w w1 Hi Hp)|].
  apply save_by_date_grows.
Qed.

Lemma scrape_multiple_channels_grows (channel_usernames : list string)
    (limit_per_channel : option nat) (self : scraper) (w : world) :
  let run :=
    scrape_multiple_channels DEFAULT_MAX_IMAGES clock telegram
      channel_usernames limit_per_channel self w in
  grows self w run.1 run.2.
Proof.
  cbv zeta. revert self w.
  induction channel_usernames as [|username rest IH]; intros self w;
    [apply grows_refl|].
  cbn [scrape_multiple_channels].
  pose proof (scrape_channel_grows DEFAULT_MAX_IMAGES clock telegram self w
                username limit_per_channel None) as Hs. cbv zeta in Hs.
  destruct (scrape_channel _ _ _ _ _ _ _ _) as [[messages self1] w1].
  cbn [fst snd] in Hs.
  pose proof (flush_channel_grows self1 w1 messages) as Hf. cbv zeta in Hf.
  destruct (flush_channel clock self1 w1 messages) as [[flushed self2] w2].
  cbn [fst snd] in Hf.
  eapply grows_trans; [exact Hs|]. eapply grows_trans; [exact Hf|].
  eapply grows_trans; [|apply IH].
  destruct flushed; apply grows_emit.
Qed.

End RunFacts.

(** X15. Whatever happens during a scrape of one channel (not connected,
    channel missing or private, iterator or download failing at any point),
    the state only grows: the registry is untouched, no counter goes down,
    no image disappears; and no partition file is touched at all. *)
Theorem scrape_channel_only_grows (DEFAULT_MAX_IMAGES : Z)
    (clock : nat -> datetime) (telegram : provider) (self : scraper)
    (w : world) (channel_username : string) (limit : option nat)
    (offset_date : option datetime) :
  exists messages self' w',
    scrape_channel DEFAULT_MAX_IMAGES clock telegram self w channel_username
      limit offset_date = (messages, self', w')
    /\ grows self w self' w'
    /\ partitions w' = partitions w
    /\ scraped_dates self' = scraped_dates self.
Proof.
  pose proof (scrape_channel_grows DEFAULT_MAX_IMAGES clock telegram self w
                channel_username limit offset_date) as Hg. cbv zeta in Hg.
  assert (Hkeep : let run :=
                    scrape_channel DEFAULT_MAX_IMAGES clock telegram self w
                      channel_username limit offset_date in
                  partitions run.2 = partitions w
                  /\ scraped_dates run.1.2 = scraped_dates self).
  { cbv zeta. unfold scrape_channel.
    destruct (client self); cbn [negb]; [|auto].
    destruct (get_entity telegram channel_username) as [e|ex];
      [|destruct ex; auto].
    rewrite get_max_images_for_channel_resolve.
    match goal with
    | |- context [seed_image_counter ?s ?w0 ?c ?k ?m] =>
        assert (Hs : partitions (seed_image_counter s w0 c k m).2
                     = partitions w0
                     /\ scraped_dates (seed_image_counter s w0 c k m).1
                        = scraped_dates s)
          by (unfold seed_image_counter;
              destruct (downloaded_images_count s !! k);
              [destruct (_ && _)|destruct (_ >=? _)]; auto);
        destruct (seed_image_counter s w0 c k m) as [self1 w1]
    end.
    cbn [fst snd] in Hs. destruct Hs as [Hs1 Hs2].
    assert (Hit : forall steps s0 w0 ms,
              let it := iterate DEFAULT_MAX_IMAGES clock telegram steps s0 w0
                          ms (if truthy_str (title e)
                              then default ""%string (title e)
                              else channel_username) in
              partitions it.2.2 = partitions w0
              /\ scraped_dates it.2.1.2 = scraped_dates s0).
    { induction steps as [|[m|ex] rest IH]; intros s0 w0 ms; cbv zeta;
        [auto| |auto].
      cbn [iterate].
      match goal with
      | |- context [process_message ?d ?c ?t ?s ?w2 ?msgs ?m0 ?ch] =>
          assert (Hpm : partitions
                          (process_message d c t s w2 msgs m0 ch).2
                        = partitions w2
                        /\ scraped_dates
                             (process_message d c t s w2 msgs m0 ch).1.2
                           = scraped_dates s);
          [|destruct (process_message d c t s w2 msgs m0 ch)
              as [[ms1 s1] w3]]
      end.
      { rewrite process_message_body. unfold message_body.
        pose proof (extract_message_data_world clock w0 m
                      (if truthy_str (title e)
                       then default ""%string (title e)
                       else channel_username)) as (_ & Hp & _).
        destruct (extract_message_data clock w0 m _) as [[r|] w3];
          cbn [fst snd] in *; [|auto].
        destruct (_ && _); [|auto].
        match goal with
        | |- context [download_image ?d ?t ?s ?w4 ?m0 ?ch ?i] =>
            destruct (download_image_step d t s w4 m0 ch i)
              as (ret & s2 & w5 & Hrun & _ & _ & _ & _ & Hp5 & _);
            assert (Hd : scraped_dates
                           (download_image d t s w4 m0 ch i).1.2
                         = scraped_dates s)
        end.
        { unfold download_image.
          destruct (init_counter_fields s0
                      (get_config_channel_name (channel_max_images s0)
                         (if truthy_str (title e)
                          then default ""%string (title e)
                          else channel_username)))
            as (_ & _ & _ & _ & F5).
          repeat match goal with
                 | |- context [match ?x with _ => _ end] =>
                     lazymatch x with
                     | context [match _ with _ => _ end] => fail
                     | _ => destruct x
                     end
                 end; cbn [fst snd]; try reflexivity; exact F5. }
        rewrite Hrun in Hd |- *. cbn [fst snd emit partitions] in *.
        split; congruence. }
      cbn [fst snd] in Hpm. destruct Hpm as [Hp1 Hp2].
      destruct (IH s1 w3 ms1) as [I1 I2]. split; congruence. }
    destruct (Hit (iter_messages telegram e limit offset_date) self1 w1 [])
      as [I1 I2].
    destruct (iterate _ _ _ _ _ _ _ _) as [res [[messages self2] w2]].
    cbn [fst snd] in I1, I2.
    destruct res; cbn [fst snd emit partitions add_scraped_channel
                         scraped_dates]; split; congruence. }
  cbv zeta in Hkeep.
  destruct (scrape_channel _ _ _ _ _ _ _ _) as [[messages self'] w'].
  cbn [fst snd] in *. destruct Hkeep as [K1 K2].
  exists messages, self', w'. auto.
Qed.

(** X16. The channel loop of a whole run, over any list of channels and
    whatever fails on the way, only grows the scraper and the image store:
    the registry and the client are the same at the end, no counter is
    lower, no channel or date has left the scraper's sets, and every image
    that was on disk is still there. *)
Theorem scrape_multiple_channels_only_grows (DEFAULT_MAX_IMAGES : Z)
    (clock : nat -> datetime) (telegram : provider)
    (channel_usernames : list string) (limit_per_channel : option nat)
    (self : scraper) (w : world) :
  exists self' w',
    scrape_multiple_channels DEFAULT_MAX_IMAGES clock telegram
      channel_usernames limit_per_channel self w = (self', w')
    /\ channel_max_images self' = channel_max_images self
    /\ client self' = client self
    /\ (forall k, downloaded_count self k <= downloaded_count self' k)
    /\ channel_limit_reached self ⊆ channel_limit_reached self'
    /\ scraped_channels self ⊆ scraped_channels self'
    /\ scraped_dates self ⊆ scraped_dates self'
    /\ (forall dir file,
          image_exists dir file w = true -> image_exists dir file w' = true).
Proof.
  pose proof (scrape_multiple_channels_grows DEFAULT_MAX_IMAGES clock telegram
                channel_usernames limit_per_channel self w) as Hg.
  cbv zeta in Hg.
  destruct (scrape_multiple_channels _ _ _ _ _ _ _) as [self' w'].
  exists self', w'. split; [reflexivity|].
  destruct Hg as [G1 G2 G3 G4 G5 G6 G7 _]. split_and!; assumption.
Qed.

(** ** The summary *)

Lemma sum_counts_insert (m : gmap string Z) (k : string) (c : Z) :
  m !! k = None -> sum_counts (<[k := c]> m) = c + sum_counts m.
Proof.
  intros Hk. unfold sum_counts. apply map_fold_insert_L; [|exact Hk].
  intros. lia.
Qed.

Lemma sum_counts_delete (m : gmap string Z) (k : string) :
  sum_counts m = default 0 (m !! k) + sum_counts (delete k m).
Proof.
  destruct (m !! k) as [c|] eqn:E.
  - rewrite <- (insert_delete_id m k c E) at 1.
    rewrite sum_counts_insert by apply lookup_delete_eq. reflexivity.
  - rewrite delete_id by exact E. cbn. lia.
Qed.

(** The sum depends only on what the counters read. *)
Lemma sum_counts_reading (a b : gmap string Z) :
  (forall k, default 0 (a !! k) = default 0 (b !! k)) ->
  sum_counts a = sum_counts b.
Proof.
  revert b. induction a as [|i x a Hi IH] using map_ind; intros b Hab.
  - induction b as [|j y b Hj IHb] using map_ind; [reflexivity|].
    rewrite sum_counts_insert by exact Hj.
    pose proof (Hab j) as Hy. rewrite lookup_empty, lookup_insert_eq in Hy.
    cbn in Hy. subst y. rewrite <- IHb; [reflexivity|].
    intros k. rewrite lookup_empty. cbn.
    destruct (decide (k = j)) as [->|Hne]; [rewrite Hj; reflexivity|].
    specialize (Hab k). rewrite lookup_empty, lookup_insert_ne in Hab
      by congruence. exact Hab.
  - rewrite sum_counts_insert by exact Hi.
    rewrite (sum_counts_delete b i).
    pose proof (Hab i) as Hx. rewrite lookup_insert_eq in Hx. cbn in Hx.
    rewrite <- Hx. f_equal. apply IH. intros k.
    destruct (decide (k = i)) as [->|Hne].
    + rewrite Hi, lookup_delete_eq. reflexivity.
    + rewrite lookup_delete_ne by congruence.
      specialize (Hab k). rewrite lookup_insert_ne in Hab by congruence.
      exact Hab.
Qed.

(** Counters that read alike away from one key sum alike away from it. *)
Lemma sum_counts_but_one (self self' : scraper) (key : string) :
  (forall k, k <> key -> downloaded_count self' k = downloaded_count self k) ->
  sum_counts (downloaded_images_count self') - downloaded_count self' key
  = sum_counts (downloaded_images_count self) - downloaded_count self key.
Proof.
  intros Hother.
  rewrite (sum_counts_delete (downloaded_images_count self') key).
  rewrite (sum_counts_delete (downloaded_images_count self) key).
  unfold downloaded_count in *.
  rewrite (sum_counts_reading (delete key (downloaded_images_count self'))
             (delete key (downloaded_images_count self))); [lia|].
  intros k. destruct (decide (k = key)) as [->|Hne].
  - rewrite !lookup_delete_eq. reflexivity.
  - rewrite !lookup_delete_ne by congruence. apply Hother, Hne.
Qed.

Lemma images_by_channel_of_ok (default_quota : Z) (mapping : pydict Z)
    (counts : gmap string Z) :
  images_by_channel_of default_quota mapping counts
  = Ok (map_imap
          (fun channel count =>
             Some (Summary.mk_stats count
                     (RegistrySpec.resolve_quota default_quota mapping
                        channel)))
          counts).
Proof.
  unfold images_by_channel_of.
  apply (map_fold_weak_ind
           (fun r m =>
              r = Ok (map_imap
                        (fun channel count =>
                           Some (Summary.mk_stats count
                                   (RegistrySpec.resolve_quota default_quota
                                      mapping channel))) m))).
  - rewrite map_imap_empty. reflexivity.
  - intros i x m r Hi ->.
    rewrite get_max_images_for_channel_resolve.
    rewrite (map_imap_insert_Some _ i x m _ eq_refl). reflexivity.
Qed.

(** The summary never fails, and reads the scraper field by field. *)
Lemma get_scraping_summary_ok (default_quota : Z) (self : scraper) :
  exists s,
    get_scraping_summary default_quota self = Ok s
    /\ Summary.images_downloaded s
       = sum_counts (downloaded_images_count self)
    /\ Summary.total_channels s = size (scraped_channels self)
    /\ (forall k,
          Summary.images_by_channel s !! k
          = (fun count =>
               Summary.mk_stats count
                 (RegistrySpec.resolve_quota default_quota
                    (channel_max_images self) k))
            <$> downloaded_images_count self !! k).
Proof.
  unfold get_scraping_summary. rewrite images_by_channel_of_ok.
  eexists. split; [reflexivity|]. cbn. split_and!; try reflexivity.
  intros k. rewrite map_lookup_imap.
  destruct (downloaded_images_count self !! k); reflexivity.
Qed.

(** X17. The summary never fails.  Its total is the sum of the counters, and
    for every name whose canonical key has a counter it lists that counter
    under the key together with, as "max", the very quota [download_image]
    enforces under that name (the registry holding the config names of the
    pattern table, as the loaded one does). *)
Theorem summary_reports_the_enforced_quota (DEFAULT_MAX_IMAGES : Z)
    (self : scraper) (name : string) (count : Z) :
  covers_mappings (channel_max_images self) ->
  downloaded_images_count self
    !! get_config_channel_name (channel_max_images self) name = Some count ->
  exists s,
    get_scraping_summary DEFAULT_MAX_IMAGES self = Ok s
    /\ Summary.images_downloaded s = sum_counts (downloaded_images_count self)
    /\ Summary.images_by_channel s
         !! get_config_channel_name (channel_max_images self) name
       = Some (Summary.mk_stats count
                 (RegistrySpec.resolve_quota DEFAULT_MAX_IMAGES
                    (channel_max_images self) name)).
Proof.
  intros Hcov Hcount.
  destruct (get_scraping_summary_ok DEFAULT_MAX_IMAGES self)
    as (s & Hs & Htotal & _ & Hby).
  exists s. split; [exact Hs|]. split; [exact Htotal|].
  rewrite Hby, Hcount. cbn.
  rewrite resolve_quota_canonical by exact Hcov. reflexivity.
Qed.

Lemma summary_reports_the_enforced_quota_witness :
  exists s,
    get_scraping_summary 1500
      (set_downloaded_images_count {[ "CheMed123"%string := 7 ]}
         Sample.scraper0) = Ok s
    /\ Summary.images_downloaded s
       = sum_counts {[ "CheMed123"%string := 7 ]}
    /\ Summary.images_by_channel s !! "CheMed123"%string
       = Some (Summary.mk_stats 7 1500).
Proof.
  destruct (summary_reports_the_enforced_quota 1500
              (set_downloaded_images_count {[ "CheMed123"%string := 7 ]}
                 Sample.scraper0) "che med 123" 7)
    as (s & Hs & Htotal & Hby).
  - repeat constructor.
  - reflexivity.
  - exists s. split; [exact Hs|]. split; [exact Htotal|exact Hby].
Defined.

(** X18. With a provider whose fetches write the file exactly when they
    return, after the scrape of a channel met for the first time the
    summary's total has grown by the number of [.jpg] files now in the
    channel's image directory: it counts the files found there at the start
    as well as those fetched, while the counters of the other channels
    contribute what they did before. *)
Theorem summary_counts_the_files_on_disk (DEFAULT_MAX_IMAGES : Z)
    (clock : nat -> datetime) (telegram : provider) (self : scraper)
    (w : world) (channel_username : string) (limit : option nat)
    (offset_date : option datetime) (e : entity) :
  let channel_name := display_name e channel_username in
  let config_channel :=
    get_config_channel_name (channel_max_images self) channel_name in
  fetch_is_atomic telegram ->
  client self = true ->
  get_entity telegram channel_username = Ok e ->
  downloaded_images_count self !! config_channel = None ->
  exists messages self' w' s s',
    scrape_channel DEFAULT_MAX_IMAGES clock telegram self w channel_username
      limit offset_date = (messages, self', w')
    /\ get_scraping_summary DEFAULT_MAX_IMAGES self = Ok s
    /\ get_scraping_summary DEFAULT_MAX_IMAGES self' = Ok s'
    /\ Summary.images_downloaded s'
       = Summary.images_downloaded s + count_jpg channel_name w'.
Proof.
  intros channel_name config_channel Hatomic Hclient Hentity Hnone.
  rewrite (scrape_channel_found DEFAULT_MAX_IMAGES clock telegram self w
             channel_username limit offset_date e Hclient Hentity).
  cbv zeta. fold channel_name config_channel.
  set (M := RegistrySpec.resolve_quota DEFAULT_MAX_IMAGES
              (channel_max_images self) channel_name).
  destruct (seed_image_counter_spec self w channel_name config_channel M)
    as (self1 & w1 & evs & -> & S1 & _ & S3 & S4 & S5 & _).
  cbn [fst snd].
  destruct (iterate_balance DEFAULT_MAX_IMAGES clock telegram Hatomic
              (iter_messages telegram e limit offset_date) self1 w1 []
              channel_name)
    as (res & messages' & self' & w' & Hrun & Hb).
  destruct (iterate_step DEFAULT_MAX_IMAGES clock telegram
              (iter_messages telegram e limit offset_date) self1 w1 []
              channel_name)
    as (res0 & messages0 & self0 & w0 & Hrun0 & _ & _ & _ & Hframe & _).
  rewrite Hrun in Hrun0. injection Hrun0 as <- <- <- <-.
  rewrite S1 in Hb, Hframe. fold config_channel in Hb, Hframe.
  rewrite S3 in Hb. unfold entry_count in Hb. rewrite Hnone in Hb.
  assert (Hjpg : count_jpg channel_name w1 = count_jpg channel_name w)
    by (unfold count_jpg; rewrite S5; reflexivity).
  assert (Hkey : downloaded_count self' config_channel
                 = count_jpg channel_name w') by lia.
  assert (Hsum : sum_counts (downloaded_images_count self')
                 = sum_counts (downloaded_images_count self)
                   + count_jpg channel_name w').
  { assert (Hother : forall k, k <> config_channel ->
              downloaded_count self' k = downloaded_count self k)
      by (intros k Hk; rewrite Hframe, S4 by exact Hk; reflexivity).
    pose proof (sum_counts_but_one self self' config_channel Hother) as Hs.
    assert (Hzero : downloaded_count self config_channel = 0)
      by (unfold downloaded_count; rewrite Hnone; reflexivity).
    lia. }
  destruct (get_scraping_summary_ok DEFAULT_MAX_IMAGES self)
    as (s & Hs & Htotal & _).
  rewrite Hrun.
  destruct res.
  - destruct (get_scraping_summary_ok DEFAULT_MAX_IMAGES
                (add_scraped_channel channel_name self'))
      as (s' & Hs' & Htotal' & _).
    eexists _, _, _, s, s'. split; [reflexivity|].
    split; [exact Hs|]. split; [exact Hs'|].
    rewrite Htotal', Htotal. exact Hsum.
  - destruct (get_scraping_summary_ok DEFAULT_MAX_IMAGES self')
      as (s' & Hs' & Htotal' & _).
    eexists _, _, _, s, s'. split; [reflexivity|].
    split; [exact Hs|]. split; [exact Hs'|].
    rewrite Htotal', Htotal. exact Hsum.
Qed.

Lemma summary_counts_the_files_on_disk_witness :
  exists messages self' w' s s',
    scrape_channel 1500 Sample.clock0
      (Sample.telegram [Yield (Sample.photo 3 Sample.day0)])
      Sample.scraper0 Sample.world_images "testchan" None None
    = (messages, self', w')
    /\ get_scraping_summary 1500 Sample.scraper0 = Ok s
    /\ get_scraping_summary 1500 self' = Ok s'
    /\ Summary.images_downloaded s'
       = Summary.images_downloaded s + count_jpg "TestChan" w'.
Proof.
  apply (summary_counts_the_files_on_disk 1500 Sample.clock0
           (Sample.telegram [Yield (Sample.photo 3 Sample.day0)])
           Sample.scraper0 Sample.world_images "testchan" None None
           (mk_entity (Some "TestChan"%string)));
    [intros message path; reflexivity|reflexivity..].
Defined.
